(** * WeatherAlert: a shallow embedding of [function_app.py]

    The development follows the source file top to bottom:

    - Python values as they come out of [response.json()], with the
      exceptions the built-in operations raise on them;
    - a small state-and-exception monad: the state is the trace of
      observable events (log records, HTTP requests, the hand-off to the
      mail transport);
    - [get_wind_direction], [get_accuweather_location_key],
      [get_accuweather_forecast], [send_email_with_images] and the timer
      function [WeatherAlert];
    - the properties of the specification, one theorem per claim;
    - further properties of the same functions: their failure paths,
      the fields of a normalised record, the icons and attachments of a
      report, and the run as a whole. *)

From Stdlib Require Import ZArith List String Ascii Strings.Byte Lia Bool.
From Stdlib Require Import DecimalString Sorting.Sorted Permutation.
From Stdlib Require Import Floats.PrimFloat Floats.SpecFloat Floats.FloatOps.
From stdpp Require Import base gmap strings list.

Import ListNotations.
Local Open Scope string_scope.
Local Open Scope Z_scope.

(** ** Python values *)

(** A JSON document decoded by [response.json()]: [None], [bool], [int],
    [float], [str], [list] and [dict] with string keys.  A [dict] is kept
    as an association list in insertion order; lookups take the first
    binding of a key. *)
#[warnings="-register-all"]
Inductive pyval : Type :=
| PNone
| PBool (b : bool)
| PInt (z : Z)
| PFloat (f : float)
| PStr (s : string)
| PList (items : list pyval)
| PDict (kv : list (string * pyval)).

(** The exception classes that matter for the handlers of the source.
    [RequestException] stands for the whole [requests.exceptions]
    hierarchy; it carries the HTTP status when there was a response
    ([e.response is not None]). *)
Inductive exn : Type :=
| AttributeError
| TypeError
| ValueError
| KeyError
| IndexError
| OverflowError
| OSError
| RequestException (status : option Z).

Inductive res (A : Type) : Type :=
| Ok (a : A)
| Raise (e : exn).
Arguments Ok {A} a.
Arguments Raise {A} e.

Definition res_bind {A B} (r : res A) (k : A -> res B) : res B :=
  match r with
  | Ok a => k a
  | Raise e => Raise e
  end.

(** ** Strings *)

Definition dq : string := String (ascii_of_nat 34) EmptyString.

Definition is_upper (c : ascii) : bool :=
  let n := nat_of_ascii c in ((65 <=? n) && (n <=? 90))%nat.
Definition is_lower (c : ascii) : bool :=
  let n := nat_of_ascii c in ((97 <=? n) && (n <=? 122))%nat.
Definition to_upper (c : ascii) : ascii :=
  if is_lower c then ascii_of_nat (nat_of_ascii c - 32) else c.
Definition to_lower (c : ascii) : ascii :=
  if is_upper c then ascii_of_nat (nat_of_ascii c + 32) else c.

Fixpoint str_lower (s : string) : string :=
  match s with
  | EmptyString => EmptyString
  | String c r => String (to_lower c) (str_lower r)
  end.

(** [str.capitalize()]: first character upper-cased, every other
    character lower-cased.  Strings are byte strings here; the case
    mapping is the ASCII one and bytes above 127 are left alone. *)
Definition capitalize (s : string) : string :=
  match s with
  | EmptyString => EmptyString
  | String c r => String (to_upper c) (str_lower r)
  end.

Fixpoint zeros (n : nat) : string :=
  match n with
  | O => EmptyString
  | S k => String "0" (zeros k)
  end.

(** [str.zfill(width)]: left padding with ["0"], after a leading sign. *)
Definition zfill (width : nat) (s : string) : string :=
  let n := String.length s in
  if (width <=? n)%nat then s
  else match s with
       | String c r =>
           if (Ascii.eqb c "+" || Ascii.eqb c "-")%bool
           then String c (zeros (width - n) +:+ r)
           else zeros (width - n) +:+ s
       | EmptyString => zeros width
       end.

Fixpoint is_prefix (p s : string) : bool :=
  match p, s with
  | EmptyString, _ => true
  | String a p', String b s' => Ascii.eqb a b && is_prefix p' s'
  | String _ _, EmptyString => false
  end.

(** [needle in haystack] on strings. *)
Fixpoint is_substring (p s : string) : bool :=
  is_prefix p s ||
  match s with
  | EmptyString => false
  | String _ s' => is_substring p s'
  end.

Definition str_of_Z (z : Z) : string := NilZero.string_of_int (Z.to_int z).

(** ** Numbers *)

(** [float(z)]: the nearest binary64 value, ties to even;
    [OverflowError] when it is not finite. *)
Definition float_of_Z (z : Z) : res float :=
  match binary_normalize prec emax z 0 false with
  | S754_infinity _ | S754_nan => Raise OverflowError
  | sf => Ok (SF2Prim sf)
  end.

(** [int(f)]: truncation toward zero; [ValueError] on NaN and
    [OverflowError] on an infinity. *)
Definition int_of_float (f : float) : res Z :=
  match Prim2SF f with
  | S754_zero _ => Ok 0
  | S754_finite s m e =>
      let a := if 0 <=? e then Z.pos m * 2 ^ e else Z.pos m / 2 ^ (- e) in
      Ok (if s then - a else a)
  | S754_nan => Raise ValueError
  | S754_infinity _ => Raise OverflowError
  end.

Definition Z_of_bool (b : bool) : Z := if b then 1 else 0.

(** The whitespace [int(str)] strips, restricted to ASCII. *)
Definition is_space (c : ascii) : bool :=
  let n := nat_of_ascii c in
  (((9 <=? n) && (n <=? 13)) || ((28 <=? n) && (n <=? 32)))%nat.

Definition is_digit (c : ascii) : bool :=
  let n := nat_of_ascii c in ((48 <=? n) && (n <=? 57))%nat.

Definition digit_val (c : ascii) : Z := Z.of_nat (nat_of_ascii c) - 48.

Fixpoint lstrip (cs : list ascii) : list ascii :=
  match cs with
  | c :: r => if is_space c then lstrip r else cs
  | [] => []
  end.

Definition strip (cs : list ascii) : list ascii :=
  rev (lstrip (rev (lstrip cs))).

(** Decimal digits with single underscores between digits. *)
Fixpoint parse_digits (cs : list ascii) (acc : Z) (after_digit : bool)
  : option Z :=
  match cs with
  | [] => if after_digit then Some acc else None
  | c :: r =>
      if is_digit c then parse_digits r (10 * acc + digit_val c) true
      else if Ascii.eqb c "_" then
             if after_digit then parse_digits r acc false else None
           else None
  end.

(** [int(s)] for a [str] in base ten: surrounding whitespace, an
    optional sign, digits.  Only ASCII digits and whitespace are
    recognised, and the interpreter's limit on the number of digits is
    left out. *)
Definition parse_int (s : string) : option Z :=
  match strip (list_ascii_of_string s) with
  | c :: r =>
      if Ascii.eqb c "-" then option_map Z.opp (parse_digits r 0 false)
      else if Ascii.eqb c "+" then parse_digits r 0 false
      else parse_digits (c :: r) 0 false
  | [] => None
  end.

(** [int(v)] *)
Definition py_int (v : pyval) : res Z :=
  match v with
  | PBool b => Ok (Z_of_bool b)
  | PInt z => Ok z
  | PFloat f => int_of_float f
  | PStr s => match parse_int s with
              | Some z => Ok z
              | None => Raise ValueError
              end
  | PNone | PList _ | PDict _ => Raise TypeError
  end.

(** [bool(v)] *)
Definition truthy (v : pyval) : bool :=
  match v with
  | PNone => false
  | PBool b => b
  | PInt z => negb (z =? 0)
  | PFloat f => negb (PrimFloat.eqb f 0%float)
  | PStr s => negb (String.eqb s EmptyString)
  | PList l => match l with [] => false | _ => true end
  | PDict kv => match kv with [] => false | _ => true end
  end.

(** [seq[i]] on a list, with Python's negative indices. *)
Definition py_index {A} (l : list A) (i : Z) : res A :=
  let n := Z.of_nat (length l) in
  let j := if i <? 0 then i + n else i in
  if (0 <=? j) && (j <? n) then
    match nth_error l (Z.to_nat j) with
    | Some a => Ok a
    | None => Raise IndexError
    end
  else Raise IndexError.

(** [d.get(k)] on the association list of a [dict]. *)
Fixpoint assoc (k : string) (kv : list (string * pyval)) : option pyval :=
  match kv with
  | [] => None
  | (k', v) :: r => if String.eqb k k' then Some v else assoc k r
  end.

(** [obj.get(k, default)]: only a [dict] has the method. *)
Definition py_get (obj : pyval) (k : string) (default : pyval) : res pyval :=
  match obj with
  | PDict kv => Ok (match assoc k kv with Some v => v | None => default end)
  | _ => Raise AttributeError
  end.

(** [iter(v)] run to the end. *)
Definition py_iter (v : pyval) : res (list pyval) :=
  match v with
  | PList l => Ok l
  | PDict kv => Ok (map (fun p => PStr (fst p)) kv)
  | PStr s => Ok (map (fun c => PStr (String c EmptyString))
                      (list_ascii_of_string s))
  | PNone | PBool _ | PInt _ | PFloat _ => Raise TypeError
  end.

(** ** The outside world and the trace of a run *)

Record request : Type := {
  url : string;
  params : list (string * string)
}.

(** What [requests] hands back: the status line, the raw body
    ([response.content]) and the decoded JSON document, if the body
    decodes at all. *)
Record response : Type := {
  status_code : Z;
  content : list byte;
  json_body : option pyval
}.

(** [requests.get]: a response, or a [RequestException] before one
    exists (DNS failure, refused connection, timeout). *)
Inductive http_result : Type :=
| ConnectionFailed
| Response (r : response).

Inductive level : Type := INFO | WARNING | ERROR.

(** One constructor per [logging] call of the source, with the values
    its f-string interpolates. *)
Inductive logmsg : Type :=
| MsgWindParse (degrees : pyval)
| MsgFoundKey (key : pyval) (lat lon : string)
| MsgNoKey (data : pyval)
| MsgLocationFetch (e : exn)
| MsgLocationResponse (status : Z)
| MsgLocationParse (e : exn)
| MsgUnsupportedDays (days : Z)
| MsgMissingDailyForecasts
| MsgSunParse (rise set : pyval)
| MsgForecastFetch (e : exn)
| MsgForecastResponse (status : Z)
| MsgForecastParse (e : exn)
| MsgSmtpConnecting
| MsgSmtpSending
| MsgSmtpSent (to : string)
| MsgSmtpError
| MsgSmtpUnexpected
| MsgPastDue
| MsgStarted
| MsgMissingVars (names : list string)
| MsgConfigError
| MsgFetchingKey (city lat lon : string)
| MsgFailedKey
| MsgFetchingForecast (days : Z) (key : pyval)
| MsgIconFetch (code url : string)
| MsgSendingMail
| MsgMailNotSent
| MsgFinished.

(** The rendered report is kept as the sequence of fragments the source
    appends to [html_content]; [html_text] below turns it into the text.
    [img_tag] is the value of the variable of that name in the detail
    loop. *)
Inductive img_tag : Type :=
| TagDefault
| TagImg (cid alt : string)
| TagFallback (desc : string).

Record detail_fields : Type := {
  d_day_name : string;
  d_month_day : string;
  d_weather : string;
  d_high : string;
  d_low : string;
  d_wind_speed : string;
  d_wind_direction : string;
  d_humidity : string;
  d_precipitation : string;
  d_precip_chance : string;
  d_uv_index : string;
  d_sunrise : string;
  d_sunset : string
}.

Inductive fragment : Type :=
| HtmlHead (actual_days : nat) (city : string)
| SummaryImg (day_name cid desc : string)
| SummaryText (day_name desc : string)
| SummaryEnd
| Detail (tag : img_tag) (fields : detail_fields)
| HtmlFoot.

(** The arguments of [send_email_with_images]. *)
Record mail : Type := {
  mail_user : string;
  mail_password : string;
  mail_to : string;
  mail_subject : string;
  mail_html : list fragment;
  mail_images : list (list byte * string)
}.

Inductive event : Type :=
| EvLog (lvl : level) (msg : logmsg)
| EvGet (rq : request)
| EvMail (m : mail).

(** The environment of one run: the network may answer a request
    differently depending on everything that happened before. *)
(** How the SMTP conversation inside [send_email_with_images] ends:
    the connection or login fails, the transfer fails, or the message
    goes out.  The flag tells an [smtplib.SMTPException] from any other
    exception. *)
Inductive mail_outcome : Type :=
| MailConnectFailed (smtp_error : bool)
| MailSendFailed (smtp_error : bool)
| MailDelivered.

Record world : Type := {
  http : list event -> request -> http_result;
  smtp : list event -> mail -> mail_outcome;
  getenv : string -> option string;
  timer_past_due : bool
}.

(** Behaviour of the interpreter and of its libraries that is not part
    of the repository and that no property below depends on. *)
Class PyRuntime : Type := {
  (** [round(x, 1)] on a [float] *)
  round1 : float -> float;
  (** [str(x)] on a [float] *)
  str_float : float -> string;
  (** [str(x)] on a [list] or a [dict] *)
  str_container : pyval -> string;
  (** [datetime.fromtimestamp(x, tz=utc)] on a [float], in microseconds *)
  fromtimestamp_float : float -> res Z;
  (** the exception [fromtimestamp] raises on an [int] outside years
      1 to 9999: [ValueError], [OverflowError] or [OSError] by size *)
  timestamp_range_error : Z -> exn;
  (** [datetime.fromisoformat(s).strftime("%I:%M%p %Z")], [None] when
      [fromisoformat] raises [ValueError] *)
  iso_clock : string -> option string;
  (** whether [float(s)] accepts the string *)
  parses_as_float : string -> bool;
  (** the image type [MIMEImage] guesses from the data; [None] makes its
      constructor raise [TypeError] *)
  guess_image_subtype : list byte -> option string
}.

(** ** The monad of the embedding *)

Definition M (A : Type) : Type := list event -> res A * list event.

Definition ret {A} (a : A) : M A := fun t => (Ok a, t).

Definition bind {A B} (c : M A) (k : A -> M B) : M B :=
  fun t => match c t with
           | (Ok a, t') => k a t'
           | (Raise e, t') => (Raise e, t')
           end.

Definition raise {A} (e : exn) : M A := fun t => (Raise e, t).

Definition lift {A} (r : res A) : M A := fun t => (r, t).

Definition emit (ev : event) : M unit := fun t => (Ok tt, (t ++ [ev])%list).

Definition log (lvl : level) (msg : logmsg) : M unit := emit (EvLog lvl msg).

(** [try: c except ...: h e]; the handler answers [None] for the
    exceptions its [except] clauses do not list. *)
Definition try_except {A} (c : M A) (h : exn -> option (M A)) : M A :=
  fun t => match c t with
           | (Ok a, t') => (Ok a, t')
           | (Raise e, t') =>
               match h e with
               | Some k => k t'
               | None => (Raise e, t')
               end
           end.

Declare Scope py_scope.
Delimit Scope py_scope with py.
Notation "x <- c ;; k" := (bind c (fun x => k))
  (at level 100, c at next level, right associativity) : py_scope.
Notation "c ;; k" := (bind c (fun _ => k))
  (at level 100, right associativity) : py_scope.
Notation "'let?' x := c 'in' k" := (res_bind c (fun x => k))
  (at level 10, x name, c at level 100, k at level 200) : py_scope.
Local Open Scope py_scope.

Fixpoint mapM {A B} (f : A -> M B) (l : list A) : M (list B) :=
  match l with
  | [] => ret []
  | a :: r => b <- f a ;; bs <- mapM f r ;; ret (b :: bs)
  end.

(** ** [get_wind_direction] *)

Definition directions : list string :=
  [ "N"; "NNE"; "NE"; "ENE"; "E"; "ESE"; "SE"; "SSE";
    "S"; "SSW"; "SW"; "WSW"; "W"; "WNW"; "NW"; "NNW" ].

(** The body of the [try]:
    [directions[int((int(degrees) + 11.25) / 22.5) % 16]]. *)
Definition wind_lookup (degrees : pyval) : res string :=
  let? d := py_int degrees in
  let? x := float_of_Z d in
  let? i := int_of_float (PrimFloat.div (PrimFloat.add x 11.25%float) 22.5%float) in
  py_index directions (i mod 16).

Definition get_wind_direction (degrees : pyval) : M string :=
  match degrees with
  | PNone => ret "N/A"
  | _ =>
      try_except (lift (wind_lookup degrees))
        (fun e => match e with
                  | ValueError | TypeError | IndexError =>
                      Some (log WARNING (MsgWindParse degrees) ;; ret "N/A")
                  | _ => None
                  end)
  end.

(** ** Python operators used by the normaliser *)

Section Runtime.
Context `{RT : PyRuntime}.

(** [str(v)], as the f-strings of the source apply it. *)
Definition py_str (v : pyval) : string :=
  match v with
  | PNone => "None"
  | PBool true => "True"
  | PBool false => "False"
  | PInt z => str_of_Z z
  | PFloat f => str_float f
  | PStr s => s
  | PList _ | PDict _ => str_container v
  end.

(** [a + b] *)
Definition py_add (a b : pyval) : res pyval :=
  match a, b with
  | PBool x, PBool y => Ok (PInt (Z_of_bool x + Z_of_bool y))
  | PBool x, PInt y => Ok (PInt (Z_of_bool x + y))
  | PInt x, PBool y => Ok (PInt (x + Z_of_bool y))
  | PInt x, PInt y => Ok (PInt (x + y))
  | PBool x, PFloat g =>
      let? f := float_of_Z (Z_of_bool x) in Ok (PFloat (PrimFloat.add f g))
  | PInt x, PFloat g =>
      let? f := float_of_Z x in Ok (PFloat (PrimFloat.add f g))
  | PFloat f, PBool y =>
      let? g := float_of_Z (Z_of_bool y) in Ok (PFloat (PrimFloat.add f g))
  | PFloat f, PInt y =>
      let? g := float_of_Z y in Ok (PFloat (PrimFloat.add f g))
  | PFloat f, PFloat g => Ok (PFloat (PrimFloat.add f g))
  | PStr s, PStr t => Ok (PStr (s +:+ t))
  | PList l, PList m => Ok (PList (l ++ m)%list)
  | _, _ => Raise TypeError
  end.

(** [round(v, 1)]: an [int] (or [bool]) comes back as an [int]. *)
Definition py_round1 (v : pyval) : res pyval :=
  match v with
  | PBool b => Ok (PInt (Z_of_bool b))
  | PInt z => Ok (PInt z)
  | PFloat f => Ok (PFloat (round1 f))
  | PNone | PStr _ | PList _ | PDict _ => Raise TypeError
  end.

(** The literal [3.6], that is the binary64 value nearest to it. *)
#[warnings="-inexact-float"]
Definition kmh_per_ms : float := 3.6%float.

(** [round(v / 3.6, 1)] *)
Definition kmh_to_ms (v : pyval) : res float :=
  match v with
  | PBool b =>
      let? f := float_of_Z (Z_of_bool b) in Ok (round1 (PrimFloat.div f kmh_per_ms))
  | PInt z =>
      let? f := float_of_Z z in Ok (round1 (PrimFloat.div f kmh_per_ms))
  | PFloat f => Ok (round1 (PrimFloat.div f kmh_per_ms))
  | PNone | PStr _ | PList _ | PDict _ => Raise TypeError
  end.

(** [a == b] for numbers (exact, as Python compares an [int] with a
    [float]); used to read ["precipitation == 0.0"]. *)
Definition float_is_Z (f : float) (z : Z) : bool :=
  match Prim2SF f with
  | S754_zero _ => z =? 0
  | S754_finite s m e =>
      let n := if s then - Z.pos m else Z.pos m in
      if 0 <=? e then z =? n * 2 ^ e else z * 2 ^ (- e) =? n
  | S754_nan | S754_infinity _ => false
  end.

Definition py_num_eq (a b : pyval) : bool :=
  match a, b with
  | PInt x, PInt y => x =? y
  | PInt x, PFloat g => float_is_Z g x
  | PFloat f, PInt y => float_is_Z f y
  | PFloat f, PFloat g => PrimFloat.eqb f g
  | _, _ => false
  end.

(** ** Dates *)

(** An aware UTC [datetime] is its number of microseconds since the
    epoch. *)
Definition datetime : Type := Z.

Definition MIN_TIMESTAMP : Z := -62135596800.
Definition MAX_TIMESTAMP : Z := 253402300799.

(** [datetime.min.replace(tzinfo=datetime.timezone.utc)] *)
Definition datetime_min : datetime := MIN_TIMESTAMP * 1000000.

(** [datetime.datetime.fromtimestamp(v, tz=datetime.timezone.utc)] *)
Definition fromtimestamp (v : pyval) : res datetime :=
  match v with
  | PBool b => Ok (Z_of_bool b * 1000000)
  | PInt z =>
      if (MIN_TIMESTAMP <=? z) && (z <=? MAX_TIMESTAMP)
      then Ok (z * 1000000)
      else Raise (timestamp_range_error z)
  | PFloat f => fromtimestamp_float f
  | PNone | PStr _ | PList _ | PDict _ => Raise TypeError
  end.

(** Days since 1970-01-01 of the calendar date of a [datetime]. *)
Definition day_number (t : datetime) : Z := t / 86400000000.

(** Year, month and day of a day number (proleptic Gregorian). *)
Definition civil (days : Z) : Z * Z * Z :=
  let z := days + 719468 in
  let era := z / 146097 in
  let doe := z - era * 146097 in
  let yoe := (doe - doe / 1460 + doe / 36524 - doe / 146096) / 365 in
  let y := yoe + era * 400 in
  let doy := doe - (365 * yoe + yoe / 4 - yoe / 100) in
  let mp := (5 * doy + 2) / 153 in
  let d := doy - (153 * mp + 2) / 5 + 1 in
  let m := if mp <? 10 then mp + 3 else mp - 9 in
  (if m <=? 2 then y + 1 else y, m, d).

Definition pad (width : nat) (z : Z) : string := zfill width (str_of_Z z).

Definition weekday_names : list string :=
  [ "Monday"; "Tuesday"; "Wednesday"; "Thursday"; "Friday"; "Saturday";
    "Sunday" ].

Definition month_names : list string :=
  [ "January"; "February"; "March"; "April"; "May"; "June"; "July";
    "August"; "September"; "October"; "November"; "December" ].

(** [t.strftime("%Y-%m-%d")] *)
Definition strftime_date (t : datetime) : string :=
  let '(y, m, d) := civil (day_number t) in
  pad 4 y +:+ "-" +:+ pad 2 m +:+ "-" +:+ pad 2 d.

(** [t.strftime("%A")] *)
Definition strftime_weekday (t : datetime) : string :=
  nth (Z.to_nat ((day_number t + 3) mod 7)) weekday_names EmptyString.

(** [t.strftime("%B %d")] *)
Definition strftime_month_day (t : datetime) : string :=
  let '(_, m, d) := civil (day_number t) in
  nth (Z.to_nat (m - 1)) month_names EmptyString +:+ " " +:+ pad 2 d.

(** ** The normalised record *)

(** The [dict] built for one day, as a record with one field per key. *)
Record forecast : Type := {
  weather_desc : string;
  icon : pyval;
  high_temp : pyval;
  low_temp : pyval;
  wind_speed : float;
  wind_direction : string;
  humidity : string;
  dew_point : string;
  precipitation : pyval;
  precip_chance : pyval;
  uv_index : string;
  sunrise : string;
  sunset : string;
  date_obj : option datetime;
  date_str : string;
  day_name : string
}.

(** [next((item for item in items if item.get("Name") == "UVIndex"), None)]:
    the items after the first match are never looked at. *)
Fixpoint find_uv (items : list pyval) : res (option pyval) :=
  match items with
  | [] => Ok None
  | item :: rest =>
      let? name := py_get item "Name" PNone in
      match name with
      | PStr n => if String.eqb n "UVIndex" then Ok (Some item) else find_uv rest
      | _ => find_uv rest
      end
  end.

Definition uv_index_of (air_and_pollen : pyval) : res string :=
  let? items := py_iter air_and_pollen in
  let? uv_index_info := find_uv items in
  match uv_index_info with
  | Some info =>
      if truthy info then
        let? value := py_get info "Value" PNone in
        let? category := py_get info "Category" PNone in
        Ok (py_str value +:+ " (" +:+ py_str category +:+ ")")
      else Ok "N/A"
  | None => Ok "N/A"
  end.

(** [day_data.get(kind, {}).get("Value", 0)] *)
Definition sub_value (obj : pyval) (kind : string) : res pyval :=
  let? sub := py_get obj kind (PDict []) in
  py_get sub "Value" (PInt 0).

Definition precip_value_of (day_data : pyval) : res pyval :=
  let? rain := sub_value day_data "Rain" in
  let? snow := sub_value day_data "Snow" in
  let? rain_snow := py_add rain snow in
  let? ice := sub_value day_data "Ice" in
  py_add rain_snow ice.

Definition wind_speed_of (wind_speed_kmh : pyval) : res float :=
  match wind_speed_kmh with
  | PNone => Ok 0%float
  | v => kmh_to_ms v
  end.

Definition date_obj_of (epoch_date : pyval) : res (option datetime) :=
  if truthy epoch_date
  then let? t := fromtimestamp epoch_date in Ok (Some t)
  else Ok None.

(** [datetime.fromisoformat(v).strftime("%I:%M%p %Z") if v else "N/A"] *)
Definition clock_of (v : pyval) : res string :=
  if truthy v then
    match v with
    | PStr s => match iso_clock s with
                | Some c => Ok c
                | None => Raise ValueError
                end
    | _ => Raise TypeError
    end
  else Ok "N/A".

(** The inner [try] around the sunrise and sunset strings. *)
Definition sun_times (sunrise_str sunset_str : pyval) : M (string * string) :=
  try_except
    (rise <- lift (clock_of sunrise_str) ;;
     set <- lift (clock_of sunset_str) ;;
     ret (rise, set))
    (fun e => match e with
              | ValueError | TypeError =>
                  Some (log WARNING (MsgSunParse sunrise_str sunset_str) ;;
                        ret ("N/A", "N/A"))
              | _ => None
              end).

(** [v.capitalize()]: a method of [str] only. *)
Definition py_capitalize (v : pyval) : res string :=
  match v with
  | PStr s => Ok (capitalize s)
  | _ => Raise AttributeError
  end.

(** The body of the loop over [data["DailyForecasts"]]. *)
Definition normalise (daily_data : pyval) : M forecast :=
  temp_data <- lift (py_get daily_data "Temperature" (PDict [])) ;;
  day_data <- lift (py_get daily_data "Day" (PDict [])) ;;
  wind_data <- lift (py_get day_data "Wind" (PDict [])) ;;
  wind_speed_data <- lift (py_get wind_data "Speed" (PDict [])) ;;
  wind_direction_data <- lift (py_get wind_data "Direction" (PDict [])) ;;
  sun_data <- lift (py_get daily_data "Sun" (PDict [])) ;;
  air_and_pollen <- lift (py_get daily_data "AirAndPollen" (PList [])) ;;
  uv <- lift (uv_index_of air_and_pollen) ;;
  precip_value <- lift (precip_value_of day_data) ;;
  precip_prob <- lift (py_get day_data "PrecipitationProbability" (PInt 0)) ;;
  wind_speed_kmh <- lift (py_get wind_speed_data "Value" PNone) ;;
  wind_speed_ms <- lift (wind_speed_of wind_speed_kmh) ;;
  epoch_date <- lift (py_get daily_data "EpochDate" PNone) ;;
  date <- lift (date_obj_of epoch_date) ;;
  sunrise_str <- lift (py_get sun_data "Rise" PNone) ;;
  sunset_str <- lift (py_get sun_data "Set" PNone) ;;
  sun <- sun_times sunrise_str sunset_str ;;
  phrase <- lift (py_get day_data "IconPhrase" (PStr "N/A")) ;;
  desc <- lift (py_capitalize phrase) ;;
  icon_code <- lift (py_get day_data "Icon" PNone) ;;
  high <- lift (sub_value temp_data "Maximum") ;;
  high <- lift (py_round1 high) ;;
  low <- lift (sub_value temp_data "Minimum") ;;
  low <- lift (py_round1 low) ;;
  degrees <- lift (py_get wind_direction_data "Degrees" PNone) ;;
  direction <- get_wind_direction degrees ;;
  precip <- lift (py_round1 precip_value) ;;
  ret {| weather_desc := desc;
         icon := icon_code;
         high_temp := high;
         low_temp := low;
         wind_speed := wind_speed_ms;
         wind_direction := direction;
         humidity := "N/A";
         dew_point := "N/A";
         precipitation := precip;
         precip_chance := precip_prob;
         uv_index := uv;
         sunrise := fst sun;
         sunset := snd sun;
         date_obj := date;
         date_str := match date with Some t => strftime_date t | None => "N/A" end;
         day_name := match date with Some t => strftime_weekday t | None => "N/A" end |}.

(** The key of [weekly_forecast.sort]:
    [x["date_obj"] or datetime.min.replace(tzinfo=utc)]. *)
Definition sort_key (x : forecast) : datetime :=
  match date_obj x with
  | Some t => t
  | None => datetime_min
  end.

(** [list.sort(key=...)] is stable; so is insertion from the right before
    the first element that is not smaller. *)
Fixpoint insert_sorted (x : forecast) (l : list forecast) : list forecast :=
  match l with
  | [] => [x]
  | y :: r => if sort_key x <=? sort_key y then x :: y :: r
              else y :: insert_sorted x r
  end.

Fixpoint sort_by_date (l : list forecast) : list forecast :=
  match l with
  | [] => []
  | x :: r => insert_sorted x (sort_by_date r)
  end.

End Runtime.

(** ** The functions that talk to the provider *)

Section Run.
Context `{RT : PyRuntime} (W : world).

(** [requests.get(url, params=params)] *)
Definition requests_get (rq : request) : M response :=
  fun t => match http W t rq with
           | ConnectionFailed => (Raise (RequestException None), (t ++ [EvGet rq])%list)
           | Response r => (Ok r, (t ++ [EvGet rq])%list)
           end.

(** [response.raise_for_status()]: an [HTTPError] for the 4xx and 5xx
    status codes, nothing for any other. *)
Definition raise_for_status (r : response) : res unit :=
  if (400 <=? status_code r) && (status_code r <? 600)
  then Raise (RequestException (Some (status_code r)))
  else Ok tt.

(** [response.json()]: [requests] reports an undecodable body with its
    own [JSONDecodeError], a [RequestException] without a response. *)
Definition response_json (r : response) : res pyval :=
  match json_body r with
  | Some v => Ok v
  | None => Raise (RequestException None)
  end.

Definition ACCUWEATHER_BASE_URL : string := "http://dataservice.accuweather.com".

Definition location_request (lat lon api_key : string) : request :=
  {| url := ACCUWEATHER_BASE_URL +:+ "/locations/v1/cities/geoposition/search";
     params := [ ("apikey", api_key); ("q", lat +:+ "," +:+ lon);
                 ("language", "en-us"); ("toplevel", "false") ] |}.

(** [data and isinstance(data, dict) and "Key" in data], with the value
    of [data["Key"]] when the test holds. *)
Definition location_key_of (data : pyval) : option pyval :=
  if truthy data then
    match data with
    | PDict kv => assoc "Key" kv
    | _ => None
    end
  else None.

Definition get_accuweather_location_key (lat lon api_key : string) : M pyval :=
  try_except
    (response <- requests_get (location_request lat lon api_key) ;;
     lift (raise_for_status response) ;;
     data <- lift (response_json response) ;;
     match location_key_of data with
     | Some key => log INFO (MsgFoundKey key lat lon) ;; ret key
     | None => log ERROR (MsgNoKey data) ;; ret PNone
     end)
    (fun e => match e with
              | RequestException st =>
                  Some (log ERROR (MsgLocationFetch e) ;;
                        match st with
                        | Some code => log ERROR (MsgLocationResponse code)
                        | None => ret tt
                        end ;;
                        ret PNone)
              | KeyError | ValueError | TypeError =>
                  Some (log ERROR (MsgLocationParse e) ;; ret PNone)
              | _ => None
              end).

Definition supported_days (days : Z) : bool :=
  (days =? 1) || (days =? 5) || (days =? 10) || (days =? 15).

Definition forecast_request (location_key : pyval) (api_key : string) (days : Z)
  : request :=
  {| url := ACCUWEATHER_BASE_URL +:+ "/forecasts/v1/daily/" +:+ str_of_Z days
            +:+ "day/" +:+ py_str location_key;
     params := [ ("apikey", api_key); ("language", "en-us");
                 ("details", "true"); ("metric", "true") ] |}.

(** ["DailyForecasts" in data] *)
Definition has_daily_forecasts (data : pyval) : res bool :=
  match data with
  | PDict kv => Ok (match assoc "DailyForecasts" kv with Some _ => true | None => false end)
  | PList l => Ok (existsb (fun v => match v with
                                     | PStr s => String.eqb s "DailyForecasts"
                                     | _ => false
                                     end) l)
  | PStr s => Ok (is_substring "DailyForecasts" s)
  | PNone | PBool _ | PInt _ | PFloat _ => Raise TypeError
  end.

(** [data["DailyForecasts"]] *)
Definition daily_forecasts_of (data : pyval) : res pyval :=
  match data with
  | PDict kv => match assoc "DailyForecasts" kv with
                | Some v => Ok v
                | None => Raise KeyError
                end
  | PList _ | PStr _ => Raise TypeError
  | PNone | PBool _ | PInt _ | PFloat _ => Raise TypeError
  end.

(** The statements of the outer [try], after the request. *)
Definition parse_forecast (data : pyval) (days : Z) : M (option (list forecast)) :=
  present <- (if truthy data then lift (has_daily_forecasts data) else ret false) ;;
  if present : bool then
    daily <- lift (daily_forecasts_of data) ;;
    items <- lift (py_iter daily) ;;
    weekly_forecast <- mapM normalise items ;;
    ret (Some (firstn (Z.to_nat days) (sort_by_date weekly_forecast)))
  else
    log ERROR MsgMissingDailyForecasts ;; ret None.

Definition get_accuweather_forecast (location_key : pyval) (api_key : string)
    (days : Z) : M (option (list forecast)) :=
  days <- (if supported_days days then ret days
           else log WARNING (MsgUnsupportedDays days) ;; ret 5) ;;
  try_except
    (response <- requests_get (forecast_request location_key api_key days) ;;
     lift (raise_for_status response) ;;
     data <- lift (response_json response) ;;
     parse_forecast data days)
    (fun e => match e with
              | RequestException st =>
                  Some (log ERROR (MsgForecastFetch e) ;;
                        match st with
                        | Some code => log ERROR (MsgForecastResponse code)
                        | None => ret tt
                        end ;;
                        ret None)
              | KeyError | ValueError | TypeError | IndexError =>
                  Some (log ERROR (MsgForecastParse e) ;; ret None)
              | _ => None
              end).

End Run.

(** ** The text of the report *)

Definition nl : string := String (ascii_of_nat 10) EmptyString.

Definition img_tag_text (tag : img_tag) : string :=
  match tag with
  | TagDefault => "(icon unavailable)"
  | TagImg cid desc =>
      "<img src=" +:+ dq +:+ "cid:" +:+ cid +:+ dq +:+ " alt=" +:+ dq +:+ desc +:+ dq
      +:+ " class=" +:+ dq +:+ "weather-icon" +:+ dq +:+ " title=" +:+ dq +:+ desc +:+ dq +:+ ">"
  | TagFallback desc => "(" +:+ desc +:+ " - icon unavailable)"
  end.

Definition fragment_text (fr : fragment) : string :=
  match fr with
  | HtmlHead actual_days city =>
    nl +:+ "        <html>" +:+ nl +:+ "        <head>" +:+ nl +:+ "          <style>" +:+ nl
    +:+ "            body { font-family: sans-serif; line-height: 1.5; }" +:+ nl
    +:+ "            h1 { color: #333; }" +:+ nl
    +:+ "            h2 { color: #555; border-bottom: 1px solid #eee; padding-bottom: 5px; margin-top: 20px;}"
    +:+ nl
    +:+ "            .day-forecast { margin-bottom: 15px; padding: 10px; border: 1px solid #ddd; border-radius: 5px; background-color: #f9f9f9; }"
    +:+ nl
    +:+ "            .weather-icon { vertical-align: middle; width: 75px; height: 45px; margin-right: 10px; object-fit: contain; } /* Adjusted size for AccuWeather icons */"
    +:+ nl
    +:+ "            .summary-container { display: flex; flex-direction: row; flex-wrap: wrap; justify-content: flex-start; margin-bottom: 20px; }"
    +:+ nl
    +:+ "            .summary-item { display: flex; flex-direction: column; align-items: center; border: 1px solid #eee; padding: 8px; margin: 5px; border-radius: 5px; min-width: 60px; text-align: center;}"
    +:+ nl +:+ "            .summary-day { font-size: 0.8em; color: #777; margin-bottom: 5px; }"
    +:+ nl
    +:+ "            .summary-icon-small { width: 45px; height: 27px; vertical-align: middle; object-fit: contain;} /* Adjusted size */"
    +:+ nl +:+ "            strong { color: #444; }" +:+ nl
    +:+ "            .detail-label { display: inline-block; min-width: 100px; } /* Align details */"
    +:+ nl +:+ "          </style>" +:+ nl +:+ "        </head>" +:+ nl +:+ "        <body>" +:+ nl
    +:+ "          <h1>🗓️ " +:+ str_of_Z (Z.of_nat actual_days) +:+ "-Day Weather Forecast for "
    +:+ city +:+ "</h1>" +:+ nl +:+ "          <div class=" +:+ dq +:+ "summary-container" +:+ dq
    +:+ ">" +:+ nl +:+ "        "
  | SummaryImg day_name cid desc =>
    nl +:+ "                    <div class=" +:+ dq +:+ "summary-item" +:+ dq +:+ ">" +:+ nl
    +:+ "                      <div class=" +:+ dq +:+ "summary-day" +:+ dq +:+ ">" +:+ day_name
    +:+ "</div>" +:+ nl +:+ "                      <img src=" +:+ dq +:+ "cid:" +:+ cid +:+ dq
    +:+ " alt=" +:+ dq +:+ desc +:+ dq +:+ " class=" +:+ dq +:+ "summary-icon-small" +:+ dq
    +:+ " title=" +:+ dq +:+ desc +:+ dq +:+ ">" +:+ nl +:+ "                    </div>" +:+ nl
    +:+ "                    "
  | SummaryText day_name desc =>
    nl +:+ "                    <div class=" +:+ dq +:+ "summary-item" +:+ dq +:+ ">" +:+ nl
    +:+ "                      <div class=" +:+ dq +:+ "summary-day" +:+ dq +:+ ">" +:+ day_name
    +:+ "</div>" +:+ nl +:+ "                      (" +:+ desc +:+ ")" +:+ nl
    +:+ "                    </div>" +:+ nl +:+ "                    "
  | SummaryEnd =>
    nl +:+ "          </div>" +:+ nl +:+ "        "
  | Detail tag f =>
    nl +:+ "            <div class=" +:+ dq +:+ "day-forecast" +:+ dq +:+ ">" +:+ nl
    +:+ "              <h2>" +:+ d_day_name f +:+ ", " +:+ d_month_day f +:+ "</h2>" +:+ nl
    +:+ "              <p>" +:+ nl +:+ "                " +:+ img_tag_text tag +:+ " <br>" +:+ nl
    +:+ "                <span class=" +:+ dq +:+ "detail-label" +:+ dq
    +:+ "><strong>Weather:</strong></span> " +:+ d_weather f +:+ " <br>" +:+ nl
    +:+ "                <span class=" +:+ dq +:+ "detail-label" +:+ dq
    +:+ "><strong>🌡️ High/Low:</strong></span> " +:+ d_high f +:+ "°C / " +:+ d_low f +:+ "°C <br>"
    +:+ nl +:+ "                <span class=" +:+ dq +:+ "detail-label" +:+ dq
    +:+ "><strong>💨 Wind:</strong></span> " +:+ d_wind_speed f +:+ " m/s (" +:+ d_wind_direction f
    +:+ ") <br>" +:+ nl +:+ "                <span class=" +:+ dq +:+ "detail-label" +:+ dq
    +:+ "><strong>💧 Humidity:</strong></span> " +:+ d_humidity f +:+ " <br> <span class=" +:+ dq
    +:+ "detail-label" +:+ dq +:+ "><strong>🌧️ Precip:</strong></span> " +:+ d_precipitation f
    +:+ " mm (" +:+ d_precip_chance f +:+ "% chance) <br>" +:+ nl +:+ "                <span class="
    +:+ dq +:+ "detail-label" +:+ dq +:+ "><strong>☀️ UV Index:</strong></span> " +:+ d_uv_index f
    +:+ " <br>" +:+ nl +:+ "                <span class=" +:+ dq +:+ "detail-label" +:+ dq
    +:+ "><strong>🌅 Sunrise:</strong></span> " +:+ d_sunrise f +:+ " / <strong>🌇 Sunset:</strong> "
    +:+ d_sunset f +:+ nl +:+ "              </p>" +:+ nl +:+ "            </div>" +:+ nl
    +:+ "            "
  | HtmlFoot =>
    nl +:+ "          <p><i>Weather data provided by AccuWeather.</i></p> </body>" +:+ nl
    +:+ "        </html>" +:+ nl +:+ "        "
  end.

(** The string handed to the mail transport as [html_content]. *)
Definition html_text (doc : list fragment) : string :=
  fold_right (fun fr acc => fragment_text fr +:+ acc) EmptyString doc.

(** ** The timer function *)

Section Alert.
Context `{RT : PyRuntime} (W : world).

(** Every exception is caught inside the function. The event [EvMail]
    records the call; the message is built, one [MIMEImage] per
    attachment, before the server is contacted. *)
Definition send_email_with_images (m : mail) : M unit :=
  emit (EvMail m) ;;
  if forallb (fun image => match guess_image_subtype (fst image) with
                           | Some _ => true
                           | None => false
                           end) (mail_images m)
  then
  outcome <- (fun t => (Ok (smtp W t m), t)) ;;
  match outcome with
  | MailConnectFailed smtp_error =>
      log INFO MsgSmtpConnecting ;;
      log ERROR (if smtp_error : bool then MsgSmtpError else MsgSmtpUnexpected)
  | MailSendFailed smtp_error =>
      log INFO MsgSmtpConnecting ;;
      log INFO MsgSmtpSending ;;
      log ERROR (if smtp_error : bool then MsgSmtpError else MsgSmtpUnexpected)
  | MailDelivered =>
      log INFO MsgSmtpConnecting ;;
      log INFO MsgSmtpSending ;;
      log INFO (MsgSmtpSent (mail_to m))
  end
  else log ERROR MsgSmtpUnexpected.

(** The three variables the summary loop updates: the dictionary
    [fetched_icons] (a value is the [bytes] fetched, or [None] after a
    failed attempt), the list [email_images] and [html_content]. *)
Record render_state : Type := {
  fetched_icons : gmap string (option (list byte));
  email_images : list (list byte * string);
  html_content : list fragment
}.

(** Truth value of [fetched_icons.get(code)]: [None] when the code is
    not a key or the attempt failed, and [bytes] are true when not
    empty. *)
Definition icon_usable (entry : option (option (list byte))) : bool :=
  match entry with
  | Some (Some (_ :: _)) => true
  | _ => false
  end.

Definition icon_code_str (icon_code : pyval) : string :=
  zfill 2 (py_str icon_code).

Definition icon_url (code : string) : string :=
  "https://developer.accuweather.com/sites/default/files/" +:+ code +:+ "-s.png".

Definition image_cid (date code : string) : string :=
  "summary_icon_" +:+ date +:+ "_" +:+ code.

Definition icon_request (code : string) : request :=
  {| url := icon_url code; params := [] |}.

Definition has_cid (cid : string) (images : list (list byte * string)) : bool :=
  existsb (fun p => String.eqb (snd p) cid) images.

(** The [if icon_code_str not in fetched_icons: ... else: ...] statement. *)
Definition fetch_icon (st : render_state) (code cid : string) : M render_state :=
  match fetched_icons st !! code with
  | None =>
      try_except
        (icon_response <- requests_get W (icon_request code) ;;
         lift (raise_for_status icon_response) ;;
         let icon_bytes := content icon_response in
         ret {| fetched_icons := <[code := Some icon_bytes]> (fetched_icons st);
                email_images := (email_images st ++ [(icon_bytes, cid)])%list;
                html_content := html_content st |})
        (fun e => match e with
                  | RequestException _ =>
                      Some (log WARNING (MsgIconFetch code (icon_url code)) ;;
                            ret {| fetched_icons := <[code := None]> (fetched_icons st);
                                   email_images := email_images st;
                                   html_content := html_content st |})
                  | _ => None
                  end)
  | Some icon_bytes =>
      match icon_bytes with
      | Some (b :: bs) =>
          if has_cid cid (email_images st) then ret st
          else ret {| fetched_icons := fetched_icons st;
                      email_images := (email_images st ++ [(b :: bs, cid)])%list;
                      html_content := html_content st |}
      | _ => ret st
      end
  end.

Definition add_html (st : render_state) (fr : fragment) : render_state :=
  {| fetched_icons := fetched_icons st;
     email_images := email_images st;
     html_content := (html_content st ++ [fr])%list |}.

(** One turn of the loop that builds the summary line. *)
Definition summary_step (st : render_state) (day_forecast : forecast)
  : M render_state :=
  let icon_code := icon day_forecast in
  let weather := weather_desc day_forecast in
  let day := day_name day_forecast in
  if truthy icon_code then
    let code := icon_code_str icon_code in
    let cid := image_cid (date_str day_forecast) code in
    st' <- fetch_icon st code cid ;;
    if icon_usable (fetched_icons st' !! code)
    then ret (add_html st' (SummaryImg day cid weather))
    else ret (add_html st' (SummaryText day weather))
  else ret (add_html st (SummaryText day weather)).

Fixpoint foldM {A B} (f : A -> B -> M A) (a : A) (l : list B) : M A :=
  match l with
  | [] => ret a
  | b :: r => a' <- f a b ;; foldM f a' r
  end.

Definition detail_of (day_forecast : forecast) : detail_fields :=
  {| d_day_name := day_name day_forecast;
     d_month_day := match date_obj day_forecast with
                    | Some t => strftime_month_day t
                    | None => EmptyString
                    end;
     d_weather := weather_desc day_forecast;
     d_high := py_str (high_temp day_forecast);
     d_low := py_str (low_temp day_forecast);
     d_wind_speed := str_float (wind_speed day_forecast);
     d_wind_direction := wind_direction day_forecast;
     d_humidity := humidity day_forecast;
     d_precipitation := py_str (precipitation day_forecast);
     d_precip_chance := py_str (precip_chance day_forecast);
     d_uv_index := uv_index day_forecast;
     d_sunrise := sunrise day_forecast;
     d_sunset := sunset day_forecast |}.

(** The value of [img_tag] in one turn of the detail loop. *)
Definition detail_tag (icons : gmap string (option (list byte)))
    (day_forecast : forecast) : img_tag :=
  let icon_code := icon day_forecast in
  if truthy icon_code then
    let code := icon_code_str icon_code in
    let cid := image_cid (date_str day_forecast) code in
    if icon_usable (icons !! code)
    then TagImg cid (weather_desc day_forecast)
    else TagFallback (weather_desc day_forecast)
  else TagDefault.

Definition detail_step (icons : gmap string (option (list byte)))
    (day_forecast : forecast) : fragment :=
  Detail (detail_tag icons day_forecast) (detail_of day_forecast).

(** The [if forecast_data:] branch up to the call of the mail
    transport: the final [html_content] and [email_images]. *)
Definition render (forecast_data : list forecast) (city : string)
  : M render_state :=
  let actual_days := length forecast_data in
  let st0 := {| fetched_icons := ∅; email_images := [];
                html_content := [HtmlHead actual_days city] |} in
  st <- foldM summary_step st0 forecast_data ;;
  let st := add_html st SummaryEnd in
  ret {| fetched_icons := fetched_icons st;
         email_images := email_images st;
         html_content := (html_content st
                          ++ map (detail_step (fetched_icons st)) forecast_data
                          ++ [HtmlFoot])%list |}.

Definition email_subject (actual_days : nat) (city : string) : string :=
  "🌦️ " +:+ str_of_Z (Z.of_nat actual_days) +:+ "-Day AccuWeather Forecast for " +:+ city.

Definition env_or (name default : string) : string :=
  match getenv W name with
  | Some v => v
  | None => default
  end.

(** [not value] for the result of [os.getenv]. *)
Definition env_missing (name : string) : bool :=
  match getenv W name with
  | Some v => String.eqb v EmptyString
  | None => true
  end.

Definition required_vars : list string :=
  [ "ACCUWEATHER_API_KEY"; "GMAIL_USER"; "GMAIL_PASSWORD"; "TO_EMAIL";
    "LATITUDE"; "LONGITUDE" ].

(** The [if forecast_data: ... else: ...] statement: [None] and the
    empty list are both false. *)
Definition deliver (forecast_data : option (list forecast))
    (gmail_user gmail_password to_email city : string) : M unit :=
  match forecast_data with
  | Some (first :: others) =>
      let days := first :: others in
      st <- render days city ;;
      log INFO MsgSendingMail ;;
      send_email_with_images
        {| mail_user := gmail_user;
           mail_password := gmail_password;
           mail_to := to_email;
           mail_subject := email_subject (length days) city;
           mail_html := html_content st;
           mail_images := email_images st |}
  | Some [] | None => log ERROR MsgMailNotSent
  end.

(** The part of the function after the configuration checks. *)
Definition notify (api_key gmail_user gmail_password to_email lat lon city : string)
    (forecast_days : Z) : M unit :=
  log INFO (MsgFetchingKey city lat lon) ;;
  location_key <- get_accuweather_location_key W lat lon api_key ;;
  if truthy location_key then
    log INFO (MsgFetchingForecast forecast_days location_key) ;;
    forecast_data <- get_accuweather_forecast W location_key api_key forecast_days ;;
    deliver forecast_data gmail_user gmail_password to_email city ;;
    log INFO MsgFinished
  else
    log ERROR MsgFailedKey.

Definition WeatherAlert : M unit :=
  (if timer_past_due W then log WARNING MsgPastDue else ret tt) ;;
  log INFO MsgStarted ;;
  let city := env_or "CITY_NAME" "Unknown Location" in
  forecast_days <- lift (match parse_int (env_or "FORECAST_DAYS" "5") with
                         | Some z => Ok z
                         | None => Raise ValueError
                         end) ;;
  match List.filter env_missing required_vars with
  | name :: names => log ERROR (MsgMissingVars (name :: names))
  | [] =>
      let lat := env_or "LATITUDE" EmptyString in
      let lon := env_or "LONGITUDE" EmptyString in
      if parses_as_float lat && parses_as_float lon
         && (1 <=? forecast_days) && (forecast_days <=? 15)
      then notify (env_or "ACCUWEATHER_API_KEY" EmptyString) (env_or "GMAIL_USER" EmptyString)
                  (env_or "GMAIL_PASSWORD" EmptyString) (env_or "TO_EMAIL" EmptyString)
                  lat lon city forecast_days
      else log ERROR MsgConfigError
  end.

End Alert.

(** * Vocabulary of the properties *)

(** ** Checks over a range of integers *)

Fixpoint range_all (n : nat) (lo : Z) (p : Z -> bool) : bool :=
  match n with
  | O => true
  | S k => p lo && range_all k (lo + 1) p
  end.

Definition is_label (r : res string) : bool :=
  match r with
  | Ok s => existsb (String.eqb s) directions
  | Raise _ => false
  end.



(** ** Traces *)

(** [writes P c]: running [c] only appends events, and each appended
    event satisfies [P]. *)
Definition writes {A} (P : event -> Prop) (c : M A) : Prop :=
  forall t r t', c t = (r, t') ->
  exists added, t' = (t ++ added)%list /\ Forall P added.

Definition is_log (ev : event) : Prop :=
  match ev with
  | EvLog _ _ => True
  | _ => False
  end.

(** ** A runtime and worlds to run the functions on *)

(** Rounding and float formatting are left as the identity and a
    placeholder: the examples below use integers only. *)
Definition sample_runtime : PyRuntime :=
  {| round1 := fun f => f;
     str_float := fun _ => "0.0";
     str_container := fun _ => "[]";
     fromtimestamp_float := fun _ => Raise ValueError;
     timestamp_range_error := fun _ => ValueError;
     iso_clock := fun s => Some s;
     parses_as_float := fun s => match parse_int s with Some _ => true | None => false end;
     guess_image_subtype := fun data => match data with
                                        | [] => None
                                        | _ => Some "png"
                                        end |}.

Definition sample_env (name : string) : option string :=
  if String.eqb name "CITY_NAME" then Some "Springfield"
  else if String.eqb name "FORECAST_DAYS" then Some "5"
  else if String.eqb name "LATITUDE" then Some "39"
  else if String.eqb name "LONGITUDE" then Some "-89"
  else Some "secret".

Definition json_response (status : Z) (body : pyval) : http_result :=
  Response {| status_code := status; content := []; json_body := Some body |}.

(** A world whose every JSON answer is [body] with status [status]. *)
Definition constant_world (status : Z) (body : pyval) : world :=
  {| http := fun _ _ => json_response status body;
     smtp := fun _ _ => MailDelivered;
     getenv := sample_env;
     timer_past_due := false |}.

(** ** Classes of events *)

Definition is_get_under (prefix : string) (ev : event) : bool :=
  match ev with
  | EvGet rq => is_prefix prefix (url rq)
  | _ => false
  end.

Definition is_forecast_get : event -> bool :=
  is_get_under "http://dataservice.accuweather.com/forecasts/".

Definition is_icon_get : event -> bool :=
  is_get_under "https://developer.accuweather.com/sites/default/files/".

Definition is_mail (ev : event) : bool :=
  match ev with
  | EvMail _ => true
  | _ => false
  end.

(** Events of the first stage: log records and the geoposition request. *)
Definition is_resolution (ev : event) : Prop :=
  is_forecast_get ev = false /\ is_icon_get ev = false /\ is_mail ev = false.

(** Events up to the forecast: nothing is rendered, nothing is mailed. *)
Definition is_retrieval (ev : event) : Prop :=
  is_icon_get ev = false /\ is_mail ev = false.

(** ** Answers of the provider *)

(** A decoded body carries a non-empty location key: it is an object
    whose ["Key"] member is a true value. *)
Definition has_nonempty_key (data : pyval) : bool :=
  match data with
  | PDict kv => match assoc "Key" kv with
                | Some key => truthy key
                | None => false
                end
  | _ => false
  end.

(** No usable answer from the geoposition endpoint: no response at all,
    a 4xx or 5xx status, a body that is not JSON, or a document without
    a non-empty key. *)
Definition resolution_fails (r : http_result) : bool :=
  match r with
  | ConnectionFailed => true
  | Response resp =>
      ((400 <=? status_code resp) && (status_code resp <? 600))
      || match json_body resp with
         | Some data => negb (has_nonempty_key data)
         | None => true
         end
  end.

(** The forecast endpoint answers with a document whose
    ["DailyForecasts"] member is the empty list. *)
Definition empty_forecast (r : http_result) : bool :=
  match r with
  | ConnectionFailed => false
  | Response resp =>
      negb ((400 <=? status_code resp) && (status_code resp <? 600))
      && match json_body resp with
         | Some (PDict kv) =>
             match assoc "DailyForecasts" kv with
             | Some (PList []) => true
             | _ => false
             end
         | _ => false
         end
  end.

(** ** Well-formed daily records *)

(** [d.get(k, default)] as a total function on the association list. *)
Definition field (kv : list (string * pyval)) (k : string) (default : pyval) : pyval :=
  match assoc k kv with
  | Some v => v
  | None => default
  end.

Definition is_dict (v : pyval) : bool :=
  match v with PDict _ => true | _ => false end.

Definition is_float (v : pyval) : bool :=
  match v with PFloat _ => true | _ => false end.

Definition is_number (v : pyval) : bool :=
  match v with PInt _ | PFloat _ => true | _ => false end.

Definition is_float_or_none (v : pyval) : bool :=
  match v with PNone | PFloat _ => true | _ => false end.

Definition is_str (v : pyval) : bool :=
  match v with PStr _ => true | _ => false end.

Definition is_bearing (v : pyval) : bool :=
  match v with
  | PNone => true
  | PInt z => (0 <=? z) && (z <=? 360)
  | _ => false
  end.

Definition is_epoch (v : pyval) : bool :=
  match v with
  | PNone => true
  | PInt z => (MIN_TIMESTAMP <=? z) && (z <=? MAX_TIMESTAMP)
  | _ => false
  end.

(** Under [kind] there is nothing, or an object whose ["Value"], if
    any, satisfies [p]. *)
Definition value_wf (p : pyval -> bool) (obj : list (string * pyval))
    (kind : string) : bool :=
  match field obj kind (PDict []) with
  | PDict sub => match assoc "Value" sub with
                 | Some v => p v
                 | None => true
                 end
  | _ => false
  end.

Definition temperature_wf (v : pyval) : bool :=
  match v with
  | PDict temp => value_wf is_number temp "Maximum" && value_wf is_number temp "Minimum"
  | _ => false
  end.

Definition wind_wf (v : pyval) : bool :=
  match v with
  | PDict wind =>
      match field wind "Speed" (PDict []) with
      | PDict speed => is_float_or_none (field speed "Value" PNone)
      | _ => false
      end
      && match field wind "Direction" (PDict []) with
         | PDict direction => is_bearing (field direction "Degrees" PNone)
         | _ => false
         end
  | _ => false
  end.

Definition day_wf (v : pyval) : bool :=
  match v with
  | PDict day =>
      wind_wf (field day "Wind" (PDict []))
      && value_wf is_float day "Rain"
      && value_wf is_float day "Snow"
      && value_wf is_float day "Ice"
      && is_str (field day "IconPhrase" (PStr "N/A"))
  | _ => false
  end.

Definition air_wf (v : pyval) : bool :=
  match v with
  | PList items => forallb is_dict items
  | _ => false
  end.

(** A record of the provider's daily-forecast schema in which any
    member may be missing: objects where objects are expected, decimal
    numbers for the measured values, a compass bearing in degrees, a
    phrase, a list of objects for the air-and-pollen collection and an
    epoch timestamp between the years 1 and 9999. *)
Definition daily_wf (daily_data : pyval) : bool :=
  match daily_data with
  | PDict kv =>
      temperature_wf (field kv "Temperature" (PDict []))
      && day_wf (field kv "Day" (PDict []))
      && is_dict (field kv "Sun" (PDict []))
      && air_wf (field kv "AirAndPollen" (PList []))
      && is_epoch (field kv "EpochDate" PNone)
  | _ => false
  end.

(** The date a record carries, from its epoch timestamp: none for a
    missing or zero timestamp. *)
Definition date_of_epoch (v : pyval) : option datetime :=
  match v with
  | PInt z => if z =? 0 then None else Some (z * 1000000)
  | _ => None
  end.

(** ** The normaliser seen from its result *)

(** The loop body once the five members of the record itself are read;
    for a [dict] this is the whole body. *)
Definition normalise_from `{RT : PyRuntime}
    (temp_data day_data sun_data air_and_pollen epoch_date : pyval)
  : M forecast :=
  wind_data <- lift (py_get day_data "Wind" (PDict [])) ;;
  wind_speed_data <- lift (py_get wind_data "Speed" (PDict [])) ;;
  wind_direction_data <- lift (py_get wind_data "Direction" (PDict [])) ;;
  uv <- lift (uv_index_of air_and_pollen) ;;
  precip_value <- lift (precip_value_of day_data) ;;
  precip_prob <- lift (py_get day_data "PrecipitationProbability" (PInt 0)) ;;
  wind_speed_kmh <- lift (py_get wind_speed_data "Value" PNone) ;;
  wind_speed_ms <- lift (wind_speed_of wind_speed_kmh) ;;
  date <- lift (date_obj_of epoch_date) ;;
  sunrise_str <- lift (py_get sun_data "Rise" PNone) ;;
  sunset_str <- lift (py_get sun_data "Set" PNone) ;;
  sun <- sun_times sunrise_str sunset_str ;;
  phrase <- lift (py_get day_data "IconPhrase" (PStr "N/A")) ;;
  desc <- lift (py_capitalize phrase) ;;
  icon_code <- lift (py_get day_data "Icon" PNone) ;;
  high <- lift (sub_value temp_data "Maximum") ;;
  high <- lift (py_round1 high) ;;
  low <- lift (sub_value temp_data "Minimum") ;;
  low <- lift (py_round1 low) ;;
  degrees <- lift (py_get wind_direction_data "Degrees" PNone) ;;
  direction <- get_wind_direction degrees ;;
  precip <- lift (py_round1 precip_value) ;;
  ret {| weather_desc := desc;
         icon := icon_code;
         high_temp := high;
         low_temp := low;
         wind_speed := wind_speed_ms;
         wind_direction := direction;
         humidity := "N/A";
         dew_point := "N/A";
         precipitation := precip;
         precip_chance := precip_prob;
         uv_index := uv;
         sunrise := fst sun;
         sunset := snd sun;
         date_obj := date;
         date_str := match date with Some t => strftime_date t | None => "N/A" end;
         day_name := match date with Some t => strftime_weekday t | None => "N/A" end |}.

Definition with_uv_index (uv : string) (r : forecast) : forecast :=
  {| weather_desc := weather_desc r;
     icon := icon r;
     high_temp := high_temp r;
     low_temp := low_temp r;
     wind_speed := wind_speed r;
     wind_direction := wind_direction r;
     humidity := humidity r;
     dew_point := dew_point r;
     precipitation := precipitation r;
     precip_chance := precip_chance r;
     uv_index := uv;
     sunrise := sunrise r;
     sunset := sunset r;
     date_obj := date_obj r;
     date_str := date_str r;
     day_name := day_name r |}.

(** ** Missing members *)

(** An item of the air-and-pollen collection named ["UVIndex"]. *)
Definition named_uv (item : pyval) : bool :=
  match item with
  | PDict members => match field members "Name" PNone with
                     | PStr n => String.eqb n "UVIndex"
                     | _ => false
                     end
  | _ => false
  end.

Definition without_uv_items (v : pyval) : pyval :=
  match v with
  | PList items => PList (List.filter (fun item => negb (named_uv item)) items)
  | _ => v
  end.

(** [kv] with the value of its first binding of [k] changed by [f]. *)
Fixpoint update (k : string) (f : pyval -> pyval) (kv : list (string * pyval))
  : list (string * pyval) :=
  match kv with
  | [] => []
  | (k', v) :: r => if String.eqb k k' then (k', f v) :: r
                    else (k', v) :: update k f r
  end.

(** The same record after its UV-index entry is taken out. *)
Definition without_uv_entry (daily_data : pyval) : pyval :=
  match daily_data with
  | PDict kv => PDict (update "AirAndPollen" without_uv_items kv)
  | _ => daily_data
  end.

(** The record holds no UV-index entry. *)
Definition lacks_uv_entry (daily_data : pyval) : bool :=
  match daily_data with
  | PDict kv => match field kv "AirAndPollen" (PList []) with
                | PList items => forallb (fun item => negb (named_uv item)) items
                | _ => false
                end
  | _ => false
  end.

(** Under [kind] there is no ["Value"]. *)
Definition no_value (obj : list (string * pyval)) (kind : string) : bool :=
  match field obj kind (PDict []) with
  | PDict sub => match assoc "Value" sub with
                 | None => true
                 | Some _ => false
                 end
  | _ => false
  end.

Definition lacks_precipitation (daily_data : pyval) : bool :=
  match daily_data with
  | PDict kv => match field kv "Day" (PDict []) with
                | PDict day => no_value day "Rain" && no_value day "Snow"
                               && no_value day "Ice"
                | _ => false
                end
  | _ => false
  end.

Definition lacks_temperature (kind : string) (daily_data : pyval) : bool :=
  match daily_data with
  | PDict kv => match field kv "Temperature" (PDict []) with
                | PDict temp => no_value temp kind
                | _ => false
                end
  | _ => false
  end.

(** A record with a UV-index entry and without temperatures or
    precipitation amounts. *)
Definition sample_day (epoch icon_code : Z) : pyval :=
  PDict [ ("EpochDate", PInt epoch);
          ("Day", PDict [("Icon", PInt icon_code); ("IconPhrase", PStr "Mostly sunny")]);
          ("AirAndPollen",
            PList [PDict [("Name", PStr "UVIndex"); ("Value", PInt 5);
                          ("Category", PStr "Moderate")]]) ].

(** ** Sort keys *)

Definition key_le (a b : forecast) : Prop := sort_key a <= sort_key b.

(** The calendar day a record is sorted under: the day of its date, or
    of the minimal date when it has none. *)
Definition sort_day (r : forecast) : Z := day_number (sort_key r).

(** The sort key a raw record will get: its epoch timestamp as a date,
    the minimal date when the timestamp is missing or zero. *)
Definition payload_key (daily_data : pyval) : datetime :=
  match daily_data with
  | PDict kv => match date_of_epoch (field kv "EpochDate" PNone) with
                | Some d => d
                | None => datetime_min
                end
  | _ => datetime_min
  end.

Definition payload_day (daily_data : pyval) : Z := day_number (payload_key daily_data).

(** Three days delivered out of order. *)
Definition sample_payload : list pyval :=
  [ sample_day 1709251200 3; sample_day 1709164800 3; sample_day 1709337600 6 ].

Definition sample_forecast_body : list (string * pyval) :=
  [ ("Headline", PDict []); ("DailyForecasts", PList sample_payload) ].

(** ** Icons, content identifiers and attachments *)

Definition record_code `{RT : PyRuntime} (r : forecast) : string :=
  icon_code_str (icon r).

Definition record_cid `{RT : PyRuntime} (r : forecast) : string :=
  image_cid (date_str r) (record_code r).

(** The entry of a record in the summary line, given the final state
    of [fetched_icons]. *)
Definition summary_entry `{RT : PyRuntime} (icons : gmap string (option (list byte)))
    (r : forecast) : fragment :=
  if truthy (icon r) then
    if icon_usable (icons !! record_code r)
    then SummaryImg (day_name r) (record_cid r) (weather_desc r)
    else SummaryText (day_name r) (weather_desc r)
  else SummaryText (day_name r) (weather_desc r).

(** What an attempt stores in [fetched_icons]: the body, or [None] when
    the request raised. *)
Definition fetched_value (r : http_result) : option (list byte) :=
  match r with
  | ConnectionFailed => None
  | Response resp =>
      if (400 <=? status_code resp) && (status_code resp <? 600) then None
      else Some (content resp)
  end.

Definition is_icon_get_for (code : string) (ev : event) : bool :=
  match ev with
  | EvGet rq => String.eqb (url rq) (icon_url code)
  | _ => false
  end.

(** Number of GET requests for the icon of [code] among the events. *)
Definition fetches (code : string) (evs : list event) : nat :=
  length (List.filter (is_icon_get_for code) evs).

(** What the [else] branch of the cache test appends to
    [email_images]. *)
Definition cached_attachment (st : render_state) (cid : string)
    (v : option (list byte)) : list (list byte * string) :=
  match v with
  | Some (b :: bs) => if has_cid cid (email_images st) then [] else [(b :: bs, cid)]
  | _ => []
  end.

(** The content identifiers a fragment refers to with [src="cid:..."]. *)
Definition fragment_cids (fr : fragment) : list string :=
  match fr with
  | SummaryImg _ cid _ => [cid]
  | Detail (TagImg cid _) _ => [cid]
  | _ => []
  end.

Definition html_cids (doc : list fragment) : list string :=
  concat (map fragment_cids doc).

(** The request for an icon raises: no connection, or a 4xx or 5xx
    status. *)
Definition fetch_fails (r : http_result) : bool :=
  match r with
  | ConnectionFailed => true
  | Response resp => (400 <=? status_code resp) && (status_code resp <? 600)
  end.

(** ** Sample records and worlds *)

(** A normalised record for the examples. *)
Definition sample_record (epoch icon_code : Z) : forecast :=
  {| weather_desc := "Mostly sunny";
     icon := PInt icon_code;
     high_temp := PInt 0;
     low_temp := PInt 0;
     wind_speed := 0%float;
     wind_direction := "N/A";
     humidity := "N/A";
     dew_point := "N/A";
     precipitation := PInt 0;
     precip_chance := PInt 0;
     uv_index := "5 (Moderate)";
     sunrise := "N/A";
     sunset := "N/A";
     date_obj := Some (epoch * 1000000);
     date_str := @strftime_date (epoch * 1000000);
     day_name := @strftime_weekday (epoch * 1000000) |}.

Definition sample_records : list forecast :=
  [ sample_record 1709164800 3; sample_record 1709251200 3 ].

(** A world without network. *)
Definition offline_world : world :=
  {| http := fun _ _ => ConnectionFailed;
     smtp := fun _ _ => MailDelivered;
     getenv := sample_env;
     timer_past_due := false |}.

(** The provider answers every JSON request with a key and two days
    that share the icon 3; the icon server answers 200 with an empty
    body. *)
Definition empty_icon_world : world :=
  {| http := fun _ rq =>
       if is_prefix "https://developer.accuweather.com/" (url rq)
       then Response {| status_code := 200; content := []; json_body := None |}
       else json_response 200
              (PDict [ ("Key", PStr "328328");
                       ("DailyForecasts",
                         PList [sample_day 1709164800 3; sample_day 1709251200 3]) ]);
     smtp := fun _ _ => MailDelivered;
     getenv := sample_env;
     timer_past_due := false |}.

Definition mails (evs : list event) : list mail :=
  flat_map (fun ev => match ev with EvMail m => [m] | _ => [] end) evs.

(** ** Compass sectors *)

(** The sector of a bearing: the integer part of
    [(d + 11.25) / 22.5], that is of [(4 d + 45) / 90], modulo 16. *)
Definition sector (d : Z) : Z := ((4 * d + 45) / 90) mod 16.

Definition sector_label (d : Z) : string :=
  nth (Z.to_nat (sector d)) directions "N/A".

Definition in_sector (d : Z) : bool :=
  match wind_lookup (PInt d) with
  | Ok s => String.eqb s (sector_label d)
  | Raise _ => false
  end.

(** ** Answers of the forecast endpoint *)

(** The forecast endpoint gives nothing to iterate over: no response,
    a 4xx or 5xx status, a body that is not JSON, a document that is not
    an object, an object without ["DailyForecasts"], or one whose
    ["DailyForecasts"] is [null], a boolean or a number. *)
Definition forecast_unavailable (r : http_result) : bool :=
  match r with
  | ConnectionFailed => true
  | Response resp =>
      ((400 <=? status_code resp) && (status_code resp <? 600))
      || match json_body resp with
         | None => true
         | Some (PDict kv) =>
             match assoc "DailyForecasts" kv with
             | None => true
             | Some (PNone | PBool _ | PInt _ | PFloat _) => true
             | Some (PStr _ | PList _ | PDict _) => false
             end
         | Some _ => true
         end
  end.

(** The day count the request is made with. *)
Definition effective_days (days : Z) : Z :=
  if supported_days days then days else 5.

(** Whenever the request is made, the answer passes [raise_for_status]
    and its body decodes to the object [kv]. *)
Definition answers_with (W : world) (rq : request) (kv : list (string * pyval))
  : Prop :=
  forall t, exists resp,
    http W t rq = Response resp /\
    raise_for_status resp = Ok tt /\
    json_body resp = Some (PDict kv).

(** ** Records the loop body stumbles on *)

(** A record the loop body cannot read: it is not an object, or its
    ["Day"] member is there and is not an object. *)
Definition unreadable (daily_data : pyval) : bool :=
  match daily_data with
  | PDict kv => negb (is_dict (field kv "Day" (PDict [])))
  | _ => true
  end.

(** A value [round(v, 1)] refuses. *)
Definition not_roundable (v : pyval) : bool :=
  match v with
  | PNone | PStr _ | PList _ | PDict _ => true
  | PBool _ | PInt _ | PFloat _ => false
  end.

(** A record of the provider's schema but for its maximum temperature,
    whose value is not a number. *)
Definition maximum_not_number (daily_data : pyval) : bool :=
  match daily_data with
  | PDict kv =>
      day_wf (field kv "Day" (PDict []))
      && is_dict (field kv "Sun" (PDict []))
      && air_wf (field kv "AirAndPollen" (PList []))
      && is_epoch (field kv "EpochDate" PNone)
      && match field kv "Temperature" (PDict []) with
         | PDict temp =>
             match field temp "Maximum" (PDict []) with
             | PDict maximum => not_roundable (field maximum "Value" (PInt 0))
             | _ => false
             end
         | _ => false
         end
  | _ => false
  end.

Definition bad_maximum_day : pyval :=
  PDict [ ("EpochDate", PInt 1709424000);
          ("Temperature", PDict [("Maximum", PDict [("Value", PNone)])]) ].

Definition null_day : pyval :=
  PDict [("EpochDate", PInt 1709251200); ("Day", PNone)].

(** ** Members of a record *)

(** The member of a document at the end of a path of keys. *)
Fixpoint member (path : list string) (v : pyval) : option pyval :=
  match path with
  | [] => Some v
  | k :: rest =>
      match v with
      | PDict kv => match assoc k kv with
                    | Some x => member rest x
                    | None => None
                    end
      | _ => None
      end
  end.

(** The text of a UV-index entry: its value, then its category in
    parentheses. *)
Definition uv_text `{RT : PyRuntime} (info : list (string * pyval)) : string :=
  py_str (field info "Value" PNone) +:+ " (" +:+ py_str (field info "Category" PNone)
  +:+ ")".

(** [fromisoformat] refuses the value: a true value that is not a
    string, or a string it cannot parse. *)
Definition clock_fails `{RT : PyRuntime} (v : pyval) : bool :=
  match clock_of v with
  | Ok _ => false
  | Raise _ => true
  end.

(** A day with wind, precipitation, temperatures, two UV-index entries
    and a sunset that is not a string. *)
Definition measured_members : list (string * pyval) :=
  [ ("EpochDate", PInt 1709164800);
    ("Temperature",
      PDict [ ("Minimum", PDict [("Value", PFloat 2.5)]);
              ("Maximum", PDict [("Value", PFloat 11.5)]) ]);
    ("Day",
      PDict [ ("Icon", PInt 12); ("IconPhrase", PStr "Partly Sunny W/ Showers");
              ("Wind", PDict [ ("Speed", PDict [("Value", PFloat 18)]);
                               ("Direction", PDict [("Degrees", PInt 225)]) ]);
              ("Rain", PDict [("Value", PFloat 1.5)]);
              ("Snow", PDict [("Value", PFloat 0)]);
              ("Ice", PDict [("Value", PFloat 0.25)]) ]);
    ("Sun", PDict [ ("Rise", PStr "2024-02-29T06:41:00+00:00");
                    ("Set", PInt 1709229600) ]);
    ("AirAndPollen",
      PList [ PDict [("Name", PStr "Grass"); ("Value", PInt 0);
                     ("Category", PStr "Low")];
              PDict [("Name", PStr "UVIndex"); ("Value", PInt 3)];
              PDict [("Name", PStr "UVIndex"); ("Value", PInt 9);
                     ("Category", PStr "Very High")] ]) ].

Definition measured_day : pyval := PDict measured_members.

(** ** Calendar dates read back *)

(** The day number of a calendar date (proleptic Gregorian), the
    inverse of [civil]. *)
Definition days_from_civil (y m d : Z) : Z :=
  let y' := if m <=? 2 then y - 1 else y in
  let era := y' / 400 in
  let yoe := y' - era * 400 in
  let mp := if 2 <? m then m - 3 else m + 9 in
  let doy := (153 * mp + 2) / 5 + d - 1 in
  let doe := yoe * 365 + yoe / 4 - yoe / 100 + doy in
  era * 146097 + doe - 719468.

Definition digits (cs : list ascii) : option Z :=
  if forallb is_digit cs
  then Some (fold_left (fun acc c => 10 * acc + digit_val c) cs 0)
  else None.

(** The day number a string of the form [YYYY-MM-DD] stands for. *)
Definition date_day (s : string) : option Z :=
  match list_ascii_of_string s with
  | [y1; y2; y3; y4; s1; m1; m2; s2; d1; d2] =>
      if Ascii.eqb s1 "-" && Ascii.eqb s2 "-" then
        match digits [y1; y2; y3; y4], digits [m1; m2], digits [d1; d2] with
        | Some y, Some m, Some d => Some (days_from_civil y m d)
        | _, _, _ => None
        end
      else None
  | _ => None
  end.

(** Microseconds in a day. *)
Definition DAY : Z := 86400000000.

(** The day number of 2100-01-01. *)
Definition DAYS_2100 : Z := 47482.

Definition date_reads_back (d : Z) : bool :=
  match date_day (strftime_date (d * DAY)) with
  | Some d' => (d' =? d) && Nat.eqb (String.length (strftime_date (d * DAY))) 10
  | None => false
  end.

Definition two_digit_code `{RT : PyRuntime} (n : Z) : bool :=
  String.eqb (icon_code_str (PInt n))
             ((if n <? 10 then "0" else EmptyString) +:+ str_of_Z n)
  && Nat.eqb (String.length (icon_code_str (PInt n))) 2.

(** ** The configuration *)

(** The log record of a timer that fired late. *)
Definition past_due_log (W : world) : list event :=
  if timer_past_due W then [EvLog WARNING MsgPastDue] else [].

(** The checks on the values of the configuration. *)
Definition values_valid `{RT : PyRuntime} (W : world) (forecast_days : Z) : bool :=
  parses_as_float (env_or W "LATITUDE" EmptyString)
  && parses_as_float (env_or W "LONGITUDE" EmptyString)
  && (1 <=? forecast_days) && (forecast_days <=? 15).

Definition env_without (name : string) (env : string -> option string)
  : string -> option string :=
  fun n => if String.eqb n name then None else env n.

Definition env_with (name value : string) (env : string -> option string)
  : string -> option string :=
  fun n => if String.eqb n name then Some value else env n.

(** A world without network whose timer fired late. *)
Definition world_with_env (env : string -> option string) : world :=
  {| http := fun _ _ => ConnectionFailed;
     smtp := fun _ _ => MailDelivered;
     getenv := env;
     timer_past_due := true |}.

(** ** Icons of a forecast *)

(** Some record of the forecast carries the icon code [code]. *)
Definition needs_icon `{RT : PyRuntime} (code : string) (forecast_data : list forecast)
  : bool :=
  existsb (fun r => truthy (icon r) && String.eqb (record_code r) code) forecast_data.

(** The code is a key of [fetched_icons]. *)
Definition cached (st : render_state) (code : string) : bool :=
  match fetched_icons st !! code with
  | Some _ => true
  | None => false
  end.

(** The report of a forecast none of whose records has an icon. *)
Definition plain_report `{RT : PyRuntime} (forecast_data : list forecast) (city : string)
  : list fragment :=
  (HtmlHead (length forecast_data) city
   :: map (fun r => SummaryText (day_name r) (weather_desc r)) forecast_data
   ++ SummaryEnd
   :: map (fun r => Detail TagDefault (detail_of r)) forecast_data
   ++ [HtmlFoot])%list.

(** A record whose icon code is 0. *)
Definition iconless_record : forecast :=
  {| weather_desc := "Cloudy";
     icon := PInt 0;
     high_temp := PInt 0;
     low_temp := PInt 0;
     wind_speed := 0%float;
     wind_direction := "N/A";
     humidity := "N/A";
     dew_point := "N/A";
     precipitation := PInt 0;
     precip_chance := PInt 0;
     uv_index := "N/A";
     sunrise := "N/A";
     sunset := "N/A";
     date_obj := None;
     date_str := "N/A";
     day_name := "N/A" |}.

(** ** The hand-off to the mail transport *)

(** [MIMEImage] recognises the type of every attachment. *)
Definition typed_images `{RT : PyRuntime} (m : mail) : bool :=
  forallb (fun image => match guess_image_subtype (fst image) with
                        | Some _ => true
                        | None => false
                        end) (mail_images m).

Definition mail_free (ev : event) : Prop := is_mail ev = false.

(** Events none of which is a hand-off to the mail transport, then at
    most one hand-off, followed by log records only. *)
Definition mail_last (added : list event) : Prop :=
  exists before,
    Forall mail_free before /\
    (added = before \/
     exists m logs, added = (before ++ EvMail m :: logs)%list /\ Forall is_log logs).

Definition ends_in_mail {A} (c : M A) : Prop :=
  forall t r t', c t = (r, t') ->
  exists added, t' = (t ++ added)%list /\ mail_last added.

(** The report and the attachments of a message name the same content
    identifiers. *)
Definition cids_agree (m : mail) : Prop :=
  forall cid, In cid (html_cids (mail_html m)) <-> In cid (map snd (mail_images m)).

Definition on_mail (P : mail -> Prop) (ev : event) : Prop :=
  match ev with
  | EvMail m => P m
  | _ => True
  end.

(** The provider answers with a key and three days out of order; every
    icon comes back as one byte. *)
Definition sample_world : world :=
  {| http := fun _ rq =>
       if is_prefix "https://developer.accuweather.com/" (url rq)
       then Response {| status_code := 200; content := [Byte.x89]; json_body := None |}
       else json_response 200
              (PDict [("Key", PStr "328328"); ("DailyForecasts", PList sample_payload)]);
     smtp := fun _ _ => MailDelivered;
     getenv := sample_env;
     timer_past_due := false |}.

(** * Properties *)

(** ** Running a computation *)

Lemma bind_ok {A B} (c : M A) (k : A -> M B) t a t' :
  c t = (Ok a, t') -> bind c k t = k a t'.
Proof. intros H. unfold bind. rewrite H. reflexivity. Qed.

Lemma bind_raise {A B} (c : M A) (k : A -> M B) t e t' :
  c t = (Raise e, t') -> bind c k t = (Raise e, t').
Proof. intros H. unfold bind. rewrite H. reflexivity. Qed.

Lemma bind_lift_ok {A B} (r : res A) (k : A -> M B) t a :
  r = Ok a -> bind (lift r) k t = k a t.
Proof. intros ->. reflexivity. Qed.

(** ** Checking a predicate on a range of integers *)

Lemma range_all_spec n : forall lo p,
  range_all n lo p = true ->
  forall d, lo <= d < lo + Z.of_nat n -> p d = true.
Proof.
  induction n as [|n IH]; intros lo p H d Hd.
  - lia.
  - cbn [range_all] in H. apply andb_prop in H as [Hlo Hrest].
    destruct (Z.eq_dec d lo) as [->|Hne]; [exact Hlo|].
    apply (IH (lo + 1) p Hrest). lia.
Qed.

(** ** Wind direction *)

Lemma get_wind_direction_int d t :
  get_wind_direction (PInt d) t =
  match wind_lookup (PInt d) with
  | Ok s => (Ok s, t)
  | Raise e => try_except (lift (wind_lookup (PInt d)))
                 (fun e => match e with
                           | ValueError | TypeError | IndexError =>
                               Some (log WARNING (MsgWindParse (PInt d)) ;; ret "N/A")
                           | _ => None
                           end) t
  end.
Proof.
  unfold get_wind_direction, try_except, lift.
  destruct (wind_lookup (PInt d)); reflexivity.
Qed.

Lemma labels_0_360 :
  range_all (Z.to_nat 361) 0 (fun d => is_label (wind_lookup (PInt d))) = true.
Proof. vm_compute. reflexivity. Qed.





(** Far from the compass range the period is lost to rounding as well:
    at 2^60 the sum with 11.25 is no longer exact. *)
Lemma wind_direction_not_periodic_far :
  get_wind_direction (PInt (2 ^ 60 + 360)) [] <> get_wind_direction (PInt (2 ^ 60)) [].
Proof. vm_compute. discriminate. Qed.

(** An infinite bearing (a JSON number such as [1e999]) is a number that
    [int()] rejects with [OverflowError], which the handler does not
    list: the call raises. *)
Lemma wind_direction_raises_on_infinity :
  get_wind_direction (PFloat infinity) [] = (Raise OverflowError, []).
Proof. vm_compute. reflexivity. Qed.



(** ** What a computation adds to the trace *)

Lemma writes_ret {A} P (a : A) : writes P (ret a).
Proof.
  intros t r t' H. inversion H; subst. exists []. rewrite app_nil_r. auto.
Qed.

Lemma writes_lift {A} P (r : res A) : writes P (lift r).
Proof.
  intros t r' t' H. inversion H; subst. exists []. rewrite app_nil_r. auto.
Qed.

Lemma writes_raise {A} P e : writes P (@raise A e).
Proof.
  intros t r' t' H. inversion H; subst. exists []. rewrite app_nil_r. auto.
Qed.

Lemma writes_emit (P : event -> Prop) ev : P ev -> writes P (emit ev).
Proof.
  intros Hev t r t' H. inversion H; subst. exists [ev]. auto.
Qed.

Lemma writes_log (P : event -> Prop) lvl msg :
  P (EvLog lvl msg) -> writes P (log lvl msg).
Proof. apply writes_emit. Qed.

Lemma writes_bind {A B} P (c : M A) (k : A -> M B) :
  writes P c -> (forall a, writes P (k a)) -> writes P (bind c k).
Proof.
  intros Hc Hk t r t' H. unfold bind in H.
  destruct (c t) as [[a|e] t1] eqn:E.
  - apply Hc in E as (l1 & -> & F1). apply Hk in H as (l2 & -> & F2).
    exists (l1 ++ l2)%list. rewrite app_assoc. split; [reflexivity|].
    apply Forall_app; auto.
  - inversion H; subst. apply Hc in E. exact E.
Qed.

Lemma writes_try {A} P (c : M A) h :
  writes P c -> (forall e k, h e = Some k -> writes P k) ->
  writes P (try_except c h).
Proof.
  intros Hc Hh t r t' H. unfold try_except in H.
  destruct (c t) as [[a|e] t1] eqn:E.
  - inversion H; subst. apply Hc in E. exact E.
  - destruct (h e) as [k|] eqn:Ek.
    + apply Hc in E as (l1 & -> & F1). apply (Hh _ _ Ek) in H as (l2 & -> & F2).
      exists (l1 ++ l2)%list. rewrite app_assoc. split; [reflexivity|].
      apply Forall_app; auto.
    + inversion H; subst. apply Hc in E. exact E.
Qed.

Lemma writes_mapM {A B} P (f : A -> M B) l :
  (forall a, writes P (f a)) -> writes P (mapM f l).
Proof.
  intros Hf. induction l as [|a l IH]; cbn [mapM].
  - apply writes_ret.
  - apply writes_bind; [apply Hf|]. intros b.
    apply writes_bind; [exact IH|]. intros bs. apply writes_ret.
Qed.

Lemma writes_foldM {A B} P (f : A -> B -> M A) l :
  (forall a b, writes P (f a b)) -> forall a, writes P (foldM f a l).
Proof.
  intros Hf. induction l as [|b l IH]; intros a; cbn [foldM].
  - apply writes_ret.
  - apply writes_bind; [apply Hf|]. intros a'. apply IH.
Qed.

Lemma writes_weaken {A} (P Q : event -> Prop) (c : M A) :
  (forall ev, P ev -> Q ev) -> writes P c -> writes Q c.
Proof.
  intros HPQ Hc t r t' H. apply Hc in H as (l & -> & F).
  exists l. split; [reflexivity|]. eapply Forall_impl; eauto.
Qed.

Lemma writes_requests_get W (P : event -> Prop) rq :
  P (EvGet rq) -> writes P (requests_get W rq).
Proof.
  intros Hrq t r t' H. unfold requests_get in H.
  destruct (http W t rq); inversion H; subst; exists [EvGet rq]; auto.
Qed.

(** Goals of the form [writes P c] are solved by following the shape
    of [c]; what is left are the side conditions on single events. *)
Ltac writes_step :=
  match goal with
  | |- writes _ (ret _) => apply writes_ret
  | |- writes _ (lift _) => apply writes_lift
  | |- writes _ (raise _) => apply writes_raise
  | |- writes _ (log _ _) => apply writes_log
  | |- writes _ (emit _) => apply writes_emit
  | |- writes _ (requests_get _ _) => apply writes_requests_get
  | |- writes _ (bind _ _) => apply writes_bind; [|intros ?]
  | |- writes _ (mapM _ _) => apply writes_mapM; intros ?
  | |- writes _ (foldM _ _ _) => apply writes_foldM; intros ? ?
  | |- writes _ (try_except _ _) =>
      apply writes_try;
      [|let e := fresh "e" in let k := fresh "k" in let Hk := fresh "Hk" in
        intros e k Hk; destruct e; inversion Hk; subst; clear Hk]
  | |- writes _ (match ?x with _ => _ end) => destruct x
  | |- writes _ (if ?x then _ else _) => destruct x
  end.

Ltac writes_auto := repeat (cbv beta; writes_step).

Lemma writes_get_wind_direction `{RT : PyRuntime} degrees :
  writes is_log (get_wind_direction degrees).
Proof. unfold get_wind_direction. writes_auto; exact I. Qed.

Lemma writes_normalise `{RT : PyRuntime} daily_data :
  writes is_log (normalise daily_data).
Proof.
  unfold normalise, sun_times. writes_auto;
    try exact I; try apply writes_get_wind_direction.
Qed.

(** ** Shape of the trace of the two provider calls *)

Section TraceShape.
Context `{RT : PyRuntime} (W : world).

(** A [try] whose body starts with a GET records the request first,
    whatever happens next. *)
Lemma try_get_trace {A} (P : event -> Prop) rq (k : response -> M A)
    (h : exn -> option (M A)) :
  (forall r, writes P (k r)) ->
  (forall e c, h e = Some c -> writes P c) ->
  forall t r t',
    try_except (bind (requests_get W rq) k) h t = (r, t') ->
    exists added, t' = (t ++ EvGet rq :: added)%list /\ Forall P added.
Proof.
  intros Hk Hh t r t' H. unfold try_except, bind, requests_get in H.
  destruct (http W t rq) as [|resp].
  - destruct (h (RequestException None)) as [c|] eqn:Eh.
    + apply (Hh _ _ Eh) in H as (l & -> & F). exists l.
      rewrite <- app_assoc. split; [reflexivity|exact F].
    + inversion H; subst. exists []. split; [reflexivity|constructor].
  - destruct (k resp (t ++ [EvGet rq])%list) as [[a|e] t1] eqn:E.
    + inversion H; subst. apply Hk in E as (l & -> & F). exists l.
      rewrite <- app_assoc. split; [reflexivity|exact F].
    + apply Hk in E as (l & -> & F).
      destruct (h e) as [c|] eqn:Eh.
      * apply (Hh _ _ Eh) in H as (l2 & -> & F2). exists (l ++ l2)%list.
        rewrite <- !app_assoc. split; [reflexivity|]. apply Forall_app; auto.
      * inversion H; subst. exists l.
        rewrite <- app_assoc. split; [reflexivity|exact F].
Qed.

Lemma writes_parse_forecast data days :
  writes is_log (parse_forecast data days).
Proof.
  unfold parse_forecast. writes_auto; try exact I; apply writes_normalise.
Qed.

Lemma forecast_trace location_key api_key days t r t' :
  supported_days days = true ->
  get_accuweather_forecast W location_key api_key days t = (r, t') ->
  exists added,
    t' = (t ++ EvGet (forecast_request location_key api_key days) :: added)%list /\
    Forall is_log added.
Proof.
  intros Hs H. unfold get_accuweather_forecast in H. rewrite Hs in H.
  unfold bind at 1 in H. cbn [ret] in H.
  eapply (try_get_trace is_log); [| |exact H].
  - intros resp. writes_auto; try exact I. apply writes_parse_forecast.
  - intros e c Hc. destruct e; inversion Hc; subst; writes_auto; exact I.
Qed.

Lemma forecast_unsupported location_key api_key days t :
  supported_days days = false ->
  get_accuweather_forecast W location_key api_key days t =
  get_accuweather_forecast W location_key api_key 5
    (t ++ [EvLog WARNING (MsgUnsupportedDays days)])%list.
Proof.
  intros Hs. unfold get_accuweather_forecast. rewrite Hs. reflexivity.
Qed.

Lemma location_trace lat lon api_key t r t' :
  get_accuweather_location_key W lat lon api_key t = (r, t') ->
  exists added,
    t' = (t ++ EvGet (location_request lat lon api_key) :: added)%list /\
    Forall is_log added.
Proof.
  intros H. unfold get_accuweather_location_key in H.
  eapply (try_get_trace is_log); [| |exact H].
  - intros resp. writes_auto; exact I.
  - intros e c Hc. destruct e; inversion Hc; subst; writes_auto; exact I.
Qed.

End TraceShape.

(** ** Unsupported day counts *)

(** C7: a day count outside {1, 5, 10, 15} is not rejected: a warning is
    logged, then the function goes on exactly as for 5 days, and the
    request it issues is the one for the [5day] endpoint. *)
Theorem unsupported_days_coerced `{RT : PyRuntime} (W : world)
    (location_key : pyval) (api_key : string) (days : Z) (t : list event) :
  supported_days days = false ->
  get_accuweather_forecast W location_key api_key days t =
    get_accuweather_forecast W location_key api_key 5
      (t ++ [EvLog WARNING (MsgUnsupportedDays days)])%list /\
  (exists r added,
     get_accuweather_forecast W location_key api_key days t =
       (r, (t ++ [EvLog WARNING (MsgUnsupportedDays days);
                  EvGet (forecast_request location_key api_key 5)] ++ added)%list) /\
     Forall is_log added) /\
  url (forecast_request location_key api_key 5) =
    ACCUWEATHER_BASE_URL +:+ "/forecasts/v1/daily/5day/" +:+ py_str location_key.
Proof.
  intros Hs. split; [apply forecast_unsupported; exact Hs|]. split; [|reflexivity].
  rewrite (forecast_unsupported W _ _ _ _ Hs).
  destruct (get_accuweather_forecast W location_key api_key 5
              (t ++ [EvLog WARNING (MsgUnsupportedDays days)])%list) as [r t'] eqn:E.
  apply forecast_trace in E as (added & -> & F); [|reflexivity].
  exists r, added. split; [|exact F]. rewrite <- app_assoc. reflexivity.
Qed.

Lemma unsupported_days_coerced_witness :
  let W := constant_world 200 (PDict [("DailyForecasts", PList [])]) in
  @get_accuweather_forecast sample_runtime W (PStr "328328") "secret" 7 [] =
    @get_accuweather_forecast sample_runtime W (PStr "328328") "secret" 5
      ([] ++ [EvLog WARNING (MsgUnsupportedDays 7)])%list /\
  (exists r added,
     @get_accuweather_forecast sample_runtime W (PStr "328328") "secret" 7 [] =
       (r, ([] ++ [EvLog WARNING (MsgUnsupportedDays 7);
                   EvGet (@forecast_request sample_runtime (PStr "328328") "secret" 5)]
               ++ added)%list) /\
     Forall is_log added) /\
  url (@forecast_request sample_runtime (PStr "328328") "secret" 5) =
    ACCUWEATHER_BASE_URL +:+ "/forecasts/v1/daily/5day/" +:+ @py_str sample_runtime (PStr "328328").
Proof.
  intros W.
  apply (@unsupported_days_coerced sample_runtime W (PStr "328328") "secret" 7 []).
  reflexivity.
Defined.

(** ** Classes of events *)

Lemma log_is_resolution ev : is_log ev -> is_resolution ev.
Proof. destruct ev; cbn; intros H; try contradiction; repeat split. Qed.

Lemma resolution_is_retrieval ev : is_resolution ev -> is_retrieval ev.
Proof. intros (_ & H1 & H2). split; assumption. Qed.

Lemma forecast_request_is_forecast_get `{RT : PyRuntime} k a d :
  is_forecast_get (EvGet (forecast_request k a d)) = true.
Proof. reflexivity. Qed.

Lemma location_get_is_resolution lat lon k :
  is_resolution (EvGet (location_request lat lon k)).
Proof. repeat split. Qed.

Lemma forecast_get_is_retrieval `{RT : PyRuntime} k a d :
  is_retrieval (EvGet (forecast_request k a d)).
Proof. repeat split. Qed.

(** [writes] from an explicit description of every run. *)
Lemma writes_of_runs {A} (P : event -> Prop) (c : M A) :
  (forall t, exists added, snd (c t) = (t ++ added)%list /\ Forall P added) ->
  writes P c.
Proof.
  intros H t r t' E. destruct (H t) as (added & Ht & F).
  rewrite E in Ht. cbn in Ht. subst t'. exists added. auto.
Qed.

(** Sequencing when the first computation always returns a value with a
    known property. *)
Lemma writes_bind_post {A B} (P : event -> Prop) (Q : A -> Prop)
    (c : M A) (k : A -> M B) :
  writes P c ->
  (forall t r t', c t = (r, t') -> match r with Ok a => Q a | Raise _ => True end) ->
  (forall a, Q a -> writes P (k a)) ->
  writes P (bind c k).
Proof.
  intros Hc Hq Hk t r t' H. unfold bind in H.
  destruct (c t) as [[a|e] t1] eqn:E.
  - pose proof (Hq _ _ _ E) as Qa. cbn in Qa.
    apply Hc in E as (l1 & -> & F1). apply (Hk a Qa) in H as (l2 & -> & F2).
    exists (l1 ++ l2)%list. rewrite app_assoc. split; [reflexivity|].
    apply Forall_app; auto.
  - inversion H; subst. apply Hc in E. exact E.
Qed.

(** ** Location resolution *)

Section Resolution.
Context `{RT : PyRuntime} (W : world).

Lemma location_key_of_without_key data :
  has_nonempty_key data = false ->
  match location_key_of data with
  | Some key => truthy key = false
  | None => True
  end.
Proof.
  unfold location_key_of, has_nonempty_key.
  destruct (truthy data); [|trivial].
  destruct data; trivial.
  destruct (assoc "Key" kv); trivial.
Qed.

(** The resolver never raises, and it returns a false value whenever
    the endpoint gave no usable answer. *)
Lemma location_key_result lat lon api_key t :
  exists v t',
    get_accuweather_location_key W lat lon api_key t = (Ok v, t') /\
    (resolution_fails (http W t (location_request lat lon api_key)) = true ->
     truthy v = false).
Proof.
  unfold get_accuweather_location_key, try_except, bind, requests_get,
    raise_for_status, response_json, resolution_fails.
  destruct (http W t (location_request lat lon api_key)) as [|resp]; cbn.
  - eauto.
  - destruct ((400 <=? status_code resp) && (status_code resp <? 600)); cbn.
    + eauto.
    + destruct (json_body resp) as [data|]; cbn; [|eauto].
      pose proof (location_key_of_without_key data) as Hk.
      destruct (location_key_of data) as [key|]; cbn.
      * do 2 eexists. split; [reflexivity|]. intros H. apply Hk.
        apply negb_true_iff. exact H.
      * eauto.
Qed.

Lemma notify_without_key api_key user password to lat lon city days t :
  resolution_fails (http W (t ++ [EvLog INFO (MsgFetchingKey city lat lon)])%list
                      (location_request lat lon api_key)) = true ->
  exists added,
    notify W api_key user password to lat lon city days t =
      (Ok tt, (t ++ [EvLog INFO (MsgFetchingKey city lat lon);
                     EvGet (location_request lat lon api_key)]
                 ++ added ++ [EvLog ERROR MsgFailedKey])%list) /\
    Forall is_log added.
Proof.
  intros Hf. unfold notify.
  destruct (location_key_result lat lon api_key
              (t ++ [EvLog INFO (MsgFetchingKey city lat lon)])%list)
    as (v & t1 & E & Hv).
  specialize (Hv Hf).
  destruct (location_trace W _ _ _ _ _ _ E) as (added & -> & F).
  exists added. split; [|exact F].
  unfold bind at 1. cbn [log emit].
  rewrite (bind_ok _ _ _ _ _ E), Hv.
  unfold log, emit. rewrite <- !app_assoc. reflexivity.
Qed.

End Resolution.

Section Halting.
Context `{RT : PyRuntime} (W : world).

Lemma writes_location_key lat lon api_key :
  writes is_resolution (get_accuweather_location_key W lat lon api_key).
Proof.
  intros t r t' E. apply location_trace in E as (added & -> & F).
  eexists. split; [reflexivity|]. constructor.
  - apply location_get_is_resolution.
  - eapply Forall_impl; [exact F|]. apply log_is_resolution.
Qed.

Lemma writes_forecast location_key api_key days :
  writes is_retrieval (get_accuweather_forecast W location_key api_key days).
Proof.
  assert (Hlog : forall ev, is_log ev -> is_retrieval ev).
  { intros ev H. apply resolution_is_retrieval, log_is_resolution, H. }
  intros t r t' E. destruct (supported_days days) eqn:Hs.
  - apply forecast_trace in E as (added & -> & F); [|exact Hs].
    eexists. split; [reflexivity|]. constructor.
    + apply forecast_get_is_retrieval.
    + eapply Forall_impl; [exact F|]. exact Hlog.
  - rewrite (forecast_unsupported W _ _ _ _ Hs) in E.
    apply forecast_trace in E as (added & -> & F); [|reflexivity].
    exists (EvLog WARNING (MsgUnsupportedDays days)
              :: EvGet (forecast_request location_key api_key 5) :: added).
    split; [rewrite <- app_assoc; reflexivity|].
    constructor; [repeat split|]. constructor.
    + apply forecast_get_is_retrieval.
    + eapply Forall_impl; [exact F|]. exact Hlog.
Qed.

(** The configuration checks write log records only. *)
Lemma writes_alert (P : event -> Prop) :
  (forall lvl msg, P (EvLog lvl msg)) ->
  (forall api_key user password to lat lon city days,
      writes P (notify W api_key user password to lat lon city days)) ->
  writes P (WeatherAlert W).
Proof.
  intros Hlog Hnotify. unfold WeatherAlert.
  writes_auto; try apply Hlog; apply Hnotify.
Qed.

End Halting.

(** C6 (amended): when the geoposition endpoint gives no usable answer
    (no response, a 4xx or 5xx status, an undecodable body, or a
    document without a non-empty ["Key"]), the resolver returns a false
    value, the run stops after logging the failure, and its trace holds
    no forecast request, no icon request and no mail. *)
Theorem resolution_failure_halts `{RT : PyRuntime} (W : world) :
  (forall t lat lon api_key,
      resolution_fails (http W t (location_request lat lon api_key)) = true) ->
  (forall lat lon api_key t, exists v t',
      get_accuweather_location_key W lat lon api_key t = (Ok v, t') /\
      truthy v = false) /\
  (forall api_key user password to lat lon city days t, exists added,
      notify W api_key user password to lat lon city days t =
        (Ok tt, (t ++ [EvLog INFO (MsgFetchingKey city lat lon);
                       EvGet (location_request lat lon api_key)]
                   ++ added ++ [EvLog ERROR MsgFailedKey])%list) /\
      Forall is_log added) /\
  writes is_resolution (WeatherAlert W).
Proof.
  intros Hfail.
  assert (Hnotify : forall api_key user password to lat lon city days t,
             exists added,
               notify W api_key user password to lat lon city days t =
                 (Ok tt, (t ++ [EvLog INFO (MsgFetchingKey city lat lon);
                                EvGet (location_request lat lon api_key)]
                            ++ added ++ [EvLog ERROR MsgFailedKey])%list) /\
               Forall is_log added).
  { intros. apply notify_without_key, Hfail. }
  split; [|split; [exact Hnotify|]].
  - intros lat lon api_key t.
    destruct (location_key_result W lat lon api_key t) as (v & t' & E & Hv).
    exists v, t'. split; [exact E|]. apply Hv, Hfail.
  - apply writes_alert; [intros; repeat split|].
    intros api_key user password to lat lon city days.
    apply writes_of_runs. intros t.
    destruct (Hnotify api_key user password to lat lon city days t) as (added & E & F).
    rewrite E. eexists. split; [reflexivity|]. cbn [snd].
    constructor; [repeat split|]. constructor; [apply location_get_is_resolution|].
    apply Forall_app. split.
    + eapply Forall_impl; [exact F|]. apply log_is_resolution.
    + constructor; [repeat split|constructor].
Qed.

Lemma resolution_failure_halts_witness :
  let W := constant_world 200 (PDict [("Code", PStr "Unauthorized")]) in
  (forall lat lon api_key t, exists v t',
      get_accuweather_location_key W lat lon api_key t = (Ok v, t') /\
      truthy v = false) /\
  (forall api_key user password to lat lon city days t, exists added,
      @notify sample_runtime W api_key user password to lat lon city days t =
        (Ok tt, (t ++ [EvLog INFO (MsgFetchingKey city lat lon);
                       EvGet (location_request lat lon api_key)]
                   ++ added ++ [EvLog ERROR MsgFailedKey])%list) /\
      Forall is_log added) /\
  writes is_resolution (@WeatherAlert sample_runtime W).
Proof.
  intros W. apply (@resolution_failure_halts sample_runtime W).
  intros t lat lon api_key. reflexivity.
Defined.

(** C6, counterexample: a response with status 300 is not a 2xx
    response, yet [raise_for_status] lets it through; with a key in its
    body the resolver succeeds and the forecast request is issued. *)
Lemma redirect_status_resolves :
  let W := constant_world 300 (PDict [("Key", PStr "328328")]) in
  fst (get_accuweather_location_key W "39" "-89" "secret" [])
    = Ok (PStr "328328") /\
  existsb is_forecast_get (snd (@WeatherAlert sample_runtime W [])) = true.
Proof. vm_compute. split; reflexivity. Qed.

(** ** An empty forecast array *)

Section EmptyForecast.
Context `{RT : PyRuntime} (W : world).

Lemma parse_forecast_empty kv days t :
  assoc "DailyForecasts" kv = Some (PList []) ->
  parse_forecast (PDict kv) days t = (Ok (Some []), t).
Proof.
  intros H. unfold parse_forecast.
  destruct kv as [|p kv]; [discriminate|].
  cbn [truthy]. unfold has_daily_forecasts, daily_forecasts_of. rewrite H.
  cbn. destruct (Z.to_nat days); reflexivity.
Qed.

Lemma forecast_empty_supported location_key api_key days t :
  supported_days days = true ->
  empty_forecast (http W t (forecast_request location_key api_key days)) = true ->
  exists t', get_accuweather_forecast W location_key api_key days t = (Ok (Some []), t').
Proof.
  intros Hs He. unfold get_accuweather_forecast. rewrite Hs.
  unfold bind at 1. cbn [ret].
  unfold try_except, bind, requests_get, raise_for_status, response_json.
  unfold empty_forecast in He.
  destruct (http W t (forecast_request location_key api_key days)) as [|resp];
    [discriminate|].
  apply andb_prop in He as [Hst Hbody]. apply negb_true_iff in Hst. rewrite Hst.
  destruct (json_body resp) as [[| | | | | |kv]|]; try discriminate.
  destruct (assoc "DailyForecasts" kv) as [[| | | | |[|]|]|] eqn:Ha; try discriminate.
  cbn [lift]. rewrite (parse_forecast_empty kv days _ Ha). eauto.
Qed.

Lemma forecast_empty location_key api_key days t :
  (forall t k a d, empty_forecast (http W t (forecast_request k a d)) = true) ->
  exists t', get_accuweather_forecast W location_key api_key days t = (Ok (Some []), t').
Proof.
  intros He. destruct (supported_days days) eqn:Hs.
  - apply forecast_empty_supported; [exact Hs|apply He].
  - rewrite (forecast_unsupported W _ _ _ _ Hs).
    apply forecast_empty_supported; [reflexivity|apply He].
Qed.

End EmptyForecast.

(** C10: when the forecast response decodes to a document whose
    forecast array is empty, [get_accuweather_forecast] returns the
    empty list; [WeatherAlert] takes the same branch as for [None], which
    logs that no mail is sent; the run fetches no icon and hands nothing
    to the mail transport. *)
Theorem empty_forecast_sends_nothing `{RT : PyRuntime} (W : world) :
  (forall t k a d, empty_forecast (http W t (forecast_request k a d)) = true) ->
  (forall location_key api_key days t, exists t',
      get_accuweather_forecast W location_key api_key days t = (Ok (Some []), t')) /\
  (forall user password to city t,
      deliver W (Some []) user password to city t = deliver W None user password to city t /\
      deliver W (Some []) user password to city t =
        (Ok tt, (t ++ [EvLog ERROR MsgMailNotSent])%list)) /\
  writes is_retrieval (WeatherAlert W).
Proof.
  intros He. split; [|split].
  - intros. apply forecast_empty. exact He.
  - intros. split; reflexivity.
  - assert (Hres : forall ev, is_resolution ev -> is_retrieval ev)
      by apply resolution_is_retrieval.
    apply writes_alert; [intros; repeat split|].
    intros api_key user password to lat lon city days. unfold notify.
    apply writes_bind; [apply writes_log; repeat split|]. intros _.
    apply writes_bind;
      [eapply writes_weaken; [exact Hres|apply writes_location_key]|].
    intros location_key. destruct (truthy location_key);
      [|apply writes_log; repeat split].
    apply writes_bind; [apply writes_log; repeat split|]. intros _.
    apply (writes_bind_post _ (fun fd => fd = Some [])).
    + apply writes_forecast.
    + intros t r t' E.
      destruct (forecast_empty W location_key api_key days t He) as (t1 & E1).
      rewrite E1 in E. inversion E; subst. reflexivity.
    + intros fd ->. apply writes_bind; [|intros _; apply writes_log; repeat split].
      apply writes_log. repeat split.
Qed.

Lemma empty_forecast_sends_nothing_witness :
  let W := constant_world 200 (PDict [("Key", PStr "328328"); ("DailyForecasts", PList [])]) in
  (forall location_key api_key days t, exists t',
      @get_accuweather_forecast sample_runtime W location_key api_key days t
        = (Ok (Some []), t')) /\
  (forall user password to city t,
      @deliver sample_runtime W (Some []) user password to city t
        = @deliver sample_runtime W None user password to city t /\
      @deliver sample_runtime W (Some []) user password to city t =
        (Ok tt, (t ++ [EvLog ERROR MsgMailNotSent])%list)) /\
  writes is_retrieval (@WeatherAlert sample_runtime W).
Proof.
  intros W. apply (@empty_forecast_sends_nothing sample_runtime W).
  intros t k a d. reflexivity.
Defined.

(** ** The normaliser on one record *)

Lemma py_get_dict kv k default : py_get (PDict kv) k default = Ok (field kv k default).
Proof. reflexivity. Qed.

(** The sunrise and sunset strings never abort a record: every
    exception their parsing can raise is handled on the spot. *)
Lemma sun_times_returns `{RT : PyRuntime} rise set t :
  exists pair t', sun_times rise set t = (Ok pair, t').
Proof.
  unfold sun_times, try_except, bind, lift, clock_of.
  destruct (truthy rise), (truthy set);
    repeat match goal with
           | |- context [match ?v with PNone => _ | _ => _ end] => destruct v
           | |- context [match iso_clock ?s with _ => _ end] => destruct (iso_clock s)
           end; cbn; eauto.
Qed.

(** C9: a record without an icon phrase gets the description ["N/a"],
    not ["N/A"]: the default goes through [capitalize] as well, which
    lower-cases every character after the first. *)
Theorem absent_icon_phrase_is_lowercased :
  let daily_data := PDict [("EpochDate", PInt 1709164800);
                           ("Day", PDict [("Icon", PInt 3)])] in
  exists r t',
    @normalise sample_runtime daily_data [] = (Ok r, t') /\
    weather_desc r = "N/a" /\
    weather_desc r <> "N/A".
Proof.
  intros daily_data. do 2 eexists. split; [vm_compute; reflexivity|].
  split; [reflexivity|discriminate].
Qed.

(** Following a successful run through its sequence of statements: each
    step either is a pure operation, whose outcome is named, or a
    call, whose result and trace are named. *)
Ltac run_step H :=
  lazymatch type of H with
  | bind (lift ?r) _ _ = _ =>
      unfold bind at 1 in H; unfold lift at 1 in H;
      lazymatch r with
      | Ok _ => cbv beta iota in H
      | Raise _ => discriminate H
      | _ => let E := fresh "E" in
             destruct r as [?|?] eqn:E; [cbv beta iota in H|discriminate H]
      end
  | bind ?c _ ?t0 = _ =>
      let E := fresh "E" in
      unfold bind at 1 in H;
      destruct (c t0) as [[?|?] ?] eqn:E; [cbv beta iota in H|discriminate H]
  end.



(** ** Well-formed daily records *)

Section Accepts.
Context `{RT : PyRuntime}.

Lemma find_uv_dicts items :
  forallb is_dict items = true ->
  exists found, find_uv items = Ok found /\
                match found with Some info => is_dict info = true | None => True end.
Proof.
  induction items as [|item items IH]; cbn [find_uv forallb]; intros H.
  - exists None. auto.
  - apply andb_prop in H as [Hi Hr]. destruct item; try discriminate.
    rewrite py_get_dict. cbn [res_bind].
    destruct (field kv "Name" PNone); try (apply IH; exact Hr).
    destruct (s =? "UVIndex")%string; [|apply IH; exact Hr].
    exists (Some (PDict kv)). auto.
Qed.

Lemma uv_index_of_wf v :
  air_wf v = true -> exists uv, uv_index_of v = Ok uv.
Proof.
  destruct v; try discriminate. cbn [air_wf]. intros H.
  destruct (find_uv_dicts items H) as (found & E & Hd).
  unfold uv_index_of. cbn [py_iter res_bind]. rewrite E. cbn [res_bind].
  destruct found as [info|]; [|eauto].
  destruct info; try discriminate. destruct (truthy (PDict kv)); [|eauto].
  rewrite !py_get_dict. cbn [res_bind]. eauto.
Qed.

Lemma sub_value_wf p obj kind :
  value_wf p obj kind = true ->
  exists v, sub_value (PDict obj) kind = Ok v /\ (v = PInt 0 \/ p v = true).
Proof.
  unfold value_wf, sub_value. rewrite py_get_dict. cbn [res_bind].
  destruct (field obj kind (PDict [])); try discriminate.
  rewrite py_get_dict. unfold field.
  destruct (assoc "Value" kv) as [v|]; intros H; eauto.
Qed.

Lemma float_of_zero : float_of_Z 0 = Ok 0%float.
Proof. reflexivity. Qed.

Lemma py_add_defaults a b :
  (a = PInt 0 \/ is_float a = true) ->
  (b = PInt 0 \/ is_float b = true) ->
  exists c, py_add a b = Ok c /\ (c = PInt 0 \/ is_float c = true).
Proof.
  intros [->|Ha] [->|Hb].
  - exists (PInt 0). auto.
  - destruct b; try discriminate. cbn. eauto.
  - destruct a; try discriminate. cbn. eauto.
  - destruct a, b; try discriminate. cbn. eauto.
Qed.

Lemma precip_value_wf day :
  value_wf is_float day "Rain" = true ->
  value_wf is_float day "Snow" = true ->
  value_wf is_float day "Ice" = true ->
  exists v r, precip_value_of (PDict day) = Ok v /\ py_round1 v = Ok r.
Proof.
  intros Hr Hs Hi. unfold precip_value_of.
  destruct (sub_value_wf _ _ _ Hr) as (rain & -> & Prain).
  destruct (sub_value_wf _ _ _ Hs) as (snow & -> & Psnow).
  destruct (sub_value_wf _ _ _ Hi) as (ice & -> & Pice).
  cbn [res_bind].
  destruct (py_add_defaults _ _ Prain Psnow) as (rs & -> & Prs).
  cbn [res_bind].
  destruct (py_add_defaults _ _ Prs Pice) as (total & -> & Ptotal).
  exists total. destruct Ptotal as [->|Hf].
  - eauto.
  - destruct total; try discriminate. cbn. eauto.
Qed.

Lemma temperature_value_wf temp kind :
  value_wf is_number temp kind = true ->
  exists v r, sub_value (PDict temp) kind = Ok v /\ py_round1 v = Ok r.
Proof.
  intros H. destruct (sub_value_wf _ _ _ H) as (v & -> & [->|Hv]).
  - eauto.
  - destruct v; try discriminate; cbn; eauto.
Qed.

Lemma wind_speed_wf v :
  is_float_or_none v = true -> exists ms, wind_speed_of v = Ok ms.
Proof. destruct v; try discriminate; cbn; eauto. Qed.

Lemma wind_direction_wf v t :
  is_bearing v = true -> exists label, get_wind_direction v t = (Ok label, t).
Proof.
  destruct v; try discriminate; cbn [is_bearing]; intros H.
  - exists "N/A". reflexivity.
  - apply andb_prop in H as [H0 H1].
    apply Z.leb_le in H0. apply Z.leb_le in H1.
    pose proof (range_all_spec _ _ _ labels_0_360 z ltac:(lia)) as Hl.
    cbv beta in Hl. rewrite get_wind_direction_int.
    destruct (wind_lookup (PInt z)); [eauto|discriminate].
Qed.

Lemma date_obj_wf v :
  is_epoch v = true -> date_obj_of v = Ok (date_of_epoch v).
Proof.
  destruct v; try discriminate; cbn [is_epoch]; intros H; [reflexivity|].
  unfold date_obj_of, date_of_epoch. cbn [truthy fromtimestamp].
  destruct (z =? 0); cbn; [reflexivity|]. rewrite H. reflexivity.
Qed.

Lemma capitalize_wf v :
  is_str v = true -> exists desc, py_capitalize v = Ok desc.
Proof. destruct v; try discriminate; cbn; eauto. Qed.

End Accepts.

Section Normalise.
Context `{RT : PyRuntime}.

(** One statement of a run that is known to succeed. *)
Ltac pass_pure :=
  rewrite ?py_get_dict;
  lazymatch goal with
  | |- exists _ _, bind (lift (Ok _)) _ _ = _ =>
      unfold bind at 1; unfold lift at 1; cbv beta iota
  | H : ?r = Ok _ |- exists _ _, bind (lift ?r) _ _ = _ =>
      rewrite H; unfold bind at 1; unfold lift at 1; cbv beta iota
  end.

(** A well-formed record is never aborted. *)
Lemma normalise_wf daily_data t :
  daily_wf daily_data = true ->
  exists r t', normalise daily_data t = (Ok r, t').
Proof.
  destruct daily_data as [| | | | | |kv]; try discriminate.
  unfold daily_wf. intros H.
  apply andb_prop in H as [H Hepoch]. apply andb_prop in H as [H Hair].
  apply andb_prop in H as [H Hsun]. apply andb_prop in H as [Htemp Hday].
  destruct (field kv "Temperature" (PDict [])) as [| | | | | |temp] eqn:Etemp;
    try discriminate.
  destruct (field kv "Day" (PDict [])) as [| | | | | |day] eqn:Eday;
    try discriminate.
  destruct (field kv "Sun" (PDict [])) as [| | | | | |sun] eqn:Esun;
    try discriminate.
  cbn [temperature_wf day_wf] in Htemp, Hday.
  apply andb_prop in Htemp as [Hmax Hmin].
  apply andb_prop in Hday as [Hday Hphrase]. apply andb_prop in Hday as [Hday Hice].
  apply andb_prop in Hday as [Hday Hsnow]. apply andb_prop in Hday as [Hwind Hrain].
  destruct (field day "Wind" (PDict [])) as [| | | | | |wind] eqn:Ewind;
    try discriminate.
  cbn [wind_wf] in Hwind. apply andb_prop in Hwind as [Hspeed Hdir].
  destruct (field wind "Speed" (PDict [])) as [| | | | | |speed] eqn:Espeed;
    try discriminate.
  destruct (field wind "Direction" (PDict [])) as [| | | | | |direction] eqn:Edir;
    try discriminate.
  destruct (uv_index_of_wf _ Hair) as (uv & Huv).
  destruct (precip_value_wf _ Hrain Hsnow Hice) as (pv & precip & Hpv & Hprecip).
  destruct (wind_speed_wf _ Hspeed) as (ms & Hms).
  pose proof (date_obj_wf _ Hepoch) as Hdate.
  destruct (capitalize_wf _ Hphrase) as (desc & Hdesc).
  destruct (temperature_value_wf _ _ Hmax) as (hi & high & Hhi & Hhigh).
  destruct (temperature_value_wf _ _ Hmin) as (lo & low & Hlo & Hlow).
  unfold normalise.
  pass_pure. rewrite Etemp. pass_pure. rewrite Eday.
  pass_pure. rewrite Ewind. pass_pure. rewrite Espeed. pass_pure. rewrite Edir.
  pass_pure. rewrite Esun. pass_pure.
  repeat pass_pure.
  destruct (sun_times_returns (field sun "Rise" PNone) (field sun "Set" PNone) t)
    as (pair & t1 & Esuntimes).
  unfold bind at 1. rewrite Esuntimes.
  repeat pass_pure.
  destruct (wind_direction_wf _ t1 Hdir) as (label & Elabel).
  unfold bind at 1. rewrite Elabel.
  pass_pure. unfold ret. eauto.
Qed.

End Normalise.

(** ** How the result depends on the record *)

Section Fields.
Context `{RT : PyRuntime}.

Lemma normalise_dict kv :
  normalise (PDict kv) =
  normalise_from (field kv "Temperature" (PDict [])) (field kv "Day" (PDict []))
    (field kv "Sun" (PDict [])) (field kv "AirAndPollen" (PList []))
    (field kv "EpochDate" PNone).
Proof. reflexivity. Qed.

(** Where the fields of the result come from. *)
Lemma normalise_fields temp_data day_data sun_data air_and_pollen epoch_date t r t' :
  normalise_from temp_data day_data sun_data air_and_pollen epoch_date t = (Ok r, t') ->
  uv_index_of air_and_pollen = Ok (uv_index r) /\
  date_obj_of epoch_date = Ok (date_obj r) /\
  (exists v, precip_value_of day_data = Ok v /\ py_round1 v = Ok (precipitation r)) /\
  (exists v, sub_value temp_data "Maximum" = Ok v /\ py_round1 v = Ok (high_temp r)) /\
  (exists v, sub_value temp_data "Minimum" = Ok v /\ py_round1 v = Ok (low_temp r)) /\
  (exists v, py_get day_data "IconPhrase" (PStr "N/A") = Ok v /\
             py_capitalize v = Ok (weather_desc r)) /\
  py_get day_data "Icon" PNone = Ok (icon r) /\
  date_str r = match date_obj r with Some d => strftime_date d | None => "N/A" end.
Proof.
  intros H. unfold normalise_from in H.
  repeat run_step H. unfold ret in H. inversion H; subst; clear H. cbn.
  repeat split; eauto.
Qed.

(** Two runs that differ in the air-and-pollen collection only. *)
Ltac sync_step H :=
  lazymatch type of H with
  | bind (lift ?r) _ _ = _ =>
      unfold bind at 1 in H; unfold lift at 1 in H;
      unfold bind at 1; unfold lift at 1;
      lazymatch r with
      | Ok _ => cbv beta iota in H; cbv beta iota
      | _ => destruct r as [?|?] eqn:?;
             [cbv beta iota in H; cbv beta iota|discriminate H]
      end
  | bind ?c _ ?t0 = _ =>
      unfold bind at 1 in H; unfold bind at 1;
      destruct (c t0) as [[?|?] ?] eqn:?;
      [cbv beta iota in H; cbv beta iota|discriminate H]
  end.

Lemma normalise_other_air temp_data day_data sun_data air air' epoch_date t r t' uv' :
  normalise_from temp_data day_data sun_data air epoch_date t = (Ok r, t') ->
  uv_index_of air' = Ok uv' ->
  normalise_from temp_data day_data sun_data air' epoch_date t
    = (Ok (with_uv_index uv' r), t').
Proof.
  intros H Huv'. unfold normalise_from in *. rewrite Huv'.
  destruct (uv_index_of air) as [uv|] eqn:Huv.
  - repeat sync_step H. unfold ret in *. inversion H; subst. reflexivity.
  - repeat run_step H.
Qed.

End Fields.

(** ** Missing members *)

Section Missing.
Context `{RT : PyRuntime}.

Lemma assoc_update_same k f kv :
  assoc k (update k f kv) = option_map f (assoc k kv).
Proof.
  induction kv as [|[k' v] kv IH]; cbn; [reflexivity|].
  destruct (String.eqb k k') eqn:E; cbn; rewrite E; [reflexivity|exact IH].
Qed.

Lemma assoc_update_other k k' f kv :
  k <> k' -> assoc k' (update k f kv) = assoc k' kv.
Proof.
  intros Hne. induction kv as [|[k0 v] kv IH]; cbn; [reflexivity|].
  destruct (String.eqb k k0) eqn:E; cbn.
  - apply String.eqb_eq in E. subst k0.
    destruct (String.eqb k' k) eqn:E'; [|reflexivity].
    apply String.eqb_eq in E'. congruence.
  - destruct (String.eqb k' k0); [reflexivity|exact IH].
Qed.

Lemma field_update_other k k' f kv default :
  k <> k' -> field (update k f kv) k' default = field kv k' default.
Proof. intros H. unfold field. rewrite assoc_update_other by exact H. reflexivity. Qed.

Lemma find_uv_none items :
  forallb is_dict items = true ->
  forallb (fun item => negb (named_uv item)) items = true ->
  find_uv items = Ok None.
Proof.
  induction items as [|item items IH]; cbn [forallb find_uv]; intros Hd Hn;
    [reflexivity|].
  apply andb_prop in Hd as [Hi Hd]. apply andb_prop in Hn as [Hu Hn].
  destruct item; try discriminate. rewrite py_get_dict. cbn [res_bind].
  cbn [named_uv] in Hu.
  destruct (field kv "Name" PNone); try (apply IH; assumption).
  apply negb_true_iff in Hu. rewrite Hu. apply IH; assumption.
Qed.

Lemma uv_index_without v :
  air_wf v = true -> uv_index_of (without_uv_items v) = Ok "N/A".
Proof.
  destruct v; try discriminate. cbn [air_wf without_uv_items]. intros H.
  unfold uv_index_of. cbn [py_iter res_bind]. rewrite find_uv_none; [reflexivity| |].
  - apply forallb_forall. intros x Hx. apply filter_In in Hx as [Hx _].
    rewrite forallb_forall in H. apply H, Hx.
  - apply forallb_forall. intros x Hx. apply filter_In in Hx as [_ Hx]. exact Hx.
Qed.

Lemma no_value_default obj kind :
  no_value obj kind = true -> sub_value (PDict obj) kind = Ok (PInt 0).
Proof.
  unfold no_value, sub_value. rewrite py_get_dict. cbn [res_bind].
  destruct (field obj kind (PDict [])); try discriminate.
  rewrite py_get_dict. unfold field.
  destruct (assoc "Value" kv); [discriminate|reflexivity].
Qed.

End Missing.

(** C5: a well-formed record, whichever of its members are missing, is
    normalised without aborting.  Without a UV-index entry its
    [uv_index] is ["N/A"], and taking the entry out of a record changes
    no other field of the result; with no rain, snow and ice values its
    [precipitation] is 0, which equals [0.0]; a missing maximum or
    minimum temperature value gives 0. *)
Theorem missing_fields_take_defaults `{RT : PyRuntime}
    (daily_data : pyval) (t : list event) :
  daily_wf daily_data = true ->
  exists r t',
    normalise daily_data t = (Ok r, t') /\
    (lacks_uv_entry daily_data = true -> uv_index r = "N/A") /\
    normalise (without_uv_entry daily_data) t = (Ok (with_uv_index "N/A" r), t') /\
    (lacks_precipitation daily_data = true ->
     precipitation r = PInt 0 /\ py_num_eq (precipitation r) (PFloat 0%float) = true) /\
    (lacks_temperature "Maximum" daily_data = true -> high_temp r = PInt 0) /\
    (lacks_temperature "Minimum" daily_data = true -> low_temp r = PInt 0).
Proof.
  intros Hwf. destruct (normalise_wf daily_data t Hwf) as (r & t' & Hrun).
  exists r, t'. split; [exact Hrun|].
  destruct daily_data as [| | | | | |kv]; try discriminate.
  pose proof Hrun as Hfrom. rewrite normalise_dict in Hfrom.
  destruct (normalise_fields _ _ _ _ _ _ _ _ Hfrom)
    as (Huv & _ & (pv & Hpv & Hprecip) & (hi & Hhi & Hhigh) & (lo & Hlo & Hlow) & _).
  assert (Hair : air_wf (field kv "AirAndPollen" (PList [])) = true).
  { unfold daily_wf in Hwf. apply andb_prop in Hwf as [Hwf _].
    apply andb_prop in Hwf as [_ Hwf]. exact Hwf. }
  split; [|split; [|split; [|split]]].
  - cbn [lacks_uv_entry]. intros Hlack.
    destruct (field kv "AirAndPollen" (PList [])) as [| | | | |items|] eqn:Eair;
      try discriminate.
    unfold uv_index_of in Huv. cbn [py_iter res_bind] in Huv.
    rewrite (find_uv_none items Hair Hlack) in Huv. cbn in Huv. congruence.
  - cbn [without_uv_entry]. rewrite normalise_dict.
    rewrite (field_update_other _ "Temperature"), (field_update_other _ "Day"),
      (field_update_other _ "Sun"), (field_update_other _ "EpochDate")
      by discriminate.
    apply (normalise_other_air _ _ _ _ _ _ _ _ _ _ Hfrom).
    unfold field. rewrite assoc_update_same.
    unfold field in Hair. destruct (assoc "AirAndPollen" kv) as [v|]; cbn.
    + apply uv_index_without. exact Hair.
    + reflexivity.
  - cbn [lacks_precipitation]. intros Hlack.
    destruct (field kv "Day" (PDict [])) as [| | | | | |day]; try discriminate.
    apply andb_prop in Hlack as [Hlack Hice]. apply andb_prop in Hlack as [Hrain Hsnow].
    unfold precip_value_of in Hpv.
    rewrite !no_value_default in Hpv by assumption. cbn in Hpv.
    inversion Hpv; subst pv. cbn in Hprecip. inversion Hprecip.
    split; reflexivity.
  - cbn [lacks_temperature]. intros Hlack.
    destruct (field kv "Temperature" (PDict [])) as [| | | | | |temp]; try discriminate.
    rewrite no_value_default in Hhi by assumption.
    inversion Hhi; subst hi. cbn in Hhigh. congruence.
  - cbn [lacks_temperature]. intros Hlack.
    destruct (field kv "Temperature" (PDict [])) as [| | | | | |temp]; try discriminate.
    rewrite no_value_default in Hlo by assumption.
    inversion Hlo; subst lo. cbn in Hlow. congruence.
Qed.

Lemma missing_fields_take_defaults_witness :
  exists r t',
    @normalise sample_runtime (sample_day 1709164800 3) [] = (Ok r, t') /\
    (lacks_uv_entry (sample_day 1709164800 3) = true -> uv_index r = "N/A") /\
    @normalise sample_runtime (without_uv_entry (sample_day 1709164800 3)) []
      = (Ok (with_uv_index "N/A" r), t') /\
    (lacks_precipitation (sample_day 1709164800 3) = true ->
     precipitation r = PInt 0 /\ py_num_eq (precipitation r) (PFloat 0%float) = true) /\
    (lacks_temperature "Maximum" (sample_day 1709164800 3) = true -> high_temp r = PInt 0) /\
    (lacks_temperature "Minimum" (sample_day 1709164800 3) = true -> low_temp r = PInt 0).
Proof.
  apply (@missing_fields_take_defaults sample_runtime (sample_day 1709164800 3) []).
  reflexivity.
Defined.

(** ** Sorting by date *)

Section Sorting.
Context `{RT : PyRuntime}.

Lemma insert_sorted_perm x l : Permutation (insert_sorted x l) (x :: l).
Proof.
  induction l as [|y l IH]; cbn [insert_sorted]; [reflexivity|].
  destruct (sort_key x <=? sort_key y); [reflexivity|].
  rewrite IH. apply perm_swap.
Qed.

Lemma sort_by_date_perm l : Permutation (sort_by_date l) l.
Proof.
  induction l as [|x l IH]; cbn [sort_by_date]; [reflexivity|].
  rewrite insert_sorted_perm. constructor. exact IH.
Qed.

Lemma insert_sorted_ascending x l :
  StronglySorted key_le l -> StronglySorted key_le (insert_sorted x l).
Proof.
  induction 1 as [|y l Hl IH Hy]; cbn [insert_sorted].
  - constructor; constructor.
  - destruct (sort_key x <=? sort_key y) eqn:E.
    + apply Z.leb_le in E. constructor; [constructor; assumption|].
      constructor; [exact E|].
      eapply Forall_impl; [exact Hy|]. intros z Hz. unfold key_le in *. lia.
    + apply Z.leb_gt in E. constructor; [exact IH|].
      eapply Permutation_Forall; [symmetry; apply insert_sorted_perm|].
      constructor; [unfold key_le; lia|exact Hy].
Qed.

Lemma sort_by_date_ascending l : StronglySorted key_le (sort_by_date l).
Proof.
  induction l as [|x l IH]; cbn [sort_by_date]; [constructor|].
  apply insert_sorted_ascending, IH.
Qed.

Lemma firstn_elem {A} (x : A) n l : x ∈ firstn n l -> x ∈ l.
Proof. apply subseteq_take. Qed.

Lemma firstn_ascending {A} (R : A -> A -> Prop) n : forall l,
  StronglySorted R l -> StronglySorted R (firstn n l).
Proof.
  induction n as [|n IH]; intros l H; [constructor|].
  destruct H as [|x l Hl Hx]; cbn [firstn]; [constructor|].
  constructor; [apply IH, Hl|].
  apply Forall_forall. intros y Hy. rewrite Forall_forall in Hx.
  apply Hx. eapply firstn_elem; eauto.
Qed.

Lemma firstn_NoDup {A} n : forall l : list A, NoDup l -> NoDup (firstn n l).
Proof.
  induction n as [|n IH]; intros l H; [constructor|].
  destruct H as [|x l Hx Hl]; cbn [firstn]; [constructor|].
  constructor; [|apply IH, Hl].
  intros Hin. apply Hx. eapply firstn_elem; eauto.
Qed.

Lemma day_number_mono a b : a <= b -> day_number a <= day_number b.
Proof. intros H. unfold day_number. apply Z.div_le_mono; lia. Qed.

(** Ascending keys with pairwise distinct days are strictly ascending
    days. *)
Lemma ascending_distinct_days l :
  StronglySorted key_le l -> NoDup (map sort_day l) ->
  StronglySorted Z.lt (map sort_day l).
Proof.
  induction 1 as [|x l Hl IH Hx]; cbn [map]; intros Hnd; [constructor|].
  apply NoDup_cons in Hnd as [Hnot Hnd].
  constructor; [apply IH, Hnd|].
  apply Forall_forall. intros d Hd.
  apply list_elem_of_In, in_map_iff in Hd as (y & <- & Hy).
  rewrite Forall_forall in Hx.
  assert (Hle : sort_day x <= sort_day y).
  { apply day_number_mono. apply Hx. apply list_elem_of_In. exact Hy. }
  assert (Hne : sort_day x <> sort_day y).
  { intros Heq. apply Hnot. rewrite Heq. apply list_elem_of_In.
    apply in_map. exact Hy. }
  lia.
Qed.

End Sorting.

(** ** The forecast of a well-formed payload *)

Section Forecast.
Context `{RT : PyRuntime} (W : world).

Lemma normalise_key daily_data t r t' :
  daily_wf daily_data = true ->
  normalise daily_data t = (Ok r, t') ->
  sort_key r = payload_key daily_data.
Proof.
  intros Hwf H. destruct daily_data as [| | | | | |kv]; try discriminate.
  rewrite normalise_dict in H.
  destruct (normalise_fields _ _ _ _ _ _ _ _ H) as (_ & Hdate & _).
  unfold daily_wf in Hwf. apply andb_prop in Hwf as [_ Hepoch].
  rewrite (date_obj_wf _ Hepoch) in Hdate. inversion Hdate as [Hd].
  unfold sort_key, payload_key. rewrite <- Hd. reflexivity.
Qed.

Lemma mapM_normalise_wf payload : forall t,
  forallb daily_wf payload = true ->
  exists rs t',
    mapM normalise payload t = (Ok rs, t') /\
    map sort_key rs = map payload_key payload.
Proof.
  induction payload as [|d payload IH]; intros t Hwf; cbn [mapM forallb] in *.
  - exists [], t. split; reflexivity.
  - apply andb_prop in Hwf as [Hd Hrest].
    destruct (normalise_wf d t Hd) as (r & t1 & Hr).
    destruct (IH t1 Hrest) as (rs & t2 & Hrs & Hkeys).
    exists (r :: rs), t2. split.
    + rewrite (bind_ok _ _ _ _ _ Hr), (bind_ok _ _ _ _ _ Hrs). reflexivity.
    + cbn [map]. rewrite Hkeys, (normalise_key _ _ _ _ Hd Hr). reflexivity.
Qed.

Lemma parse_forecast_wf kv payload days t :
  assoc "DailyForecasts" kv = Some (PList payload) ->
  forallb daily_wf payload = true ->
  exists rs t',
    parse_forecast (PDict kv) days t
      = (Ok (Some (firstn (Z.to_nat days) (sort_by_date rs))), t') /\
    map sort_key rs = map payload_key payload.
Proof.
  intros Ha Hwf. unfold parse_forecast.
  destruct kv as [|p kv]; [discriminate|].
  cbn [truthy]. unfold has_daily_forecasts, daily_forecasts_of. rewrite Ha.
  unfold bind at 1. cbn [lift]. unfold bind at 1. cbn [lift].
  unfold bind at 1. cbn [lift py_iter].
  destruct (mapM_normalise_wf payload t Hwf) as (rs & t' & Hrs & Hkeys).
  exists rs, t'. rewrite (bind_ok _ _ _ _ _ Hrs). split; [reflexivity|exact Hkeys].
Qed.

End Forecast.

(** C1: for a payload whose records are well formed and fall on
    pairwise distinct days (an undated record counting as the minimal
    date), and a supported day count, the forecast is a list sorted
    strictly ascending by day, of length
    [min(days, number of records)]. *)
Theorem forecast_sorted_and_truncated `{RT : PyRuntime} (W : world)
    (location_key : pyval) (api_key : string) (days : Z) (t : list event)
    (resp : response) (kv : list (string * pyval)) (payload : list pyval) :
  supported_days days = true ->
  http W t (forecast_request location_key api_key days) = Response resp ->
  raise_for_status resp = Ok tt ->
  json_body resp = Some (PDict kv) ->
  assoc "DailyForecasts" kv = Some (PList payload) ->
  forallb daily_wf payload = true ->
  NoDup (map payload_day payload) ->
  exists l t',
    get_accuweather_forecast W location_key api_key days t = (Ok (Some l), t') /\
    StronglySorted Z.lt (map sort_day l) /\
    length l = Nat.min (Z.to_nat days) (length payload).
Proof.
  intros Hs Hhttp Hstatus Hjson Ha Hwf Hnd.
  destruct (parse_forecast_wf kv payload days
              (t ++ [EvGet (forecast_request location_key api_key days)])%list Ha Hwf)
    as (rs & t' & Hparse & Hkeys).
  exists (firstn (Z.to_nat days) (sort_by_date rs)), t'. split; [|split].
  - unfold get_accuweather_forecast. rewrite Hs. unfold bind at 1. cbn [ret].
    unfold try_except, bind, requests_get, response_json.
    rewrite Hhttp, Hstatus, Hjson. cbn [lift]. rewrite Hparse. reflexivity.
  - assert (Hdays : NoDup (map sort_day (sort_by_date rs))).
    { rewrite (Permutation_map sort_day (sort_by_date_perm rs)).
      unfold sort_day. rewrite <- (map_map sort_key day_number), Hkeys, map_map.
      exact Hnd. }
    apply ascending_distinct_days.
    + apply firstn_ascending, sort_by_date_ascending.
    + rewrite <- List.firstn_map. apply firstn_NoDup, Hdays.
  - rewrite List.length_firstn.
    rewrite (Permutation_length (sort_by_date_perm rs)).
    rewrite <- (length_map sort_key rs), Hkeys, length_map. reflexivity.
Qed.

Lemma forecast_sorted_and_truncated_witness :
  exists l t',
    @get_accuweather_forecast sample_runtime
      (constant_world 200 (PDict sample_forecast_body)) (PStr "328328") "secret" 5 []
      = (Ok (Some l), t') /\
    StronglySorted Z.lt (map sort_day l) /\
    length l = Nat.min (Z.to_nat 5) (length sample_payload).
Proof.
  apply (@forecast_sorted_and_truncated sample_runtime
           (constant_world 200 (PDict sample_forecast_body)) (PStr "328328") "secret" 5 []
           {| status_code := 200; content := []; json_body := Some (PDict sample_forecast_body) |}
           sample_forecast_body sample_payload);
    try reflexivity.
  apply (bool_decide_unpack _). vm_compute. exact I.
Defined.

(** ** Content identifiers and icon addresses *)

Lemma append_nil s : EmptyString +:+ s = s.
Proof. reflexivity. Qed.

Lemma append_cons c a s : String c a +:+ s = String c (a +:+ s).
Proof. reflexivity. Qed.

Lemma length_append a b :
  String.length (a +:+ b) = (String.length a + String.length b)%nat.
Proof.
  induction a as [|c a IH]; [reflexivity|].
  rewrite append_cons. cbn [String.length]. rewrite IH. reflexivity.
Qed.

Lemma append_inj_right s a : forall b, a +:+ s = b +:+ s -> a = b.
Proof.
  induction a as [|c a IH]; intros [|c' b] H;
    rewrite ?append_nil, ?append_cons in H.
  - reflexivity.
  - apply (f_equal String.length) in H. cbn [String.length] in H.
    rewrite length_append in H. lia.
  - apply (f_equal String.length) in H. cbn [String.length] in H.
    rewrite length_append in H. lia.
  - injection H as -> H. f_equal. apply IH, H.
Qed.

Lemma icon_url_inj a b : icon_url a = icon_url b -> a = b.
Proof.
  unfold icon_url. intros H. apply String.app_inj in H.
  apply append_inj_right in H. exact H.
Qed.

(** Two records with the same icon code get the same content
    identifier only if their date strings are the same. *)
Lemma image_cid_inj_date code d d' : image_cid d code = image_cid d' code -> d = d'.
Proof.
  unfold image_cid. intros H. apply String.app_inj in H.
  apply append_inj_right in H. exact H.
Qed.

(** ** The summary loop *)

Lemma fetches_app code a b :
  fetches code (a ++ b) = (fetches code a + fetches code b)%nat.
Proof. unfold fetches. rewrite List.filter_app, length_app. reflexivity. Qed.

Lemma fetches_logs code logs : Forall is_log logs -> fetches code logs = 0%nat.
Proof.
  induction 1 as [|ev logs Hev _ IH]; [reflexivity|].
  destruct ev; try contradiction. exact IH.
Qed.

Lemma fetches_icon_get code code' logs :
  Forall is_log logs ->
  fetches code (EvGet (icon_request code') :: logs)
  = if String.eqb code' code then 1%nat else 0%nat.
Proof.
  intros Hlogs. unfold fetches. cbn [List.filter is_icon_get_for icon_request url].
  fold (fetches code logs).
  destruct (String.eqb code' code) eqn:E.
  - apply String.eqb_eq in E. subst. rewrite String.eqb_refl. cbn.
    fold (fetches code logs). rewrite fetches_logs by exact Hlogs. reflexivity.
  - destruct (String.eqb (icon_url code') (icon_url code)) eqn:E'.
    + apply String.eqb_eq, icon_url_inj in E'. apply String.eqb_neq in E. contradiction.
    + fold (fetches code logs). apply fetches_logs, Hlogs.
Qed.

Section Summary.
Context `{RT : PyRuntime} (W : world).

(** The icon of a code not yet in the dictionary is requested, and
    the outcome is stored. *)
Lemma fetch_icon_fresh st code cid t :
  fetched_icons st !! code = None ->
  exists logs,
    fetch_icon W st code cid t =
      (Ok {| fetched_icons :=
               <[code := fetched_value (http W t (icon_request code))]> (fetched_icons st);
             email_images :=
               (email_images st ++
                match fetched_value (http W t (icon_request code)) with
                | Some icon_bytes => [(icon_bytes, cid)]
                | None => []
                end)%list;
             html_content := html_content st |},
       (t ++ EvGet (icon_request code) :: logs)%list) /\
    Forall is_log logs.
Proof.
  intros Hnone. unfold fetch_icon. rewrite Hnone.
  unfold try_except, bind, requests_get, raise_for_status, fetched_value.
  destruct (http W t (icon_request code)) as [|resp].
  - exists [EvLog WARNING (MsgIconFetch code (icon_url code))]. split.
    + cbn. rewrite app_nil_r, <- app_assoc. reflexivity.
    + repeat constructor.
  - destruct ((400 <=? status_code resp) && (status_code resp <? 600)).
    + exists [EvLog WARNING (MsgIconFetch code (icon_url code))]. split.
      * cbn. rewrite app_nil_r, <- app_assoc. reflexivity.
      * repeat constructor.
    + exists []. split; [reflexivity|constructor].
Qed.

(** For a code already in the dictionary nothing is requested; the
    cached bytes are attached under the content identifier of the
    record unless an attachment already carries it. *)
Lemma fetch_icon_cached st code cid t v :
  fetched_icons st !! code = Some v ->
  fetch_icon W st code cid t =
    (Ok {| fetched_icons := fetched_icons st;
           email_images := (email_images st ++ cached_attachment st cid v)%list;
           html_content := html_content st |}, t).
Proof.
  intros Hsome. unfold fetch_icon, cached_attachment. rewrite Hsome.
  destruct st as [icons images html]. cbn [fetched_icons email_images html_content].
  destruct v as [[|b bs]|].
  - rewrite app_nil_r. reflexivity.
  - destruct (has_cid cid images).
    + rewrite app_nil_r. reflexivity.
    + reflexivity.
  - rewrite app_nil_r. reflexivity.
Qed.

End Summary.

Section SummaryLoop.
Context `{RT : PyRuntime} (W : world).

(** One turn: the entry appended is the one the final dictionary
    determines; the dictionary is unchanged, or gains the code of the
    record after exactly one request. *)
Lemma summary_step_spec st r t :
  exists st' added,
    summary_step W st r t = (Ok st', (t ++ added)%list) /\
    html_content st' = (html_content st ++ [summary_entry (fetched_icons st') r])%list /\
    (truthy (icon r) = true -> is_Some (fetched_icons st' !! record_code r)) /\
    ((fetched_icons st' = fetched_icons st /\ added = [])
     \/ (fetched_icons st !! record_code r = None /\
         fetched_icons st' =
           <[record_code r := fetched_value (http W t (icon_request (record_code r)))]>
             (fetched_icons st) /\
         exists logs, added = EvGet (icon_request (record_code r)) :: logs /\
                      Forall is_log logs)).
Proof.
  unfold summary_step, summary_entry. fold (record_code r). fold (record_cid r).
  destruct (truthy (icon r)) eqn:Hicon.
  - destruct (fetched_icons st !! record_code r) as [v|] eqn:Hlook.
    + pose proof (fetch_icon_cached W st (record_code r) (record_cid r) t v Hlook)
        as Hfetch.
      rewrite (bind_ok _ _ _ _ _ Hfetch). cbn [fetched_icons].
      destruct (icon_usable (fetched_icons st !! record_code r)) eqn:Hu;
        (eexists _, []; rewrite app_nil_r; split; [reflexivity|];
         cbn [add_html fetched_icons html_content]; rewrite Hu;
         split; [reflexivity|]; split; [intros _; rewrite Hlook; eauto|];
         left; split; reflexivity).
    + destruct (fetch_icon_fresh W st (record_code r) (record_cid r) t Hlook)
        as (logs & Hfetch & Hlogs).
      rewrite (bind_ok _ _ _ _ _ Hfetch). cbn [fetched_icons].
      destruct (icon_usable (<[record_code r:=_]> (fetched_icons st) !! record_code r))
        eqn:Hu;
        (eexists _, _; split; [reflexivity|];
         cbn [add_html fetched_icons html_content]; rewrite Hu;
         split; [reflexivity|];
         split; [intros _; rewrite lookup_insert_eq; eauto|];
         right; split; [reflexivity|]; split; [reflexivity|]; eauto).
  - eexists _, []. rewrite app_nil_r. split; [reflexivity|].
    split; [reflexivity|]. split; [discriminate|]. left. split; reflexivity.
Qed.

(** The loop over the records: the summary line it leaves behind, and
    the requests it has made. *)
Lemma summary_loop_spec forecast_data : forall st t,
  exists st' added,
    foldM (summary_step W) st forecast_data t = (Ok st', (t ++ added)%list) /\
    html_content st' =
      (html_content st ++ map (summary_entry (fetched_icons st')) forecast_data)%list /\
    (forall c v, fetched_icons st !! c = Some v -> fetched_icons st' !! c = Some v) /\
    (forall r, In r forecast_data -> truthy (icon r) = true ->
               is_Some (fetched_icons st' !! record_code r)) /\
    (forall c, (fetches c added <= 1)%nat /\
               (is_Some (fetched_icons st !! c) -> fetches c added = 0%nat)) /\
    (forall c v, fetched_icons st' !! c = Some v ->
                 fetched_icons st !! c = Some v \/
                 exists t0, v = fetched_value (http W t0 (icon_request c))).
Proof.
  induction forecast_data as [|r rest IH]; intros st t; cbn [foldM].
  - exists st, []. rewrite !app_nil_r. repeat split; auto; try contradiction.
  - destruct (summary_step_spec st r t) as (st1 & added1 & Hstep & Hhtml1 & Hkey1 & Hcase).
    destruct (IH st1 (t ++ added1)%list)
      as (st' & added2 & Hloop & Hhtml & Hgrow & Hkeys & Hgets & Horigin).
    exists st', (added1 ++ added2)%list.
    rewrite (bind_ok _ _ _ _ _ Hstep), Hloop, app_assoc.
    assert (Hgrow1 : forall c v, fetched_icons st !! c = Some v ->
                                 fetched_icons st1 !! c = Some v).
    { intros c v Hc. destruct Hcase as [[-> _]|(Hnone & -> & _)]; [exact Hc|].
      rewrite lookup_insert_ne; [exact Hc|]. intros Heq. subst c. congruence. }
    split; [reflexivity|]. split; [|split; [|split; [|split]]].
    + rewrite Hhtml, Hhtml1, <- app_assoc. cbn [map app]. do 2 f_equal.
      unfold summary_entry. destruct (truthy (icon r)) eqn:Hicon; [|reflexivity].
      destruct (Hkey1 eq_refl) as (v & Hv). rewrite Hv, (Hgrow _ _ Hv). reflexivity.
    + intros c v Hc. apply Hgrow, Hgrow1, Hc.
    + intros r' [<-|Hin] Hicon.
      * destruct (Hkey1 Hicon) as (v & Hv). rewrite (Hgrow _ _ Hv). eauto.
      * apply Hkeys; assumption.
    + intros c. rewrite fetches_app. destruct (Hgets c) as (Hle & Hzero).
      destruct Hcase as [[Heq ->]|(Hnone & Hins & logs & -> & Hlogs)].
      * cbn. split; [exact Hle|]. intros Hc. apply Hzero. rewrite Heq. exact Hc.
      * rewrite fetches_icon_get by exact Hlogs.
        destruct (String.eqb (record_code r) c) eqn:E.
        -- apply String.eqb_eq in E. subst c.
           rewrite Hzero by (rewrite Hins, lookup_insert_eq; eauto).
           split; [lia|]. intros [v Hv]. congruence.
        -- cbn. split; [exact Hle|]. intros [v Hv]. apply Hzero.
           exists v. apply Hgrow1, Hv.
    + intros c v Hc. destruct (Horigin c v Hc) as [Hc1|Hnew]; [|right; exact Hnew].
      destruct Hcase as [[Heq _]|(Hnone & Hins & _)].
      * left. rewrite <- Heq. exact Hc1.
      * rewrite Hins in Hc1. destruct (decide (record_code r = c)) as [<-|Hne].
        -- rewrite lookup_insert_eq in Hc1. right. exists t. congruence.
        -- rewrite lookup_insert_ne in Hc1 by exact Hne. left. exact Hc1.
Qed.

End SummaryLoop.

(** ** The rendered report *)

Lemma fetch_fails_value r : fetch_fails r = true -> fetched_value r = None.
Proof. destruct r as [|resp]; cbn; [reflexivity|]. intros ->. reflexivity. Qed.

Lemma append_assoc a b c : (a +:+ b) +:+ c = a +:+ (b +:+ c).
Proof.
  induction a as [|x a IH]; [reflexivity|].
  rewrite !append_cons, IH. reflexivity.
Qed.

(** The textual fallback of the summary line is the description in
    parentheses. *)
Lemma summary_text_parenthesised day_name desc :
  exists before after,
    fragment_text (SummaryText day_name desc)
    = before +:+ "(" +:+ desc +:+ ")" +:+ after.
Proof.
  exists (nl +:+ "                    <div class=" +:+ dq +:+ "summary-item" +:+ dq
          +:+ ">" +:+ nl +:+ "                      <div class=" +:+ dq +:+ "summary-day"
          +:+ dq +:+ ">" +:+ day_name +:+ "</div>" +:+ nl +:+ "                      "),
         (nl +:+ "                    </div>" +:+ nl +:+ "                    ").
  unfold fragment_text. rewrite !append_assoc. reflexivity.
Qed.

Section Report.
Context `{RT : PyRuntime} (W : world).

(** The report as a whole: rendering never raises; the document is
    the head, one summary entry per record, one detail section per
    record in the same order, and the foot; no icon is requested
    twice; every stored value is the outcome of a request. *)
Lemma render_spec forecast_data city t :
  exists st added,
    render W forecast_data city t = (Ok st, (t ++ added)%list) /\
    html_content st =
      (HtmlHead (length forecast_data) city
       :: map (summary_entry (fetched_icons st)) forecast_data
       ++ SummaryEnd
       :: map (detail_step (fetched_icons st)) forecast_data
       ++ [HtmlFoot])%list /\
    (forall c, (fetches c added <= 1)%nat) /\
    (forall r, In r forecast_data -> truthy (icon r) = true ->
               is_Some (fetched_icons st !! record_code r)) /\
    (forall c v, fetched_icons st !! c = Some v ->
                 exists t0, v = fetched_value (http W t0 (icon_request c))).
Proof.
  unfold render.
  destruct (summary_loop_spec W forecast_data
              {| fetched_icons := ∅; email_images := [];
                 html_content := [HtmlHead (length forecast_data) city] |} t)
    as (st & added & Hloop & Hhtml & _ & Hkeys & Hgets & Horigin).
  rewrite (bind_ok _ _ _ _ _ Hloop). unfold ret.
  eexists _, added. split; [reflexivity|].
  cbn [add_html fetched_icons html_content] in *.
  split; [|split; [|split]].
  - rewrite Hhtml. cbn [app]. rewrite <- !app_assoc. reflexivity.
  - intros c. apply Hgets.
  - exact Hkeys.
  - intros c v Hc. destruct (Horigin c v Hc) as [Hempty|Hnew]; [|exact Hnew].
    rewrite lookup_empty in Hempty. discriminate.
Qed.

End Report.

(** C4: when every request for the icon of a code fails, the run asks
    for it at most once and keeps [None] for it; every record with
    that code has a summary entry and a detail section without image
    or content identifier, showing the weather description in
    parentheses instead. *)
Theorem failed_icon_falls_back `{RT : PyRuntime} (W : world)
    (forecast_data : list forecast) (city : string) (t : list event)
    (code : string) :
  (forall t0, fetch_fails (http W t0 (icon_request code)) = true) ->
  exists st added,
    render W forecast_data city t = (Ok st, (t ++ added)%list) /\
    (fetches code added <= 1)%nat /\
    html_content st =
      (HtmlHead (length forecast_data) city
       :: map (summary_entry (fetched_icons st)) forecast_data
       ++ SummaryEnd
       :: map (detail_step (fetched_icons st)) forecast_data
       ++ [HtmlFoot])%list /\
    forall r, In r forecast_data -> truthy (icon r) = true -> record_code r = code ->
      fetched_icons st !! code = Some None /\
      summary_entry (fetched_icons st) r = SummaryText (day_name r) (weather_desc r) /\
      detail_step (fetched_icons st) r
        = Detail (TagFallback (weather_desc r)) (detail_of r) /\
      fragment_cids (summary_entry (fetched_icons st) r) = [] /\
      fragment_cids (detail_step (fetched_icons st) r) = [] /\
      (exists before after,
          fragment_text (summary_entry (fetched_icons st) r)
          = before +:+ "(" +:+ weather_desc r +:+ ")" +:+ after) /\
      img_tag_text (detail_tag (fetched_icons st) r)
        = "(" +:+ weather_desc r +:+ " - icon unavailable)".
Proof.
  intros Hfail.
  destruct (render_spec W forecast_data city t)
    as (st & added & Hrender & Hhtml & Hgets & Hkeys & Horigin).
  exists st, added. split; [exact Hrender|]. split; [apply Hgets|].
  split; [exact Hhtml|].
  intros r Hin Hicon Hcode.
  assert (Hnone : fetched_icons st !! code = Some None).
  { destruct (Hkeys r Hin Hicon) as (v & Hv). rewrite Hcode in Hv.
    destruct (Horigin code v Hv) as (t0 & ->).
    rewrite (fetch_fails_value _ (Hfail t0)) in Hv. exact Hv. }
  assert (Hsum : summary_entry (fetched_icons st) r
                 = SummaryText (day_name r) (weather_desc r)).
  { unfold summary_entry. rewrite Hicon, Hcode, Hnone. reflexivity. }
  assert (Htag : detail_tag (fetched_icons st) r = TagFallback (weather_desc r)).
  { unfold detail_tag. fold (record_code r). rewrite Hicon, Hcode, Hnone. reflexivity. }
  split; [exact Hnone|]. split; [exact Hsum|].
  unfold detail_step. rewrite Htag, Hsum.
  split; [reflexivity|]. split; [reflexivity|]. split; [reflexivity|].
  split; [apply summary_text_parenthesised|reflexivity].
Qed.

Lemma failed_icon_falls_back_witness :
  exists st added,
    @render sample_runtime offline_world sample_records "Springfield" []
      = (Ok st, ([] ++ added)%list) /\
    (fetches "03" added <= 1)%nat /\
    html_content st =
      (HtmlHead (length sample_records) "Springfield"
       :: map (@summary_entry sample_runtime (fetched_icons st)) sample_records
       ++ SummaryEnd
       :: map (@detail_step sample_runtime (fetched_icons st)) sample_records
       ++ [HtmlFoot])%list /\
    forall r, In r sample_records -> truthy (icon r) = true ->
              @record_code sample_runtime r = "03" ->
      fetched_icons st !! "03" = Some None /\
      @summary_entry sample_runtime (fetched_icons st) r
        = SummaryText (day_name r) (weather_desc r) /\
      @detail_step sample_runtime (fetched_icons st) r
        = Detail (TagFallback (weather_desc r)) (@detail_of sample_runtime r) /\
      fragment_cids (@summary_entry sample_runtime (fetched_icons st) r) = [] /\
      fragment_cids (@detail_step sample_runtime (fetched_icons st) r) = [] /\
      (exists before after,
          fragment_text (@summary_entry sample_runtime (fetched_icons st) r)
          = before +:+ "(" +:+ weather_desc r +:+ ")" +:+ after) /\
      img_tag_text (@detail_tag sample_runtime (fetched_icons st) r)
        = "(" +:+ weather_desc r +:+ " - icon unavailable)".
Proof.
  apply (@failed_icon_falls_back sample_runtime offline_world sample_records
           "Springfield" [] "03").
  intros t0. reflexivity.
Defined.

(** Whatever the network answers, no icon is requested twice while the
    report is rendered. *)
Lemma icon_requested_at_most_once `{RT : PyRuntime} (W : world)
    (forecast_data : list forecast) (city : string) (t : list event) (code : string) :
  exists st added,
    render W forecast_data city t = (Ok st, (t ++ added)%list) /\
    (fetches code added <= 1)%nat.
Proof.
  destruct (render_spec W forecast_data city t) as (st & added & H & _ & Hgets & _).
  exists st, added. split; [exact H|apply Hgets].
Qed.

(** ** An icon with an empty body *)

(** C2 at the failing input: the fetch succeeds with no bytes; the
    attachment list handed to the mail transport names a content
    identifier that the HTML body does not refer to. *)
Theorem empty_icon_body_breaks_cid_agreement :
  exists m,
    mails (snd (@WeatherAlert sample_runtime empty_icon_world [])) = [m] /\
    map snd (mail_images m) = ["summary_icon_2024-02-29_03"] /\
    html_cids (mail_html m) = [].
Proof. eexists. vm_compute. repeat split. Qed.


(** ** Attachments *)

Lemma has_cid_In cid images :
  has_cid cid images = true -> In cid (map snd images).
Proof.
  unfold has_cid. intros H. apply existsb_exists in H as (p & Hp & Heq).
  apply String.eqb_eq in Heq. subst cid. apply in_map, Hp.
Qed.

Section Attachments.
Context `{RT : PyRuntime} (W : world).

(** One turn of the summary loop and the attachment list: nothing is
    dropped; what is added carries the content identifier of the record
    and the bytes stored for its code; a record whose icon is usable
    has its content identifier among the attachments. *)
Lemma summary_step_images st r t st' t' :
  summary_step W st r t = (Ok st', t') ->
  (forall p, In p (email_images st) -> In p (email_images st')) /\
  (forall b cid, In (b, cid) (email_images st') ->
     In (b, cid) (email_images st) \/
     (truthy (icon r) = true /\ cid = record_cid r /\
      fetched_icons st' !! record_code r = Some (Some b))) /\
  (truthy (icon r) = true ->
   icon_usable (fetched_icons st' !! record_code r) = true ->
   In (record_cid r) (map snd (email_images st'))).
Proof.
  unfold summary_step. fold (record_code r). fold (record_cid r).
  destruct (truthy (icon r)) eqn:Hicon.
  - destruct (fetched_icons st !! record_code r) as [v|] eqn:Hlook.
    + rewrite (bind_ok _ _ _ _ _
                 (fetch_icon_cached W st (record_code r) (record_cid r) t v Hlook)).
      cbn [fetched_icons]. intros H.
      assert (Hst : fetched_icons st' = fetched_icons st /\
                    email_images st' =
                      (email_images st ++ cached_attachment st (record_cid r) v)%list).
      { destruct (icon_usable (fetched_icons st !! record_code r));
          inversion H; subst; split; reflexivity. }
      destruct Hst as [Hicons Himages]. rewrite Hicons, Himages, Hlook. clear H.
      split; [|split].
      * intros p Hp. apply in_or_app. left. exact Hp.
      * intros b cid Hin. apply in_app_or in Hin as [Hin|Hin]; [left; exact Hin|].
        right. unfold cached_attachment in Hin.
        destruct v as [[|b0 bs]|]; try contradiction.
        destruct (has_cid (record_cid r) (email_images st)); [contradiction|].
        destruct Hin as [Heq|[]]. inversion Heq; subst. auto.
      * intros _ Hu. rewrite map_app. apply in_or_app.
        unfold cached_attachment.
        destruct v as [[|b0 bs]|]; try discriminate.
        destruct (has_cid (record_cid r) (email_images st)) eqn:Hc.
        -- left. apply has_cid_In, Hc.
        -- right. left. reflexivity.
    + destruct (fetch_icon_fresh W st (record_code r) (record_cid r) t Hlook)
        as (logs & Hfetch & _).
      rewrite (bind_ok _ _ _ _ _ Hfetch). cbn [fetched_icons]. intros H.
      set (v := fetched_value (http W t (icon_request (record_code r)))) in *.
      assert (Hst : fetched_icons st' = <[record_code r := v]> (fetched_icons st) /\
                    email_images st' =
                      (email_images st ++
                       match v with Some b => [(b, record_cid r)] | None => [] end)%list).
      { destruct (icon_usable (<[record_code r:=v]> (fetched_icons st) !! record_code r));
          inversion H; subst; split; reflexivity. }
      destruct Hst as [Hicons Himages]. rewrite Hicons, Himages, lookup_insert_eq.
      clear H. split; [|split].
      * intros p Hp. apply in_or_app. left. exact Hp.
      * intros b cid Hin. apply in_app_or in Hin as [Hin|Hin]; [left; exact Hin|].
        right. destruct v as [b0|]; [|contradiction].
        destruct Hin as [Heq|[]]. inversion Heq; subst. auto.
      * intros _ Hu. rewrite map_app. apply in_or_app. right.
        destruct v as [b0|]; [left; reflexivity|discriminate].
  - intros H. inversion H; subst. cbn [add_html email_images fetched_icons].
    split; [auto|]. split; [auto|discriminate].
Qed.

(** The same for the whole loop. *)
Lemma summary_loop_images forecast_data : forall st t st' t',
  foldM (summary_step W) st forecast_data t = (Ok st', t') ->
  (forall p, In p (email_images st) -> In p (email_images st')) /\
  (forall b cid, In (b, cid) (email_images st') ->
     In (b, cid) (email_images st) \/
     exists r, In r forecast_data /\ truthy (icon r) = true /\ cid = record_cid r /\
               fetched_icons st' !! record_code r = Some (Some b)) /\
  (forall r, In r forecast_data -> truthy (icon r) = true ->
     icon_usable (fetched_icons st' !! record_code r) = true ->
     In (record_cid r) (map snd (email_images st'))).
Proof.
  induction forecast_data as [|r rest IH]; intros st t st' t' H; cbn [foldM] in H.
  - inversion H; subst. split; [auto|]. split; [auto|]. intros r [].
  - unfold bind in H.
    destruct (summary_step W st r t) as [[st1|e] t1] eqn:Hstep; [|discriminate].
    destruct (summary_step_images _ _ _ _ _ Hstep) as (Hmono1 & Hsound1 & Hcomplete1).
    destruct (IH _ _ _ _ H) as (Hmono & Hsound & Hcomplete).
    destruct (summary_loop_spec W rest st1 t1)
      as (st2 & added & Hloop & _ & Hgrow & _).
    rewrite H in Hloop. inversion Hloop; subst st2. clear Hloop.
    destruct (summary_step_spec W st r t) as (st1' & added1 & Hstep' & _ & Hkey & _).
    rewrite Hstep in Hstep'. inversion Hstep'; subst st1'. clear Hstep'.
    split; [|split].
    + intros p Hp. apply Hmono, Hmono1, Hp.
    + intros b cid Hin. destruct (Hsound b cid Hin) as [Hin1|(r' & Hr' & Hrest)].
      * destruct (Hsound1 b cid Hin1) as [Hin0|(Hicon & Hcid & Hlook)];
          [left; exact Hin0|].
        right. exists r. split; [left; reflexivity|]. repeat split; auto.
      * right. exists r'. split; [right; exact Hr'|exact Hrest].
    + intros r' [<-|Hin] Hicon Hu.
      * apply in_map_iff.
        destruct (Hkey Hicon) as (v & Hv).
        rewrite (Hgrow _ _ Hv) in Hu. rewrite <- Hv in Hu.
        specialize (Hcomplete1 Hicon Hu).
        apply in_map_iff in Hcomplete1 as (p & Hp1 & Hp2).
        exists p. split; [exact Hp1|apply Hmono, Hp2].
      * apply Hcomplete; assumption.
Qed.

End Attachments.

Section Agreement.
Context `{RT : PyRuntime} (W : world).

Lemma summary_entry_cids icons r cid :
  In cid (fragment_cids (summary_entry icons r)) <->
  truthy (icon r) = true /\ icon_usable (icons !! record_code r) = true /\
  cid = record_cid r.
Proof.
  unfold summary_entry.
  destruct (truthy (icon r)), (icon_usable (icons !! record_code r)); cbn;
    intuition congruence.
Qed.

Lemma detail_step_cids icons r cid :
  In cid (fragment_cids (detail_step icons r)) <->
  truthy (icon r) = true /\ icon_usable (icons !! record_code r) = true /\
  cid = record_cid r.
Proof.
  unfold detail_step, detail_tag. fold (record_code r). fold (record_cid r).
  destruct (truthy (icon r)), (icon_usable (icons !! record_code r)); cbn;
    intuition congruence.
Qed.

(** The content identifiers the report refers to are those of the
    records whose icon is usable. *)
Lemma report_cids icons forecast_data n city cid :
  In cid (html_cids (HtmlHead n city
                     :: map (summary_entry icons) forecast_data
                     ++ SummaryEnd
                     :: map (detail_step icons) forecast_data
                     ++ [HtmlFoot])%list) <->
  exists r, In r forecast_data /\ truthy (icon r) = true /\
            icon_usable (icons !! record_code r) = true /\ cid = record_cid r.
Proof.
  unfold html_cids. rewrite in_concat. split.
  - intros (ids & Hids & Hcid). apply in_map_iff in Hids as (fr & <- & Hfr).
    destruct Hfr as [<-|Hfr]; [contradiction|].
    apply in_app_or in Hfr as [Hfr|[<-|Hfr]]; [| contradiction |].
    + apply in_map_iff in Hfr as (r & <- & Hr).
      apply summary_entry_cids in Hcid. exists r. tauto.
    + apply in_app_or in Hfr as [Hfr|[<-|[]]]; [|contradiction].
      apply in_map_iff in Hfr as (r & <- & Hr).
      apply detail_step_cids in Hcid. exists r. tauto.
  - intros (r & Hr & Hicon & Hu & ->).
    exists (fragment_cids (summary_entry icons r)). split.
    + apply in_map. right. apply in_or_app. left. apply in_map, Hr.
    + apply summary_entry_cids. auto.
Qed.

(** The attachments of a rendered report. *)
Lemma render_images forecast_data city t st t' :
  render W forecast_data city t = (Ok st, t') ->
  (forall b cid, In (b, cid) (email_images st) ->
     exists r, In r forecast_data /\ truthy (icon r) = true /\ cid = record_cid r /\
               fetched_icons st !! record_code r = Some (Some b)) /\
  (forall r, In r forecast_data -> truthy (icon r) = true ->
     icon_usable (fetched_icons st !! record_code r) = true ->
     In (record_cid r) (map snd (email_images st))).
Proof.
  unfold render, bind.
  destruct (foldM (summary_step W) _ forecast_data t) as [[st1|e] t1] eqn:Hloop;
    [|discriminate].
  intros H. inversion H; subst. cbn [add_html fetched_icons email_images].
  destruct (summary_loop_images W _ _ _ _ _ Hloop) as (_ & Hsound & Hcomplete).
  split; [|exact Hcomplete].
  intros b cid Hin. destruct (Hsound b cid Hin) as [[]|Hr]. exact Hr.
Qed.

(** When no icon comes back with an empty body, the report and its
    attachments name the same content identifiers. *)
Lemma cids_agree_when_bodies_nonempty forecast_data city t :
  (forall t0 code, fetched_value (http W t0 (icon_request code)) <> Some []) ->
  exists st added,
    render W forecast_data city t = (Ok st, (t ++ added)%list) /\
    forall cid, In cid (html_cids (html_content st)) <->
                In cid (map snd (email_images st)).
Proof.
  intros Hbody.
  destruct (render_spec W forecast_data city t)
    as (st & added & Hrender & Hhtml & _ & _ & Horigin).
  destruct (render_images _ _ _ _ _ Hrender) as (Hsound & Hcomplete).
  exists st, added. split; [exact Hrender|]. intros cid.
  rewrite Hhtml, report_cids. split.
  - intros (r & Hr & Hicon & Hu & ->). apply Hcomplete; assumption.
  - intros Hin. apply in_map_iff in Hin as ([b cid'] & Heq & Hin). cbn in Heq. subst cid'.
    destruct (Hsound b cid Hin) as (r & Hr & Hicon & -> & Hlook).
    exists r. repeat split; try assumption. rewrite Hlook.
    destruct (Horigin _ _ Hlook) as (t0 & Hv).
    destruct b as [|b0 bs]; [|reflexivity].
    exfalso. apply (Hbody t0 (record_code r)). symmetry. exact Hv.
Qed.

(** X23: two records of a rendered forecast that share an icon code
    and differ in their date string, the icon having been fetched with a
    body that is not empty, get two different content identifiers, and
    both are among the attachments. *)
Lemma shared_icon_two_cids forecast_data city t st t' r1 r2 :
  render W forecast_data city t = (Ok st, t') ->
  In r1 forecast_data -> In r2 forecast_data ->
  truthy (icon r1) = true -> truthy (icon r2) = true ->
  record_code r1 = record_code r2 ->
  date_str r1 <> date_str r2 ->
  icon_usable (fetched_icons st !! record_code r1) = true ->
  record_cid r1 <> record_cid r2 /\
  In (record_cid r1) (map snd (email_images st)) /\
  In (record_cid r2) (map snd (email_images st)).
Proof.
  intros Hrender H1 H2 Hi1 Hi2 Hcode Hdate Hu.
  destruct (render_images _ _ _ _ _ Hrender) as (_ & Hcomplete).
  split; [|split].
  - unfold record_cid. rewrite Hcode. intros Heq.
    apply image_cid_inj_date in Heq. contradiction.
  - apply Hcomplete; assumption.
  - apply Hcomplete; try assumption. rewrite <- Hcode. exact Hu.
Qed.

End Agreement.

(** * Further properties of the code *)

(** ** [get_wind_direction]: the sector of a bearing *)

Lemma sectors_checked :
  range_all (Z.to_nat 36012) (-11) in_sector = true.
Proof. vm_compute. reflexivity. Qed.

Lemma wind_lookup_sector d :
  -11 <= d <= 36000 -> wind_lookup (PInt d) = Ok (sector_label d).
Proof.
  intros Hr.
  pose proof (range_all_spec _ _ _ sectors_checked d ltac:(lia)) as H.
  unfold in_sector in H.
  destruct (wind_lookup (PInt d)) as [s|]; [|discriminate].
  apply String.eqb_eq in H. congruence.
Qed.

(** Only the integer [int(degrees)] matters to the lookup. *)
Lemma wind_lookup_int v d : py_int v = Ok d -> wind_lookup v = wind_lookup (PInt d).
Proof. intros H. unfold wind_lookup. rewrite H. reflexivity. Qed.

(** X1: for a value that [int()] turns into an integer [d] between -11
    and 36000 (an integer, a boolean, a float, a decimal string),
    [get_wind_direction] returns, without logging, the label of the
    16-point sector whose centre is nearest to [d]: the entry of
    [directions] at index [floor((d + 11.25) / 22.5) mod 16]. *)
Theorem wind_direction_nearest_sector (v : pyval) (d : Z) (t : list event) :
  v <> PNone ->
  py_int v = Ok d ->
  -11 <= d <= 36000 ->
  get_wind_direction v t = (Ok (sector_label d), t).
Proof.
  intros Hv Hd Hr.
  pose proof (wind_lookup_sector d Hr) as H.
  rewrite <- (wind_lookup_int v d Hd) in H.
  destruct v; try congruence;
    unfold get_wind_direction, try_except, lift; rewrite H; reflexivity.
Qed.

Lemma wind_direction_nearest_sector_witness :
  get_wind_direction (PStr " 100 ") [] = (Ok "E", []).
Proof.
  apply (wind_direction_nearest_sector (PStr " 100 ") 100 []);
    [discriminate|reflexivity|lia].
Defined.

(** ** [get_accuweather_location_key] *)

(** X2: when the geoposition endpoint answers with a status that is
    not 4xx or 5xx and a JSON object holding a ["Key"], the resolver
    returns the value of that key after exactly one request, whose query
    is ["lat,lon"], and one INFO record. *)
Theorem location_key_found (W : world) (lat lon api_key : string) (t : list event)
    (resp : response) (kv : list (string * pyval)) (key : pyval) :
  http W t (location_request lat lon api_key) = Response resp ->
  raise_for_status resp = Ok tt ->
  json_body resp = Some (PDict kv) ->
  assoc "Key" kv = Some key ->
  get_accuweather_location_key W lat lon api_key t =
    (Ok key, (t ++ [EvGet (location_request lat lon api_key);
                    EvLog INFO (MsgFoundKey key lat lon)])%list) /\
  params (location_request lat lon api_key) =
    [ ("apikey", api_key); ("q", lat +:+ "," +:+ lon);
      ("language", "en-us"); ("toplevel", "false") ].
Proof.
  intros Hhttp Hstatus Hjson Hkey. split; [|reflexivity].
  unfold get_accuweather_location_key, try_except, bind, requests_get, response_json.
  rewrite Hhttp, Hstatus, Hjson. cbn [lift]. unfold location_key_of.
  destruct kv as [|p kv]; [discriminate|]. cbn [truthy]. rewrite Hkey.
  unfold log, emit, ret. rewrite <- app_assoc. reflexivity.
Qed.

Lemma location_key_found_witness :
  get_accuweather_location_key (constant_world 200 (PDict [("Key", PStr "328328")]))
    "39" "-89" "secret" [] =
    (Ok (PStr "328328"),
     ([] ++ [EvGet (location_request "39" "-89" "secret");
             EvLog INFO (MsgFoundKey (PStr "328328") "39" "-89")])%list) /\
  params (location_request "39" "-89" "secret") =
    [ ("apikey", "secret"); ("q", "39" +:+ "," +:+ "-89");
      ("language", "en-us"); ("toplevel", "false") ].
Proof.
  apply (location_key_found (constant_world 200 (PDict [("Key", PStr "328328")]))
           "39" "-89" "secret" []
           {| status_code := 200; content := [];
              json_body := Some (PDict [("Key", PStr "328328")]) |}
           [("Key", PStr "328328")] (PStr "328328")); reflexivity.
Defined.

(** X3: whatever the network does, the resolver never raises: it
    issues exactly one request, writes log records only after it, and
    returns either [None] or the ["Key"] member of the object the
    endpoint answered with. *)
Theorem location_key_never_raises (W : world) (lat lon api_key : string)
    (t : list event) :
  exists v logs,
    get_accuweather_location_key W lat lon api_key t =
      (Ok v, (t ++ EvGet (location_request lat lon api_key) :: logs)%list) /\
    Forall is_log logs /\
    (v = PNone \/
     exists resp kv,
       http W t (location_request lat lon api_key) = Response resp /\
       raise_for_status resp = Ok tt /\
       json_body resp = Some (PDict kv) /\
       assoc "Key" kv = Some v).
Proof.
  unfold get_accuweather_location_key, try_except, bind, requests_get,
    response_json.
  destruct (http W t (location_request lat lon api_key)) as [|resp] eqn:Ehttp.
  - cbn. eexists PNone, _. rewrite <- app_assoc. split; [reflexivity|].
    split; [repeat constructor|left; reflexivity].
  - destruct (raise_for_status resp) as [[]|e] eqn:Est.
    + cbn [lift]. destruct (json_body resp) as [data|] eqn:Ejson.
      * unfold location_key_of.
        destruct (truthy data) eqn:Etruthy.
        -- destruct data;
             try (cbn; eexists PNone, _; rewrite <- app_assoc; split; [reflexivity|];
                  split; [repeat constructor|left; reflexivity]).
           destruct (assoc "Key" kv) as [key|] eqn:Ekey.
           ++ cbn. eexists key, _. rewrite <- app_assoc. split; [reflexivity|].
              split; [repeat constructor|]. right. exists resp, kv. auto.
           ++ cbn. eexists PNone, _. rewrite <- app_assoc. split; [reflexivity|].
              split; [repeat constructor|left; reflexivity].
        -- cbn. eexists PNone, _. rewrite <- app_assoc. split; [reflexivity|].
           split; [repeat constructor|left; reflexivity].
      * cbn. eexists PNone, _. rewrite <- app_assoc. split; [reflexivity|].
        split; [repeat constructor|left; reflexivity].
    + unfold raise_for_status in Est.
      destruct ((400 <=? status_code resp) && (status_code resp <? 600)); [|discriminate].
      inversion Est; subst e. cbn. eexists PNone, _. rewrite <- !app_assoc.
      split; [reflexivity|]. split; [repeat constructor|left; reflexivity].
Qed.

(** ** [get_accuweather_forecast]: no forecast to report *)

Section Unavailable.
Context `{RT : PyRuntime} (W : world).

Lemma forecast_unavailable_supported location_key api_key days t :
  supported_days days = true ->
  forecast_unavailable (http W t (forecast_request location_key api_key days)) = true ->
  exists t', get_accuweather_forecast W location_key api_key days t = (Ok None, t').
Proof.
  intros Hs Hu. unfold get_accuweather_forecast. rewrite Hs.
  unfold bind at 1. cbn [ret].
  unfold try_except, bind, requests_get, raise_for_status, response_json.
  unfold forecast_unavailable in Hu.
  destruct (http W t (forecast_request location_key api_key days)) as [|resp];
    [cbn; eauto|].
  destruct ((400 <=? status_code resp) && (status_code resp <? 600)); [cbn; eauto|].
  cbn [orb] in Hu. cbn [lift].
  destruct (json_body resp) as [data|]; [|cbn; eauto].
  unfold parse_forecast.
  destruct data as [|[|]|z|f|s|l|kv]; cbn [truthy]; try (cbn; eauto; fail).
  - destruct (negb (z =? 0)); cbn; eauto.
  - destruct (negb (PrimFloat.eqb f 0)); cbn; eauto.
  - destruct (negb (s =? EmptyString)%string); [|cbn; eauto].
    unfold bind, lift, has_daily_forecasts.
    destruct (is_substring "DailyForecasts" s); cbn; eauto.
  - destruct l as [|x l]; [cbn; eauto|].
    unfold bind, lift, has_daily_forecasts.
    destruct (existsb _ (x :: l)); cbn; eauto.
  - destruct kv as [|p kv]; [cbn; eauto|].
    unfold bind, lift, has_daily_forecasts, daily_forecasts_of.
    destruct (assoc "DailyForecasts" (p :: kv)) as [[| | | | | |]|];
      try discriminate; cbn; eauto.
Qed.

Lemma forecast_unavailable_none location_key api_key days t :
  (forall t k a d, forecast_unavailable (http W t (forecast_request k a d)) = true) ->
  exists t', get_accuweather_forecast W location_key api_key days t = (Ok None, t').
Proof.
  intros Hu. destruct (supported_days days) eqn:Hs.
  - apply forecast_unavailable_supported; [exact Hs|apply Hu].
  - rewrite (forecast_unsupported W _ _ _ _ Hs).
    apply forecast_unavailable_supported; [reflexivity|apply Hu].
Qed.

End Unavailable.

(** X4: when the forecast endpoint gives nothing to iterate over (no
    response, a 4xx or 5xx status, a body that is not JSON, a document
    that is not an object or has no ["DailyForecasts"], or a
    ["DailyForecasts"] that is [null] or a number),
    [get_accuweather_forecast] returns [None] without raising, and the
    run logs that no mail is sent: it requests no icon and hands nothing
    to the mail transport. *)
Theorem forecast_failure_sends_nothing `{RT : PyRuntime} (W : world) :
  (forall t k a d, forecast_unavailable (http W t (forecast_request k a d)) = true) ->
  (forall location_key api_key days t, exists t',
      get_accuweather_forecast W location_key api_key days t = (Ok None, t')) /\
  (forall user password to city t,
      deliver W None user password to city t =
        (Ok tt, (t ++ [EvLog ERROR MsgMailNotSent])%list)) /\
  writes is_retrieval (WeatherAlert W).
Proof.
  intros Hu. split; [|split].
  - intros. apply forecast_unavailable_none. exact Hu.
  - intros. reflexivity.
  - assert (Hres : forall ev, is_resolution ev -> is_retrieval ev)
      by apply resolution_is_retrieval.
    apply writes_alert; [intros; repeat split|].
    intros api_key user password to lat lon city days. unfold notify.
    apply writes_bind; [apply writes_log; repeat split|]. intros _.
    apply writes_bind;
      [eapply writes_weaken; [exact Hres|apply writes_location_key]|].
    intros location_key. destruct (truthy location_key);
      [|apply writes_log; repeat split].
    apply writes_bind; [apply writes_log; repeat split|]. intros _.
    apply (writes_bind_post _ (fun fd => fd = None)).
    + apply writes_forecast.
    + intros t r t' E.
      destruct (forecast_unavailable_none W location_key api_key days t Hu) as (t1 & E1).
      rewrite E1 in E. inversion E; subst. reflexivity.
    + intros fd ->. apply writes_bind; [|intros _; apply writes_log; repeat split].
      apply writes_log. repeat split.
Qed.

Lemma forecast_failure_sends_nothing_witness :
  let W := constant_world 200 (PDict [("Key", PStr "328328")]) in
  (forall location_key api_key days t, exists t',
      @get_accuweather_forecast sample_runtime W location_key api_key days t = (Ok None, t')) /\
  (forall user password to city t,
      @deliver sample_runtime W None user password to city t =
        (Ok tt, (t ++ [EvLog ERROR MsgMailNotSent])%list)) /\
  writes is_retrieval (@WeatherAlert sample_runtime W).
Proof.
  intros W. apply (@forecast_failure_sends_nothing sample_runtime W).
  intros t k a d. reflexivity.
Defined.

(** ** [get_accuweather_forecast]: what every result satisfies *)

Section Results.
Context `{RT : PyRuntime} (W : world).

Lemma mapM_ok_all {A B} (f : A -> M B) (P : B -> Prop) :
  (forall a t b t', f a t = (Ok b, t') -> P b) ->
  forall l t bs t', mapM f l t = (Ok bs, t') -> Forall P bs.
Proof.
  intros Hf. induction l as [|a l IH]; intros t bs t' H; cbn [mapM] in H.
  - inversion H; subst. constructor.
  - unfold bind in H. destruct (f a t) as [[b|e] t1] eqn:Ea; [|discriminate].
    destruct (mapM f l t1) as [[bs'|e] t2] eqn:El; [|discriminate].
    inversion H; subst. constructor; [eapply Hf; eauto|eapply IH; eauto].
Qed.

(** The two fields the loop body fills with a constant. *)
Lemma normalise_constants daily_data t r t' :
  normalise daily_data t = (Ok r, t') ->
  humidity r = "N/A" /\ dew_point r = "N/A".
Proof.
  intros H. unfold normalise in H. repeat run_step H.
  unfold ret in H. inversion H; subst. split; reflexivity.
Qed.

Lemma parse_forecast_some data days t l t' :
  parse_forecast data days t = (Ok (Some l), t') ->
  exists items rs,
    mapM normalise items t = (Ok rs, t') /\
    l = firstn (Z.to_nat days) (sort_by_date rs).
Proof.
  unfold parse_forecast. intros H.
  unfold bind at 1 in H.
  destruct ((if truthy data then lift (has_daily_forecasts data) else ret false) t)
    as [[present|e] t1] eqn:E; [|discriminate].
  assert (t1 = t) as ->.
  { destruct (truthy data); [|inversion E; reflexivity].
    unfold lift in E. inversion E; reflexivity. }
  destruct present.
  - run_step H. run_step H. run_step H.
    unfold ret in H. inversion H; subst. eauto.
  - unfold bind, log, emit, ret in H. discriminate.
Qed.

(** A list comes out of the [try] block only: every handler returns
    [None]. *)
Lemma forecast_some location_key api_key days t l t' :
  get_accuweather_forecast W location_key api_key days t = (Ok (Some l), t') ->
  exists items rs t0,
    mapM normalise items t0 = (Ok rs, t') /\
    l = firstn (Z.to_nat (effective_days days)) (sort_by_date rs).
Proof.
  assert (Hsup : forall d t, supported_days d = true ->
             get_accuweather_forecast W location_key api_key d t = (Ok (Some l), t') ->
             exists items rs t0,
               mapM normalise items t0 = (Ok rs, t') /\
               l = firstn (Z.to_nat d) (sort_by_date rs)).
  { intros d t1 Hs H. unfold get_accuweather_forecast in H. rewrite Hs in H.
    unfold bind at 1 in H. cbn [ret] in H.
    unfold try_except, bind, requests_get in H.
    destruct (http W t1 (forecast_request location_key api_key d)) as [|resp];
      [cbn in H; discriminate|].
    unfold lift at 1 in H.
    destruct (raise_for_status resp) as [[]|e].
    - unfold lift at 1 in H. destruct (response_json resp) as [data|e].
      + destruct (parse_forecast data d _) as [[[l'|]|e] t2] eqn:Ep.
        * inversion H; subst. apply parse_forecast_some in Ep as (items & rs & Hm & Hl).
          eauto.
        * discriminate.
        * destruct e; cbn in H; try discriminate.
          destruct status; cbn in H; discriminate.
      + destruct e; cbn in H; try discriminate.
        destruct status; cbn in H; discriminate.
    - destruct e; cbn in H; try discriminate.
      destruct status; cbn in H; discriminate. }
  intros H. unfold effective_days. destruct (supported_days days) eqn:Hs.
  - eapply Hsup; eauto.
  - rewrite (forecast_unsupported W _ _ _ _ Hs) in H. eapply Hsup; eauto.
Qed.

Lemma effective_days_bound days : 1 <= effective_days days <= 15.
Proof.
  unfold effective_days. destruct (supported_days days) eqn:Hs; [|lia].
  unfold supported_days in Hs.
  repeat (apply orb_prop in Hs as [Hs|Hs]); apply Z.eqb_eq in Hs; lia.
Qed.

End Results.

(** X5: whatever the provider answers, a list returned by
    [get_accuweather_forecast] has at most as many records as the day
    count the request was made with (the requested one if it is 1, 5, 10
    or 15, else 5), hence at most 15; it is in ascending order of date,
    undated records counting as the minimal date; and every record has
    ["N/A"] for humidity and dew point. *)
Theorem forecast_result_invariants `{RT : PyRuntime} (W : world)
    (location_key : pyval) (api_key : string) (days : Z) (t t' : list event)
    (l : list forecast) :
  get_accuweather_forecast W location_key api_key days t = (Ok (Some l), t') ->
  (length l <= Z.to_nat (effective_days days))%nat /\
  (length l <= 15)%nat /\
  StronglySorted key_le l /\
  Forall (fun r => humidity r = "N/A" /\ dew_point r = "N/A") l.
Proof.
  intros H. apply forecast_some in H as (items & rs & t0 & Hm & ->).
  pose proof (effective_days_bound days) as Hb.
  assert (Hlen : (length (firstn (Z.to_nat (effective_days days)) (sort_by_date rs))
                  <= Z.to_nat (effective_days days))%nat).
  { rewrite List.length_firstn. lia. }
  split; [exact Hlen|]. split; [lia|]. split.
  - apply firstn_ascending, sort_by_date_ascending.
  - apply Forall_forall. intros r Hr. apply firstn_elem in Hr.
    apply list_elem_of_In in Hr.
    apply (Permutation_in _ (sort_by_date_perm rs)) in Hr.
    pose proof (mapM_ok_all normalise _ normalise_constants _ _ _ _ Hm) as Hall.
    rewrite Forall_forall in Hall. apply Hall. apply list_elem_of_In. exact Hr.
Qed.

Lemma forecast_result_invariants_witness :
  exists l t',
    @get_accuweather_forecast sample_runtime
      (constant_world 200 (PDict sample_forecast_body)) (PStr "328328") "secret" 1 []
      = (Ok (Some l), t') /\
    (length l <= Z.to_nat (effective_days 1))%nat /\
    (length l <= 15)%nat /\
    StronglySorted key_le l /\
    Forall (fun r => humidity r = "N/A" /\ dew_point r = "N/A") l.
Proof.
  eexists _, _. split; [vm_compute; reflexivity|].
  eapply (@forecast_result_invariants sample_runtime
            (constant_world 200 (PDict sample_forecast_body)) (PStr "328328") "secret" 1 []).
  vm_compute. reflexivity.
Defined.

(** ** [get_accuweather_forecast]: a record that raises *)

Section Raising.
Context `{RT : PyRuntime} (W : world).

Lemma mapM_raise {A B} (f : A -> M B) bad post e : forall pre t rs t1 t2,
  mapM f pre t = (Ok rs, t1) ->
  f bad t1 = (Raise e, t2) ->
  mapM f (pre ++ bad :: post) t = (Raise e, t2).
Proof.
  induction pre as [|a pre IH]; intros t rs t1 t2 Hpre Hbad; cbn [mapM app] in *.
  - inversion Hpre; subst. unfold bind. rewrite Hbad. reflexivity.
  - unfold bind in Hpre |- *.
    destruct (f a t) as [[b|e'] ta]; [|discriminate].
    destruct (mapM f pre ta) as [[bs|e'] tb] eqn:Em; [|discriminate].
    inversion Hpre; subst. rewrite (IH _ _ _ _ Em Hbad). reflexivity.
Qed.

(** [.get] on a value that is not a [dict]. *)
Lemma normalise_unreadable daily_data t :
  unreadable daily_data = true ->
  normalise daily_data t = (Raise AttributeError, t).
Proof.
  destruct daily_data as [| | | | | |kv]; try reflexivity.
  cbn [unreadable]. intros H. unfold normalise.
  rewrite !py_get_dict. unfold bind at 1. cbn [lift]. unfold bind at 1. cbn [lift].
  destruct (field kv "Day" (PDict [])); try discriminate; reflexivity.
Qed.

(** One statement of a run that is known to get past it. *)
Ltac pass_to_raise :=
  rewrite ?py_get_dict;
  lazymatch goal with
  | |- exists _, bind (lift (Ok _)) _ _ = _ =>
      unfold bind at 1; unfold lift at 1; cbv beta iota
  | H : ?r = Ok _ |- exists _, bind (lift ?r) _ _ = _ =>
      rewrite H; unfold bind at 1; unfold lift at 1; cbv beta iota
  end.

(** [round(v, 1)] on the maximum temperature is reached, and raises. *)
Lemma normalise_maximum_not_number daily_data t :
  maximum_not_number daily_data = true ->
  exists t', normalise daily_data t = (Raise TypeError, t').
Proof.
  destruct daily_data as [| | | | | |kv]; try discriminate.
  unfold maximum_not_number. intros H.
  apply andb_prop in H as [H Htemp]. apply andb_prop in H as [H Hepoch].
  apply andb_prop in H as [H Hair]. apply andb_prop in H as [Hday Hsun].
  destruct (field kv "Temperature" (PDict [])) as [| | | | | |temp] eqn:Etemp;
    try discriminate.
  destruct (field temp "Maximum" (PDict [])) as [| | | | | |maximum] eqn:Emax;
    try discriminate.
  destruct (field kv "Day" (PDict [])) as [| | | | | |day] eqn:Eday;
    try discriminate.
  destruct (field kv "Sun" (PDict [])) as [| | | | | |sun] eqn:Esun;
    try discriminate.
  cbn [day_wf] in Hday.
  apply andb_prop in Hday as [Hday Hphrase]. apply andb_prop in Hday as [Hday Hice].
  apply andb_prop in Hday as [Hday Hsnow]. apply andb_prop in Hday as [Hwind Hrain].
  destruct (field day "Wind" (PDict [])) as [| | | | | |wind] eqn:Ewind;
    try discriminate.
  cbn [wind_wf] in Hwind. apply andb_prop in Hwind as [Hspeed Hdir].
  destruct (field wind "Speed" (PDict [])) as [| | | | | |speed] eqn:Espeed;
    try discriminate.
  destruct (field wind "Direction" (PDict [])) as [| | | | | |direction] eqn:Edir;
    try discriminate.
  destruct (uv_index_of_wf _ Hair) as (uv & Huv).
  destruct (precip_value_wf _ Hrain Hsnow Hice) as (pv & precip & Hpv & Hprecip).
  destruct (wind_speed_wf _ Hspeed) as (ms & Hms).
  pose proof (date_obj_wf _ Hepoch) as Hdate.
  destruct (capitalize_wf _ Hphrase) as (desc & Hdesc).
  unfold normalise.
  pass_to_raise. rewrite Etemp. pass_to_raise. rewrite Eday.
  pass_to_raise. rewrite Ewind. pass_to_raise. rewrite Espeed. pass_to_raise. rewrite Edir.
  pass_to_raise. rewrite Esun. pass_to_raise.
  repeat pass_to_raise.
  destruct (sun_times_returns (field sun "Rise" PNone) (field sun "Set" PNone) t)
    as (pair & t1 & Esuntimes).
  unfold bind at 1. rewrite Esuntimes.
  repeat pass_to_raise.
  unfold sub_value. rewrite py_get_dict, Emax. cbn [res_bind]. rewrite py_get_dict.
  unfold bind at 1. unfold lift at 1. cbv beta iota.
  unfold bind at 1. unfold lift at 1.
  destruct (field maximum "Value" (PInt 0)); try discriminate; cbn; eauto.
Qed.

Lemma parse_forecast_raises kv pre bad post days t e :
  assoc "DailyForecasts" kv = Some (PList (pre ++ bad :: post)) ->
  forallb daily_wf pre = true ->
  (forall t1, exists t2, normalise bad t1 = (Raise e, t2)) ->
  exists t', parse_forecast (PDict kv) days t = (Raise e, t').
Proof.
  intros Ha Hwf Hbad. unfold parse_forecast.
  destruct kv as [|p kv]; [discriminate|].
  cbn [truthy]. unfold has_daily_forecasts, daily_forecasts_of. rewrite Ha.
  unfold bind at 1. cbn [lift]. unfold bind at 1. cbn [lift].
  unfold bind at 1. cbn [lift py_iter].
  destruct (mapM_normalise_wf pre t Hwf) as (rs & t1 & Hrs & _).
  destruct (Hbad t1) as (t3 & Hraise).
  exists t3. unfold bind. rewrite (mapM_raise _ _ _ _ _ _ _ _ _ Hrs Hraise). reflexivity.
Qed.

End Raising.

(** X6: a daily record that is not an object, or whose ["Day"] member
    is there and is not an object (for instance [null]), makes
    [get_accuweather_forecast] raise [AttributeError], which neither of
    its handlers lists: the exception leaves the function, after the
    request and log records only.  The records before it are well
    formed; those after it are never looked at. *)
Theorem unreadable_record_escapes `{RT : PyRuntime} (W : world)
    (location_key : pyval) (api_key : string) (days : Z) (t : list event)
    (resp : response) (kv : list (string * pyval)) (pre post : list pyval)
    (bad : pyval) :
  supported_days days = true ->
  http W t (forecast_request location_key api_key days) = Response resp ->
  raise_for_status resp = Ok tt ->
  json_body resp = Some (PDict kv) ->
  assoc "DailyForecasts" kv = Some (PList (pre ++ bad :: post)) ->
  forallb daily_wf pre = true ->
  unreadable bad = true ->
  exists logs,
    get_accuweather_forecast W location_key api_key days t =
      (Raise AttributeError,
       (t ++ EvGet (forecast_request location_key api_key days) :: logs)%list) /\
    Forall is_log logs.
Proof.
  intros Hs Hhttp Hstatus Hjson Ha Hwf Hbad.
  destruct (parse_forecast_raises kv pre bad post days
              (t ++ [EvGet (forecast_request location_key api_key days)])%list
              AttributeError Ha Hwf) as (t' & Hparse).
  { intros t1. exists t1. apply normalise_unreadable, Hbad. }
  assert (Hrun : get_accuweather_forecast W location_key api_key days t
                 = (Raise AttributeError, t')).
  { unfold get_accuweather_forecast. rewrite Hs. unfold bind at 1. cbn [ret].
    unfold try_except, bind, requests_get, response_json.
    rewrite Hhttp, Hstatus, Hjson. cbn [lift]. rewrite Hparse. reflexivity. }
  destruct (forecast_trace W _ _ _ _ _ _ Hs Hrun) as (logs & -> & Hlogs).
  exists logs. split; [exact Hrun|exact Hlogs].
Qed.

Lemma unreadable_record_escapes_witness :
  exists logs,
    @get_accuweather_forecast sample_runtime
      (constant_world 200
         (PDict [("DailyForecasts",
                   PList ([sample_day 1709164800 3]
                          ++ null_day :: [sample_day 1709337600 6]))]))
      (PStr "328328") "secret" 5 [] =
      (Raise AttributeError,
       ([] ++ EvGet (@forecast_request sample_runtime (PStr "328328") "secret" 5) :: logs)%list) /\
    Forall is_log logs.
Proof.
  apply (@unreadable_record_escapes sample_runtime _ (PStr "328328") "secret" 5 []
           {| status_code := 200; content := [];
              json_body := Some (PDict [("DailyForecasts",
                   PList ([sample_day 1709164800 3]
                          ++ null_day :: [sample_day 1709337600 6]))]) |}
           [("DailyForecasts",
                   PList ([sample_day 1709164800 3]
                          ++ null_day :: [sample_day 1709337600 6]))]
           [sample_day 1709164800 3] [sample_day 1709337600 6] null_day);
    reflexivity.
Defined.

(** X7: a daily record whose maximum temperature is not a number
    ([null], a string, a list or an object), the record being otherwise
    well formed, makes [round] raise [TypeError]; the outer handler
    catches it, logs an ERROR record and returns [None]: the records
    already normalised are discarded with it. *)
Theorem bad_temperature_discards_forecast `{RT : PyRuntime} (W : world)
    (location_key : pyval) (api_key : string) (days : Z) (t : list event)
    (resp : response) (kv : list (string * pyval)) (pre post : list pyval)
    (bad : pyval) :
  supported_days days = true ->
  http W t (forecast_request location_key api_key days) = Response resp ->
  raise_for_status resp = Ok tt ->
  json_body resp = Some (PDict kv) ->
  assoc "DailyForecasts" kv = Some (PList (pre ++ bad :: post)) ->
  forallb daily_wf pre = true ->
  maximum_not_number bad = true ->
  exists logs,
    get_accuweather_forecast W location_key api_key days t =
      (Ok None,
       (t ++ EvGet (forecast_request location_key api_key days)
          :: logs ++ [EvLog ERROR (MsgForecastParse TypeError)])%list) /\
    Forall is_log logs.
Proof.
  intros Hs Hhttp Hstatus Hjson Ha Hwf Hbad.
  destruct (parse_forecast_raises kv pre bad post days
              (t ++ [EvGet (forecast_request location_key api_key days)])%list
              TypeError Ha Hwf) as (t' & Hparse).
  { intros t1. apply normalise_maximum_not_number, Hbad. }
  destruct (writes_parse_forecast (PDict kv) days _ _ _ Hparse) as (logs & -> & Hlogs).
  exists logs. split; [|exact Hlogs].
  unfold get_accuweather_forecast. rewrite Hs. unfold bind at 1. cbn [ret].
  unfold try_except, bind, requests_get, response_json.
  rewrite Hhttp, Hstatus, Hjson. cbn [lift]. rewrite Hparse.
  unfold log, emit, ret. rewrite <- !app_assoc. reflexivity.
Qed.

Lemma bad_temperature_discards_forecast_witness :
  exists logs,
    @get_accuweather_forecast sample_runtime
      (constant_world 200
         (PDict [("DailyForecasts",
                   PList ([sample_day 1709164800 3; sample_day 1709251200 3]
                          ++ bad_maximum_day :: []))]))
      (PStr "328328") "secret" 5 [] =
      (Ok None,
       ([] ++ EvGet (@forecast_request sample_runtime (PStr "328328") "secret" 5)
           :: logs ++ [EvLog ERROR (MsgForecastParse TypeError)])%list) /\
    Forall is_log logs.
Proof.
  apply (@bad_temperature_discards_forecast sample_runtime _ (PStr "328328") "secret" 5 []
           {| status_code := 200; content := [];
              json_body := Some (PDict [("DailyForecasts",
                   PList ([sample_day 1709164800 3; sample_day 1709251200 3]
                          ++ bad_maximum_day :: []))]) |}
           [("DailyForecasts",
                   PList ([sample_day 1709164800 3; sample_day 1709251200 3]
                          ++ bad_maximum_day :: []))]
           [sample_day 1709164800 3; sample_day 1709251200 3] []
           bad_maximum_day);
    reflexivity.
Defined.

(** ** [get_accuweather_forecast]: order and truncation *)

Section Order.
Context `{RT : PyRuntime} (W : world).

(** Sorting a list that is in order already changes nothing: the sort
    is stable. *)
Lemma sort_by_date_sorted l : StronglySorted key_le l -> sort_by_date l = l.
Proof.
  induction 1 as [|x l Hl IH Hx]; cbn [sort_by_date]; [reflexivity|].
  rewrite IH. destruct l as [|y l]; [reflexivity|]. cbn [insert_sorted].
  apply Forall_cons in Hx as [Hxy _]. unfold key_le in Hxy.
  apply Z.leb_le in Hxy. rewrite Hxy. reflexivity.
Qed.

Lemma ascending_keys rs :
  StronglySorted Z.le (map sort_key rs) -> StronglySorted key_le rs.
Proof.
  induction rs as [|r rs IH]; cbn [map]; intros H; [constructor|].
  apply StronglySorted_inv in H as [Hrs Hr].
  constructor; [apply IH, Hrs|].
  apply Forall_forall. intros y Hy. rewrite Forall_forall in Hr.
  apply Hr. apply list_elem_of_In, in_map, list_elem_of_In, Hy.
Qed.

Lemma split_ascending {A} (R : A -> A -> Prop) n : forall l,
  StronglySorted R l ->
  forall a b, In a (firstn n l) -> In b (skipn n l) -> R a b.
Proof.
  induction n as [|n IH]; intros l H a b Ha Hb; [contradiction|].
  destruct H as [|x l Hl Hx]; [contradiction|]. cbn [firstn skipn] in Ha, Hb.
  destruct Ha as [<-|Ha].
  - rewrite Forall_forall in Hx. apply Hx.
    apply (subseteq_drop n l). apply list_elem_of_In. exact Hb.
  - eapply IH; eauto.
Qed.

(** The result in terms of the records the loop has built. *)
Lemma forecast_of_records location_key api_key days t resp kv payload rs t' :
  supported_days days = true ->
  http W t (forecast_request location_key api_key days) = Response resp ->
  raise_for_status resp = Ok tt ->
  json_body resp = Some (PDict kv) ->
  assoc "DailyForecasts" kv = Some (PList payload) ->
  mapM normalise payload (t ++ [EvGet (forecast_request location_key api_key days)])%list
    = (Ok rs, t') ->
  get_accuweather_forecast W location_key api_key days t =
    (Ok (Some (firstn (Z.to_nat days) (sort_by_date rs))), t').
Proof.
  intros Hs Hhttp Hstatus Hjson Ha Hm.
  unfold get_accuweather_forecast. rewrite Hs. unfold bind at 1. cbn [ret].
  unfold try_except, bind, requests_get, response_json.
  rewrite Hhttp, Hstatus, Hjson. cbn [lift].
  unfold parse_forecast. destruct kv as [|p kv]; [discriminate|].
  cbn [truthy]. unfold has_daily_forecasts, daily_forecasts_of. rewrite Ha.
  unfold bind, lift, py_iter. rewrite Hm. reflexivity.
Qed.

End Order.

(** X8: when the provider delivers well-formed records already in
    ascending order of date (equal dates allowed), the forecast is the
    normalised records in the provider's order, cut after the requested
    number of days: sorting moves nothing. *)
Theorem sorted_payload_keeps_order `{RT : PyRuntime} (W : world)
    (location_key : pyval) (api_key : string) (days : Z) (t : list event)
    (resp : response) (kv : list (string * pyval)) (payload : list pyval) :
  supported_days days = true ->
  http W t (forecast_request location_key api_key days) = Response resp ->
  raise_for_status resp = Ok tt ->
  json_body resp = Some (PDict kv) ->
  assoc "DailyForecasts" kv = Some (PList payload) ->
  forallb daily_wf payload = true ->
  StronglySorted Z.le (map payload_key payload) ->
  exists rs t',
    mapM normalise payload
      (t ++ [EvGet (forecast_request location_key api_key days)])%list = (Ok rs, t') /\
    get_accuweather_forecast W location_key api_key days t =
      (Ok (Some (firstn (Z.to_nat days) rs)), t').
Proof.
  intros Hs Hhttp Hstatus Hjson Ha Hwf Hsorted.
  destruct (mapM_normalise_wf payload
              (t ++ [EvGet (forecast_request location_key api_key days)])%list Hwf)
    as (rs & t' & Hm & Hkeys).
  exists rs, t'. split; [exact Hm|].
  rewrite (forecast_of_records W _ _ _ _ _ _ _ _ _ Hs Hhttp Hstatus Hjson Ha Hm).
  rewrite sort_by_date_sorted; [reflexivity|].
  apply ascending_keys. rewrite Hkeys. exact Hsorted.
Qed.

Lemma sorted_payload_keeps_order_witness :
  exists rs t',
    mapM (@normalise sample_runtime)
      [sample_day 1709164800 3; sample_day 1709164800 6; sample_day 1709251200 3]
      ([] ++ [EvGet (@forecast_request sample_runtime (PStr "328328") "secret" 1)])%list
      = (Ok rs, t') /\
    @get_accuweather_forecast sample_runtime
      (constant_world 200
         (PDict [("DailyForecasts",
                   PList [sample_day 1709164800 3; sample_day 1709164800 6;
                          sample_day 1709251200 3])]))
      (PStr "328328") "secret" 1 [] =
      (Ok (Some (firstn (Z.to_nat 1) rs)), t').
Proof.
  apply (@sorted_payload_keeps_order sample_runtime _ (PStr "328328") "secret" 1 []
           {| status_code := 200; content := [];
              json_body := Some (PDict [("DailyForecasts",
                   PList [sample_day 1709164800 3; sample_day 1709164800 6;
                          sample_day 1709251200 3])]) |}
           [("DailyForecasts",
              PList [sample_day 1709164800 3; sample_day 1709164800 6;
                     sample_day 1709251200 3])]
           [sample_day 1709164800 3; sample_day 1709164800 6; sample_day 1709251200 3]);
    try reflexivity.
  vm_compute. repeat constructor; discriminate.
Defined.

(** X9: for a payload of well-formed records, the records the forecast
    keeps and the records it drops are together the normalised records
    of the payload, nothing lost and nothing repeated; what is dropped is
    what exceeds the requested number of days, and no dropped record is
    dated before a kept one. *)
Theorem truncation_keeps_earliest `{RT : PyRuntime} (W : world)
    (location_key : pyval) (api_key : string) (days : Z) (t : list event)
    (resp : response) (kv : list (string * pyval)) (payload : list pyval) :
  supported_days days = true ->
  http W t (forecast_request location_key api_key days) = Response resp ->
  raise_for_status resp = Ok tt ->
  json_body resp = Some (PDict kv) ->
  assoc "DailyForecasts" kv = Some (PList payload) ->
  forallb daily_wf payload = true ->
  exists rs kept dropped t',
    mapM normalise payload
      (t ++ [EvGet (forecast_request location_key api_key days)])%list = (Ok rs, t') /\
    get_accuweather_forecast W location_key api_key days t = (Ok (Some kept), t') /\
    Permutation (kept ++ dropped) rs /\
    length dropped = (length payload - Z.to_nat days)%nat /\
    forall a b, In a kept -> In b dropped -> key_le a b.
Proof.
  intros Hs Hhttp Hstatus Hjson Ha Hwf.
  destruct (mapM_normalise_wf payload
              (t ++ [EvGet (forecast_request location_key api_key days)])%list Hwf)
    as (rs & t' & Hm & Hkeys).
  exists rs, (firstn (Z.to_nat days) (sort_by_date rs)),
    (skipn (Z.to_nat days) (sort_by_date rs)), t'.
  split; [exact Hm|]. split; [|split; [|split]].
  - apply (forecast_of_records W _ _ _ _ _ _ _ _ _ Hs Hhttp Hstatus Hjson Ha Hm).
  - rewrite firstn_skipn. apply sort_by_date_perm.
  - rewrite List.length_skipn, (Permutation_length (sort_by_date_perm rs)).
    rewrite <- (length_map sort_key rs), Hkeys, length_map. reflexivity.
  - apply split_ascending, sort_by_date_ascending.
Qed.

Lemma truncation_keeps_earliest_witness :
  exists rs kept dropped t',
    mapM (@normalise sample_runtime) sample_payload
      ([] ++ [EvGet (@forecast_request sample_runtime (PStr "328328") "secret" 1)])%list
      = (Ok rs, t') /\
    @get_accuweather_forecast sample_runtime
      (constant_world 200 (PDict sample_forecast_body)) (PStr "328328") "secret" 1 []
      = (Ok (Some kept), t') /\
    Permutation (kept ++ dropped) rs /\
    length dropped = (length sample_payload - Z.to_nat 1)%nat /\
    forall a b, In a kept -> In b dropped -> key_le a b.
Proof.
  apply (@truncation_keeps_earliest sample_runtime
           (constant_world 200 (PDict sample_forecast_body)) (PStr "328328") "secret" 1 []
           {| status_code := 200; content := [];
              json_body := Some (PDict sample_forecast_body) |}
           sample_forecast_body sample_payload);
    reflexivity.
Defined.

(** ** The fields of a normalised record *)


Lemma member_dict k rest kv x :
  member (k :: rest) (PDict kv) = Some x ->
  exists v, assoc k kv = Some v /\ member rest v = Some x.
Proof. cbn [member]. destruct (assoc k kv) as [v|]; [eauto|discriminate]. Qed.

Lemma member_field k rest kv x default :
  member (k :: rest) (PDict kv) = Some x ->
  member rest (field kv k default) = Some x.
Proof.
  intros H. apply member_dict in H as (v & Hv & H). unfold field. rewrite Hv. exact H.
Qed.

Lemma member_value kv x : member ["Value"] (PDict kv) = Some x -> assoc "Value" kv = Some x.
Proof. cbn. destruct (assoc "Value" kv); congruence. Qed.

Section Members.
Context `{RT : PyRuntime}.

(** The search stops at the first entry named ["UVIndex"]. *)
Lemma find_uv_first before info after :
  forallb is_dict before = true ->
  forallb (fun item => negb (named_uv item)) before = true ->
  named_uv (PDict info) = true ->
  find_uv (before ++ PDict info :: after) = Ok (Some (PDict info)).
Proof.
  intros Hd Hn Hinfo.
  induction before as [|item before IH]; cbn [app find_uv forallb] in *.
  - rewrite py_get_dict. cbn [res_bind]. cbn [named_uv] in Hinfo.
    destruct (field info "Name" PNone); try discriminate.
    rewrite Hinfo. reflexivity.
  - apply andb_prop in Hd as [Hi Hd]. apply andb_prop in Hn as [Hu Hn].
    destruct item; try discriminate. rewrite py_get_dict. cbn [res_bind].
    cbn [named_uv] in Hu.
    destruct (field kv "Name" PNone); try (apply IH; assumption).
    apply negb_true_iff in Hu. rewrite Hu. apply IH; assumption.
Qed.

Lemma named_uv_truthy info : named_uv (PDict info) = true -> truthy (PDict info) = true.
Proof. destruct info; [discriminate|reflexivity]. Qed.

(** Where the sunrise and sunset of the result come from. *)
Lemma normalise_sun kv sun t r t' :
  field kv "Sun" (PDict []) = PDict sun ->
  normalise (PDict kv) t = (Ok r, t') ->
  exists t0 t1,
    sun_times (field sun "Rise" PNone) (field sun "Set" PNone) t0
      = (Ok (sunrise r, sunset r), t1) /\
    (exists logs, t' = (t1 ++ logs)%list).
Proof.
  intros Hsun H.
  assert (Hw : forall degrees, writes is_log (get_wind_direction degrees))
    by (intros; apply writes_get_wind_direction).
  unfold normalise in H. rewrite !py_get_dict in H. rewrite Hsun in H.
  repeat (rewrite ?py_get_dict in H; run_step H).
  unfold ret in H. inversion H; subst; clear H. cbn [sunrise sunset].
  match goal with
  | E : sun_times _ _ ?ta = (Ok ?p, ?tb) |- _ =>
      exists ta, tb; destruct p; split; [exact E|]
  end.
  match goal with
  | E : get_wind_direction _ _ = _ |- _ => apply Hw in E as (logs & -> & _)
  end.
  eauto.
Qed.

Lemma sun_times_fails rise set t :
  clock_fails rise || clock_fails set = true ->
  sun_times rise set t =
    (Ok ("N/A", "N/A"), (t ++ [EvLog WARNING (MsgSunParse rise set)])%list).
Proof.
  unfold clock_fails, sun_times, try_except, bind, lift.
  assert (Hex : forall v e, clock_of v = Raise e -> e = ValueError \/ e = TypeError).
  { intros v e. unfold clock_of. destruct (truthy v); [|discriminate].
    destruct v; try (intros H; inversion H; auto).
    destruct (iso_clock s); inversion H; auto. }
  destruct (clock_of rise) as [a|e] eqn:Er.
  - destruct (clock_of set) as [b|e] eqn:Es; [discriminate|].
    intros _. destruct (Hex _ _ Es) as [->| ->]; reflexivity.
  - intros _. destruct (Hex _ _ Er) as [->| ->]; reflexivity.
Qed.

(** Where the wind of the result comes from. *)
Lemma normalise_wind kv day wind speed direction t r t' :
  field kv "Day" (PDict []) = PDict day ->
  field day "Wind" (PDict []) = PDict wind ->
  field wind "Speed" (PDict []) = PDict speed ->
  field wind "Direction" (PDict []) = PDict direction ->
  normalise (PDict kv) t = (Ok r, t') ->
  wind_speed_of (field speed "Value" PNone) = Ok (wind_speed r) /\
  exists t0 t1,
    get_wind_direction (field direction "Degrees" PNone) t0 = (Ok (wind_direction r), t1).
Proof.
  intros Hday Hwind Hspeed Hdir H.
  unfold normalise in H. rewrite !py_get_dict in H. rewrite Hday in H.
  run_step H. run_step H. rewrite py_get_dict, Hwind in H. run_step H.
  rewrite py_get_dict, Hspeed in H. run_step H.
  rewrite py_get_dict, Hdir in H. run_step H.
  repeat (rewrite ?py_get_dict in H; run_step H).
  unfold ret in H. inversion H; subst; clear H. cbn [wind_speed wind_direction].
  split; [congruence|eauto].
Qed.

Lemma sub_value_member obj kind x :
  member [kind; "Value"] (PDict obj) = Some x ->
  sub_value (PDict obj) kind = Ok x.
Proof.
  intros H. apply member_dict in H as (v & Hv & H).
  unfold sub_value. rewrite py_get_dict. unfold field. rewrite Hv. cbn [res_bind].
  destruct v; try discriminate. apply member_value in H.
  rewrite py_get_dict. unfold field. rewrite H. reflexivity.
Qed.

End Members.

(** X11: the UV index of a well-formed record is read from the first
    entry of its air-and-pollen collection that is named ["UVIndex"]:
    the text is its value followed by its category in parentheses, and a
    member the entry lacks is printed as [None]; later entries are
    ignored. *)
Theorem uv_index_first_entry `{RT : PyRuntime} (kv : list (string * pyval))
    (before after : list pyval) (info : list (string * pyval)) (t : list event) :
  daily_wf (PDict kv) = true ->
  field kv "AirAndPollen" (PList []) = PList (before ++ PDict info :: after) ->
  forallb (fun item => negb (named_uv item)) before = true ->
  named_uv (PDict info) = true ->
  exists r t',
    normalise (PDict kv) t = (Ok r, t') /\
    uv_index r = uv_text info.
Proof.
  intros Hwf Hair Hbefore Hinfo.
  destruct (normalise_wf _ t Hwf) as (r & t' & Hrun).
  exists r, t'. split; [exact Hrun|].
  rewrite normalise_dict in Hrun.
  destruct (normalise_fields _ _ _ _ _ _ _ _ Hrun) as (Huv & _).
  assert (Hdicts : forallb is_dict before = true).
  { unfold daily_wf in Hwf. apply andb_prop in Hwf as [Hwf _].
    apply andb_prop in Hwf as [_ Hwf]. rewrite Hair in Hwf. cbn [air_wf] in Hwf.
    rewrite forallb_app in Hwf. apply andb_prop in Hwf as [Hwf _]. exact Hwf. }
  rewrite Hair in Huv. unfold uv_index_of in Huv. cbn [py_iter res_bind] in Huv.
  rewrite (find_uv_first _ _ _ Hdicts Hbefore Hinfo) in Huv. cbn [res_bind] in Huv.
  rewrite (named_uv_truthy _ Hinfo), !py_get_dict in Huv. cbn [res_bind] in Huv.
  inversion Huv. reflexivity.
Qed.

Lemma uv_index_first_entry_witness :
  exists r t',
    @normalise sample_runtime measured_day [] = (Ok r, t') /\
    uv_index r = "3 (None)".
Proof.
  apply (@uv_index_first_entry sample_runtime _
           [PDict [("Name", PStr "Grass"); ("Value", PInt 0); ("Category", PStr "Low")]]
           [PDict [("Name", PStr "UVIndex"); ("Value", PInt 9);
                   ("Category", PStr "Very High")]]
           [("Name", PStr "UVIndex"); ("Value", PInt 3)] []);
    reflexivity.
Defined.

(** X12: when either the sunrise or the sunset of a well-formed record
    cannot be parsed (a true value that is not a string, or a string
    [fromisoformat] refuses), both come out as ["N/A"], the one that
    could be parsed included, and one WARNING record is logged; the
    record itself is still produced. *)
Theorem sun_times_both_or_neither `{RT : PyRuntime} (kv sun : list (string * pyval))
    (t : list event) :
  daily_wf (PDict kv) = true ->
  field kv "Sun" (PDict []) = PDict sun ->
  clock_fails (field sun "Rise" PNone) || clock_fails (field sun "Set" PNone) = true ->
  exists r t',
    normalise (PDict kv) t = (Ok r, t') /\
    sunrise r = "N/A" /\ sunset r = "N/A" /\
    In (EvLog WARNING (MsgSunParse (field sun "Rise" PNone) (field sun "Set" PNone))) t'.
Proof.
  intros Hwf Hsun Hfails.
  destruct (normalise_wf _ t Hwf) as (r & t' & Hrun).
  exists r, t'. split; [exact Hrun|].
  destruct (normalise_sun _ _ _ _ _ Hsun Hrun) as (t0 & t1 & Hst & logs & ->).
  rewrite (sun_times_fails _ _ t0 Hfails) in Hst. inversion Hst; subst.
  split; [reflexivity|]. split; [reflexivity|].
  apply in_or_app. left. apply in_or_app. right. left. reflexivity.
Qed.

Lemma sun_times_both_or_neither_witness :
  exists r t',
    @normalise sample_runtime measured_day [] = (Ok r, t') /\
    sunrise r = "N/A" /\ sunset r = "N/A" /\
    In (EvLog WARNING
          (MsgSunParse (PStr "2024-02-29T06:41:00+00:00") (PInt 1709229600))) t'.
Proof.
  apply (@sun_times_both_or_neither sample_runtime _
           [ ("Rise", PStr "2024-02-29T06:41:00+00:00"); ("Set", PInt 1709229600) ] []);
    reflexivity.
Defined.

(** X13: a well-formed record without a ["Day"] member is normalised
    without a log record to the defaults of everything read from that
    member: no icon, the description ["N/a"], wind speed 0.0, wind
    direction ["N/A"], precipitation 0 and precipitation chance 0. *)
Theorem record_without_day_defaults `{RT : PyRuntime} (kv : list (string * pyval))
    (t : list event) :
  daily_wf (PDict kv) = true ->
  assoc "Day" kv = None ->
  exists r t',
    normalise (PDict kv) t = (Ok r, t') /\
    icon r = PNone /\
    weather_desc r = "N/a" /\
    wind_speed r = 0%float /\
    wind_direction r = "N/A" /\
    precipitation r = PInt 0 /\
    precip_chance r = PInt 0.
Proof.
  intros Hwf Hday.
  destruct (normalise_wf _ t Hwf) as (r & t' & Hrun).
  exists r, t'. split; [exact Hrun|].
  unfold normalise in Hrun. rewrite !py_get_dict in Hrun.
  unfold field at 2 in Hrun. rewrite Hday in Hrun.
  repeat (rewrite ?py_get_dict in Hrun; cbn [field assoc] in Hrun; run_step Hrun).
  unfold ret in Hrun. inversion Hrun; subst; clear Hrun. cbn.
  repeat match goal with
         | E : precip_value_of (PDict []) = Ok _ |- _ =>
             vm_compute in E; inversion E; subst; clear E
         | E : wind_speed_of PNone = Ok _ |- _ =>
             cbn in E; inversion E; subst; clear E
         | E : py_capitalize (PStr "N/A") = Ok _ |- _ =>
             vm_compute in E; inversion E; subst; clear E
         | E : get_wind_direction PNone _ = _ |- _ =>
             cbn in E; inversion E; subst; clear E
         | E : py_round1 (PInt 0) = Ok _ |- _ =>
             cbn in E; inversion E; subst; clear E
         end.
  repeat split.
Qed.

Lemma record_without_day_defaults_witness :
  exists r t',
    @normalise sample_runtime (PDict [("EpochDate", PInt 1709164800)]) [] = (Ok r, t') /\
    icon r = PNone /\
    weather_desc r = "N/a" /\
    wind_speed r = 0%float /\
    wind_direction r = "N/A" /\
    precipitation r = PInt 0 /\
    precip_chance r = PInt 0.
Proof.
  apply (@record_without_day_defaults sample_runtime [("EpochDate", PInt 1709164800)] []);
    reflexivity.
Defined.

(** X14: for a well-formed record with a wind speed [v] (a float, in
    km/h) and a bearing [d], the wind speed of the result is
    [round(v / 3.6, 1)], in m/s, and its wind direction is the label of
    the sector of [d]. *)
Theorem wind_is_converted `{RT : PyRuntime} (daily_data : pyval) (t : list event)
    (v : float) (d : Z) :
  daily_wf daily_data = true ->
  member ["Day"; "Wind"; "Speed"; "Value"] daily_data = Some (PFloat v) ->
  member ["Day"; "Wind"; "Direction"; "Degrees"] daily_data = Some (PInt d) ->
  exists r t',
    normalise daily_data t = (Ok r, t') /\
    wind_speed r = round1 (PrimFloat.div v kmh_per_ms) /\
    wind_direction r = sector_label d.
Proof.
  intros Hwf Hv Hd.
  destruct (normalise_wf _ t Hwf) as (r & t' & Hrun). exists r, t'.
  split; [exact Hrun|].
  destruct daily_data as [| | | | | |kv]; try discriminate.
  apply (member_field _ _ _ _ (PDict [])) in Hv, Hd.
  unfold daily_wf in Hwf. apply andb_prop in Hwf as [Hwf _].
  apply andb_prop in Hwf as [Hwf _]. apply andb_prop in Hwf as [Hwf _].
  apply andb_prop in Hwf as [_ Hday].
  destruct (field kv "Day" (PDict [])) as [| | | | | |day] eqn:Eday; try discriminate.
  apply (member_field _ _ _ _ (PDict [])) in Hv, Hd.
  cbn [day_wf] in Hday. apply andb_prop in Hday as [Hday _].
  apply andb_prop in Hday as [Hday _]. apply andb_prop in Hday as [Hday _].
  apply andb_prop in Hday as [Hwind _].
  destruct (field day "Wind" (PDict [])) as [| | | | | |wind] eqn:Ewind;
    try discriminate.
  apply (member_field _ _ _ _ (PDict [])) in Hv, Hd.
  cbn [wind_wf] in Hwind. apply andb_prop in Hwind as [_ Hbearing].
  destruct (field wind "Speed" (PDict [])) as [| | | | | |speed] eqn:Espeed;
    try discriminate.
  destruct (field wind "Direction" (PDict [])) as [| | | | | |direction] eqn:Edir;
    try discriminate.
  cbn [member] in Hv, Hd.
  destruct (normalise_wind _ _ _ _ _ _ _ _ Eday Ewind Espeed Edir Hrun)
    as (Hspeed & t0 & t1 & Hlabel).
  unfold field in Hspeed, Hlabel, Hbearing.
  destruct (assoc "Value" speed) as [x|]; [|discriminate].
  destruct (assoc "Degrees" direction) as [y|]; [|discriminate].
  inversion Hv; subst x. inversion Hd; subst y.
  cbn in Hspeed. inversion Hspeed as [Hs]. split; [reflexivity|].
  cbn [is_bearing] in Hbearing. apply andb_prop in Hbearing as [H0 H1].
  apply Z.leb_le in H0. apply Z.leb_le in H1.
  rewrite get_wind_direction_int, wind_lookup_sector in Hlabel by lia.
  inversion Hlabel. reflexivity.
Qed.

Lemma wind_is_converted_witness :
  exists r t',
    @normalise sample_runtime measured_day [] = (Ok r, t') /\
    wind_speed r = @round1 sample_runtime (PrimFloat.div 18 kmh_per_ms) /\
    wind_direction r = "SW".
Proof.
  apply (@wind_is_converted sample_runtime measured_day [] 18%float 225); reflexivity.
Defined.

(** X15: for a well-formed record with rain, snow and ice amounts and
    a maximum and a minimum temperature, all floats, the precipitation
    of the result is [round((rain + snow) + ice, 1)] and its temperatures
    are the two values rounded to one decimal. *)
Theorem amounts_are_summed_and_rounded `{RT : PyRuntime} (daily_data : pyval)
    (t : list event) (rain snow ice high low : float) :
  daily_wf daily_data = true ->
  member ["Day"; "Rain"; "Value"] daily_data = Some (PFloat rain) ->
  member ["Day"; "Snow"; "Value"] daily_data = Some (PFloat snow) ->
  member ["Day"; "Ice"; "Value"] daily_data = Some (PFloat ice) ->
  member ["Temperature"; "Maximum"; "Value"] daily_data = Some (PFloat high) ->
  member ["Temperature"; "Minimum"; "Value"] daily_data = Some (PFloat low) ->
  exists r t',
    normalise daily_data t = (Ok r, t') /\
    precipitation r =
      PFloat (round1 (PrimFloat.add (PrimFloat.add rain snow) ice)) /\
    high_temp r = PFloat (round1 high) /\
    low_temp r = PFloat (round1 low).
Proof.
  intros Hwf Hrain Hsnow Hice Hhigh Hlow.
  destruct (normalise_wf _ t Hwf) as (r & t' & Hrun). exists r, t'.
  split; [exact Hrun|].
  destruct daily_data as [| | | | | |kv]; try discriminate.
  rewrite normalise_dict in Hrun.
  destruct (normalise_fields _ _ _ _ _ _ _ _ Hrun)
    as (_ & _ & (pv & Hpv & Hprecip) & (hi & Hhi & Hhigh') & (lo & Hlo & Hlow') & _).
  apply (member_field _ _ _ _ (PDict [])) in Hrain, Hsnow, Hice, Hhigh, Hlow.
  destruct (field kv "Day" (PDict [])) as [| | | | | |day]; try discriminate.
  destruct (field kv "Temperature" (PDict [])) as [| | | | | |temp]; try discriminate.
  unfold precip_value_of in Hpv.
  rewrite (sub_value_member _ _ _ Hrain), (sub_value_member _ _ _ Hsnow),
    (sub_value_member _ _ _ Hice) in Hpv.
  rewrite (sub_value_member _ _ _ Hhigh) in Hhi.
  rewrite (sub_value_member _ _ _ Hlow) in Hlo.
  cbn in Hpv. inversion Hpv; subst pv. inversion Hhi; subst hi. inversion Hlo; subst lo.
  cbn in Hprecip, Hhigh', Hlow'. repeat split; congruence.
Qed.

Lemma amounts_are_summed_and_rounded_witness :
  exists r t',
    @normalise sample_runtime measured_day [] = (Ok r, t') /\
    precipitation r =
      PFloat (@round1 sample_runtime (PrimFloat.add (PrimFloat.add 1.5 0) 0.25)) /\
    high_temp r = PFloat (@round1 sample_runtime 11.5) /\
    low_temp r = PFloat (@round1 sample_runtime 2.5).
Proof.
  apply (@amounts_are_summed_and_rounded sample_runtime measured_day []
           1.5%float 0%float 0.25%float 11.5%float 2.5%float); reflexivity.
Defined.

(** ** [send_email_with_images] *)

(** X16: [send_email_with_images] never raises.  After the call it
    writes log records only; the success record is written exactly when
    the type of every attachment was recognised and the whole SMTP
    conversation went through; and when the type of some attachment is
    not recognised the only record is the ERROR one: the server is not
    contacted. *)
Theorem send_email_reports_outcome `{RT : PyRuntime} (W : world) (m : mail)
    (t : list event) :
  exists logs,
    send_email_with_images W m t = (Ok tt, (t ++ EvMail m :: logs)%list) /\
    Forall is_log logs /\
    (In (EvLog INFO (MsgSmtpSent (mail_to m))) logs <->
     typed_images m = true /\ smtp W (t ++ [EvMail m])%list m = MailDelivered) /\
    (typed_images m = false -> logs = [EvLog ERROR MsgSmtpUnexpected]).
Proof.
  unfold send_email_with_images, typed_images.
  unfold bind at 1. unfold emit at 1. cbv beta iota.
  destruct (forallb _ (mail_images m)).
  - unfold bind at 1. cbv beta iota.
    destruct (smtp W (t ++ [EvMail m])%list m) as [smtp_error|smtp_error|].
    + exists [EvLog INFO MsgSmtpConnecting;
              EvLog ERROR (if smtp_error then MsgSmtpError else MsgSmtpUnexpected)].
      split; [unfold bind, log, emit; cbn; rewrite <- !app_assoc; reflexivity|].
      split; [repeat constructor|]. split; [|discriminate]. split.
      * intros [H|[H|[]]]; discriminate H.
      * intros [_ H]. discriminate H.
    + exists [EvLog INFO MsgSmtpConnecting; EvLog INFO MsgSmtpSending;
              EvLog ERROR (if smtp_error then MsgSmtpError else MsgSmtpUnexpected)].
      split; [unfold bind, log, emit; cbn; rewrite <- !app_assoc; reflexivity|].
      split; [repeat constructor|]. split; [|discriminate]. split.
      * intros [H|[H|[H|[]]]]; discriminate H.
      * intros [_ H]. discriminate H.
    + exists [EvLog INFO MsgSmtpConnecting; EvLog INFO MsgSmtpSending;
              EvLog INFO (MsgSmtpSent (mail_to m))].
      split; [unfold bind, log, emit; cbn; rewrite <- !app_assoc; reflexivity|].
      split; [repeat constructor|]. split; [|discriminate]. split.
      * intros _. split; reflexivity.
      * intros _. right. right. left. reflexivity.
  - exists [EvLog ERROR MsgSmtpUnexpected].
    split; [unfold bind, log, emit; cbn; rewrite <- !app_assoc; reflexivity|].
    split; [repeat constructor|]. split; [|reflexivity]. split.
    + intros [H|[]]. discriminate H.
    + intros [H _]. discriminate H.
Qed.

(** ** [WeatherAlert]: the configuration checks *)

(** X17: when [FORECAST_DAYS] is unset or an integer literal and some
    of the six required variables are unset or empty, the run logs their
    names, in the order of the source, and returns: no request is made
    and nothing is handed to the mail transport. *)
Theorem missing_variables_stop_run `{RT : PyRuntime} (W : world) (t : list event)
    (forecast_days : Z) :
  parse_int (env_or W "FORECAST_DAYS" "5") = Some forecast_days ->
  List.filter (env_missing W) required_vars <> [] ->
  WeatherAlert W t =
    (Ok tt,
     (t ++ past_due_log W
        ++ [EvLog INFO MsgStarted;
            EvLog ERROR (MsgMissingVars (List.filter (env_missing W) required_vars))])%list).
Proof.
  intros Hdays Hmissing. unfold WeatherAlert, past_due_log.
  rewrite Hdays.
  destruct (List.filter (env_missing W) required_vars) as [|name names];
    [congruence|].
  destruct (timer_past_due W); unfold bind, log, emit; cbn; rewrite <- ?app_assoc;
    reflexivity.
Qed.

Lemma missing_variables_stop_run_witness :
  @WeatherAlert sample_runtime
    (world_with_env (env_with "GMAIL_PASSWORD" EmptyString (env_without "TO_EMAIL" sample_env)))
    [] =
    (Ok tt,
     [EvLog WARNING MsgPastDue; EvLog INFO MsgStarted;
      EvLog ERROR (MsgMissingVars ["GMAIL_PASSWORD"; "TO_EMAIL"])]).
Proof.
  apply (@missing_variables_stop_run sample_runtime
           (world_with_env (env_with "GMAIL_PASSWORD" EmptyString
                              (env_without "TO_EMAIL" sample_env))) [] 5);
    [reflexivity|discriminate].
Defined.



(** X19: when every required variable is set but the latitude or the
    longitude is not a number, or [FORECAST_DAYS] is not between 1 and
    15, the run logs a configuration error and returns: no request is
    made and nothing is handed to the mail transport. *)
Theorem invalid_values_stop_run `{RT : PyRuntime} (W : world) (t : list event)
    (forecast_days : Z) :
  parse_int (env_or W "FORECAST_DAYS" "5") = Some forecast_days ->
  List.filter (env_missing W) required_vars = [] ->
  values_valid W forecast_days = false ->
  WeatherAlert W t =
    (Ok tt,
     (t ++ past_due_log W ++ [EvLog INFO MsgStarted; EvLog ERROR MsgConfigError])%list).
Proof.
  intros Hdays Hmissing Hvalid. unfold WeatherAlert, past_due_log.
  unfold values_valid in Hvalid. rewrite Hdays, Hmissing.
  destruct (timer_past_due W); unfold bind, log, emit; cbn; rewrite Hvalid; cbn;
    rewrite <- ?app_assoc; reflexivity.
Qed.

Lemma invalid_values_stop_run_witness :
  @WeatherAlert sample_runtime (world_with_env (env_with "FORECAST_DAYS" "16" sample_env)) [] =
    (Ok tt,
     [EvLog WARNING MsgPastDue; EvLog INFO MsgStarted; EvLog ERROR MsgConfigError]).
Proof.
  apply (@invalid_values_stop_run sample_runtime
           (world_with_env (env_with "FORECAST_DAYS" "16" sample_env)) [] 16);
    reflexivity.
Defined.

(** ** [WeatherAlert]: the icons of a report *)

Section Icons.
Context `{RT : PyRuntime} (W : world).

Lemma summary_loop_iconless forecast_data : forall st t,
  forallb (fun r => negb (truthy (icon r))) forecast_data = true ->
  foldM (summary_step W) st forecast_data t =
    (Ok {| fetched_icons := fetched_icons st;
           email_images := email_images st;
           html_content :=
             (html_content st
              ++ map (fun r => SummaryText (day_name r) (weather_desc r)) forecast_data)%list |},
     t).
Proof.
  induction forecast_data as [|r rest IH]; intros st t H; cbn [foldM forallb map] in *.
  - rewrite app_nil_r. destruct st; reflexivity.
  - apply andb_prop in H as [Hr Hrest]. apply negb_true_iff in Hr.
    unfold bind, summary_step. rewrite Hr. cbn [ret].
    rewrite (IH _ _ Hrest). cbn [add_html fetched_icons email_images html_content].
    rewrite <- app_assoc. reflexivity.
Qed.

(** The requests of the summary loop for one code. *)
Lemma summary_loop_fetches forecast_data : forall st t st' added code,
  foldM (summary_step W) st forecast_data t = (Ok st', (t ++ added)%list) ->
  fetches code added =
    if cached st code then 0%nat
    else if needs_icon code forecast_data then 1%nat else 0%nat.
Proof.
  induction forecast_data as [|r rest IH]; intros st t st' added code H;
    cbn [foldM] in H.
  - injection H as Hst Ht.
    assert (added = []) as ->.
    { apply (app_inv_head t). rewrite app_nil_r. symmetry. exact Ht. }
    cbn. destruct (cached _ code); reflexivity.
  - destruct (summary_step_spec W st r t) as (st1 & added1 & Hstep & _ & Hkey & Hcase).
    rewrite (bind_ok _ _ _ _ _ Hstep) in H.
    destruct (summary_loop_spec W rest st1 (t ++ added1)%list)
      as (st2 & added2 & Hloop & _).
    rewrite Hloop in H. injection H as Hst Ht. subst st2.
    rewrite <- app_assoc in Ht. apply app_inv_head in Ht. subst added.
    rewrite fetches_app, (IH _ _ _ _ code Hloop).
    cbn [needs_icon existsb]. fold (needs_icon code rest).
    destruct Hcase as [[Hicons ->]|(Hnone & Hins & logs & -> & Hlogs)].
    + assert (Hc : cached st1 code = cached st code)
        by (unfold cached; rewrite Hicons; reflexivity).
      rewrite Hc. cbn. destruct (cached st code) eqn:Ecached; [reflexivity|].
      destruct (truthy (icon r)) eqn:Hicon; [|reflexivity].
      destruct (String.eqb (record_code r) code) eqn:Ecode; [|reflexivity].
      apply String.eqb_eq in Ecode. subst code.
      destruct (Hkey eq_refl) as (v & Hv). rewrite Hicons in Hv.
      unfold cached in Ecached. rewrite Hv in Ecached. discriminate.
    + assert (Hicon : truthy (icon r) = true).
      { destruct (truthy (icon r)) eqn:Hicon; [reflexivity|].
        unfold summary_step in Hstep. rewrite Hicon in Hstep.
        unfold ret in Hstep. injection Hstep as _ Ht.
        apply (f_equal (@length event)) in Ht. rewrite length_app in Ht.
        cbn [length] in Ht. lia. }
      rewrite fetches_icon_get by exact Hlogs. rewrite Hicon. cbn [andb].
      destruct (String.eqb (record_code r) code) eqn:Ecode.
      * apply String.eqb_eq in Ecode. subst code.
        unfold cached. rewrite Hins, lookup_insert_eq, Hnone. reflexivity.
      * apply String.eqb_neq in Ecode.
        unfold cached. rewrite Hins, lookup_insert_ne by exact Ecode. reflexivity.
Qed.

End Icons.

(** X20: a forecast none of whose records has a true icon code ([None]
    or 0) is rendered without any request and without attachment: every
    summary entry is the description in parentheses and every detail
    section shows ["(icon unavailable)"]. *)
Theorem iconless_forecast_needs_no_network `{RT : PyRuntime} (W : world)
    (forecast_data : list forecast) (city : string) (t : list event) :
  forallb (fun r => negb (truthy (icon r))) forecast_data = true ->
  render W forecast_data city t =
    (Ok {| fetched_icons := ∅;
           email_images := [];
           html_content := plain_report forecast_data city |}, t).
Proof.
  intros H. unfold render, bind.
  rewrite (summary_loop_iconless W forecast_data _ _ H).
  assert (Hmap : map (detail_step ∅) forecast_data
                 = map (fun r => Detail TagDefault (detail_of r)) forecast_data).
  { apply map_ext_in. intros r Hr. unfold detail_step, detail_tag.
    rewrite forallb_forall in H. specialize (H r Hr). apply negb_true_iff in H.
    rewrite H. reflexivity. }
  unfold ret, plain_report.
  cbn [add_html fetched_icons email_images html_content app].
  rewrite Hmap, <- !app_assoc. reflexivity.
Qed.

Lemma iconless_forecast_needs_no_network_witness :
  @render sample_runtime offline_world [iconless_record] "Springfield" [] =
    (Ok {| fetched_icons := ∅;
           email_images := [];
           html_content := @plain_report sample_runtime [iconless_record] "Springfield" |},
     []).
Proof.
  apply (@iconless_forecast_needs_no_network sample_runtime offline_world
           [iconless_record] "Springfield" []).
  reflexivity.
Defined.

(** X21: while a report is rendered, the icon of a code is requested
    exactly once if some record with a true icon code has that code, and
    never otherwise, whatever the network answers. *)
Theorem icons_requested_exactly_once `{RT : PyRuntime} (W : world)
    (forecast_data : list forecast) (city : string) (t : list event) :
  exists st added,
    render W forecast_data city t = (Ok st, (t ++ added)%list) /\
    forall code,
      fetches code added = if needs_icon code forecast_data then 1%nat else 0%nat.
Proof.
  destruct (render_spec W forecast_data city t) as (st & added & Hrender & _).
  exists st, added. split; [exact Hrender|]. intros code.
  unfold render, bind in Hrender.
  destruct (foldM (summary_step W) _ forecast_data t) as [[st1|e] t1] eqn:Hloop;
    [|discriminate].
  unfold ret in Hrender. injection Hrender as Hst Ht. subst t1.
  rewrite (summary_loop_fetches W _ _ _ _ _ code Hloop).
  unfold cached. cbn [fetched_icons]. rewrite lookup_empty. reflexivity.
Qed.

(** X22: every attachment of a rendered report belongs to a record of
    the forecast: its content identifier is the one built from the date
    and the icon code of that record, and its bytes are the body of a
    response to the request for the icon of that code, a response that
    passed [raise_for_status]. *)
Theorem attachments_are_fetched_icons `{RT : PyRuntime} (W : world)
    (forecast_data : list forecast) (city : string) (t : list event) :
  exists st added,
    render W forecast_data city t = (Ok st, (t ++ added)%list) /\
    forall icon_bytes cid, In (icon_bytes, cid) (email_images st) ->
      exists r t0 resp,
        In r forecast_data /\ truthy (icon r) = true /\
        cid = image_cid (date_str r) (icon_code_str (icon r)) /\
        http W t0 (icon_request (icon_code_str (icon r))) = Response resp /\
        raise_for_status resp = Ok tt /\
        content resp = icon_bytes.
Proof.
  destruct (render_spec W forecast_data city t)
    as (st & added & Hrender & _ & _ & _ & Horigin).
  destruct (render_images W _ _ _ _ _ Hrender) as (Hsound & _).
  exists st, added. split; [exact Hrender|]. intros b cid Hin.
  destruct (Hsound b cid Hin) as (r & Hr & Hicon & -> & Hlook).
  destruct (Horigin _ _ Hlook) as (t0 & Hv).
  unfold fetched_value in Hv. fold (record_code r).
  destruct (http W t0 (icon_request (record_code r))) as [|resp] eqn:Ehttp;
    [discriminate|].
  exists r, t0, resp. unfold raise_for_status.
  destruct ((400 <=? status_code resp) && (status_code resp <? 600)); [discriminate|].
  inversion Hv. repeat split; auto.
Qed.

Lemma shared_icon_two_cids_witness :
  exists st t',
    @render sample_runtime sample_world sample_records "Springfield" [] = (Ok st, t') /\
    @record_cid sample_runtime (sample_record 1709164800 3)
      <> @record_cid sample_runtime (sample_record 1709251200 3) /\
    In (@record_cid sample_runtime (sample_record 1709164800 3))
       (map snd (email_images st)) /\
    In (@record_cid sample_runtime (sample_record 1709251200 3))
       (map snd (email_images st)).
Proof.
  eexists _, _. split; [vm_compute; reflexivity|].
  eapply (@shared_icon_two_cids sample_runtime sample_world sample_records
            "Springfield" []).
  - vm_compute. reflexivity.
  - left. reflexivity.
  - right. left. reflexivity.
  - reflexivity.
  - reflexivity.
  - reflexivity.
  - vm_compute. discriminate.
  - vm_compute. reflexivity.
Defined.

(** ** Content identifiers and icon addresses, concretely *)

Lemma dates_checked : range_all (Z.to_nat DAYS_2100) 0 date_reads_back = true.
Proof. vm_compute. reflexivity. Qed.

(** The date string depends on the day only. *)
Lemma strftime_date_of_day t : strftime_date t = strftime_date (day_number t * DAY).
Proof.
  unfold strftime_date. replace (day_number (day_number t * DAY)) with (day_number t);
    [reflexivity|].
  unfold day_number at 2, DAY. rewrite Z.div_mul by lia. reflexivity.
Qed.

(** From 1970 to 2099 the date string has ten characters and reads
    back as the day it was made from. *)
Lemma date_reads_back_spec t :
  0 <= t < DAYS_2100 * DAY ->
  date_day (strftime_date t) = Some (day_number t) /\
  String.length (strftime_date t) = 10%nat.
Proof.
  intros Ht.
  assert (Hd : 0 <= day_number t < 0 + Z.of_nat (Z.to_nat DAYS_2100)).
  { unfold day_number, DAY, DAYS_2100 in *. split.
    - apply Z.div_pos; lia.
    - apply Z.div_lt_upper_bound; lia. }
  pose proof (range_all_spec _ _ _ dates_checked _ Hd) as H.
  unfold date_reads_back in H. rewrite <- strftime_date_of_day in H.
  destruct (date_day (strftime_date t)) as [d'|]; [|discriminate].
  apply andb_prop in H as [H1 H2]. apply Z.eqb_eq in H1. apply Nat.eqb_eq in H2.
  subst. auto.
Qed.

Lemma append_inj_length a : forall b x y,
  String.length a = String.length b ->
  a +:+ x = b +:+ y -> a = b /\ x = y.
Proof.
  induction a as [|c a IH]; intros [|c' b] x y Hlen H; try discriminate Hlen.
  - auto.
  - rewrite !append_cons in H. injection H as -> H.
    injection Hlen as Hlen. destruct (IH _ _ _ Hlen H) as [-> ->]. auto.
Qed.

(** X24: for dates from 1970 to 2099, two content identifiers built
    from the date string and an icon code are equal only if the dates
    fall on the same UTC day and the codes are the same: records of
    different days, or with different icons, never share an
    attachment name. *)
Theorem content_identifiers_tell_days_apart (t1 t2 : datetime) (c1 c2 : string) :
  0 <= t1 < DAYS_2100 * DAY ->
  0 <= t2 < DAYS_2100 * DAY ->
  day_number t1 <> day_number t2 \/ c1 <> c2 ->
  image_cid (strftime_date t1) c1 <> image_cid (strftime_date t2) c2.
Proof.
  intros H1 H2 Hdiff Heq.
  destruct (date_reads_back_spec t1 H1) as [Hd1 Hl1].
  destruct (date_reads_back_spec t2 H2) as [Hd2 Hl2].
  unfold image_cid in Heq. apply String.app_inj in Heq.
  apply append_inj_length in Heq as [Hdate Hcode]; [|congruence].
  destruct Hdiff as [Hday|Hc].
  - apply Hday. rewrite Hdate in Hd1. congruence.
  - apply Hc. rewrite !append_cons, !append_nil in Hcode.
    injection Hcode as Hcode. exact Hcode.
Qed.

Lemma content_identifiers_tell_days_apart_witness :
  image_cid (strftime_date (1709164800 * 1000000)) "03"
    <> image_cid (strftime_date (1709251200 * 1000000)) "03".
Proof.
  apply (content_identifiers_tell_days_apart (1709164800 * 1000000)
           (1709251200 * 1000000) "03" "03");
    [vm_compute; split; congruence|vm_compute; split; congruence|].
  left. vm_compute. discriminate.
Defined.

Lemma codes_checked `{RT : PyRuntime} :
  range_all (Z.to_nat 44) 1 two_digit_code = true.
Proof. vm_compute. reflexivity. Qed.

(** X25: for the icon numbers 1 to 44 of the provider, the code used in
    the icon address and in the content identifier has two characters:
    the number, with a leading zero below 10; the address requested is
    the one of the file [NN-s.png]. *)
Theorem icon_code_is_zero_padded `{RT : PyRuntime} (n : Z) :
  1 <= n <= 44 ->
  icon_code_str (PInt n) = (if n <? 10 then "0" else EmptyString) +:+ str_of_Z n /\
  String.length (icon_code_str (PInt n)) = 2%nat /\
  url (icon_request (icon_code_str (PInt n))) =
    "https://developer.accuweather.com/sites/default/files/"
    +:+ (if n <? 10 then "0" else EmptyString) +:+ str_of_Z n +:+ "-s.png".
Proof.
  intros Hn.
  pose proof (range_all_spec _ _ _ codes_checked n ltac:(lia)) as H.
  unfold two_digit_code in H. apply andb_prop in H as [H1 H2].
  apply String.eqb_eq in H1. apply Nat.eqb_eq in H2.
  split; [exact H1|]. split; [exact H2|].
  cbn [icon_request url]. unfold icon_url. rewrite H1.
  rewrite !append_assoc. reflexivity.
Qed.

Lemma icon_code_is_zero_padded_witness :
  @icon_code_str sample_runtime (PInt 7) = "07" /\
  String.length (@icon_code_str sample_runtime (PInt 7)) = 2%nat /\
  url (icon_request (@icon_code_str sample_runtime (PInt 7))) =
    "https://developer.accuweather.com/sites/default/files/07-s.png".
Proof.
  apply (@icon_code_is_zero_padded sample_runtime 7). lia.
Defined.

(** ** [WeatherAlert]: the hand-off to the mail transport *)

Lemma log_is_mail_free ev : is_log ev -> mail_free ev.
Proof. destruct ev; cbn; intros H; try contradiction; reflexivity. Qed.

Lemma retrieval_is_mail_free ev : is_retrieval ev -> mail_free ev.
Proof. intros [_ H]. exact H. Qed.

Lemma mail_free_on_mail (P : mail -> Prop) ev : mail_free ev -> on_mail P ev.
Proof. destruct ev; cbn; intros H; [exact I|exact I|discriminate H]. Qed.

Lemma mails_app a b : mails (a ++ b) = (mails a ++ mails b)%list.
Proof. unfold mails. apply flat_map_app. Qed.

Lemma mails_cons ev l :
  mails (ev :: l) = (match ev with EvMail m => [m] | _ => [] end ++ mails l)%list.
Proof. reflexivity. Qed.

Lemma mails_free l : Forall mail_free l -> mails l = [].
Proof.
  induction 1 as [|ev l Hev _ IH]; [reflexivity|].
  unfold mails in *. cbn [flat_map]. rewrite IH.
  destruct ev; try reflexivity. discriminate Hev.
Qed.

Lemma mails_logs l : Forall is_log l -> mails l = [].
Proof.
  intros H. apply mails_free. eapply Forall_impl; [exact H|]. apply log_is_mail_free.
Qed.

(** *** Computations with at most one hand-off, at their end *)

Lemma ends_in_mail_writes {A} (c : M A) : writes mail_free c -> ends_in_mail c.
Proof.
  intros Hc t r t' H. apply Hc in H as (added & -> & F).
  exists added. split; [reflexivity|]. exists added. auto.
Qed.

Lemma ends_in_mail_after {A B} (c : M A) (k : A -> M B) :
  writes mail_free c -> (forall a, ends_in_mail (k a)) -> ends_in_mail (bind c k).
Proof.
  intros Hc Hk t r t' H. unfold bind in H.
  destruct (c t) as [[a|e] t1] eqn:E.
  - apply Hc in E as (l1 & -> & F1).
    apply Hk in H as (l2 & -> & before & F2 & Hshape).
    exists (l1 ++ l2)%list. rewrite app_assoc. split; [reflexivity|].
    exists (l1 ++ before)%list. split; [apply Forall_app; auto|].
    destruct Hshape as [->|(m & logs & -> & Hlogs)]; [left; reflexivity|].
    right. exists m, logs. rewrite <- app_assoc. auto.
  - inversion H; subst. apply Hc in E as (l1 & -> & F1).
    exists l1. split; [reflexivity|]. exists l1. auto.
Qed.

Lemma ends_in_mail_then_logs {A B} (c : M A) (k : A -> M B) :
  ends_in_mail c -> (forall a, writes is_log (k a)) -> ends_in_mail (bind c k).
Proof.
  intros Hc Hk t r t' H. unfold bind in H.
  destruct (c t) as [[a|e] t1] eqn:E.
  - apply Hc in E as (l1 & -> & before & F1 & Hshape).
    apply Hk in H as (l2 & -> & F2).
    exists (l1 ++ l2)%list. rewrite app_assoc. split; [reflexivity|].
    destruct Hshape as [->|(m & logs & -> & Hlogs)].
    + exists (before ++ l2)%list. split; [|left; reflexivity].
      apply Forall_app. split; [exact F1|].
      eapply Forall_impl; [exact F2|]. apply log_is_mail_free.
    + exists before. split; [exact F1|]. right. exists m, (logs ++ l2)%list.
      rewrite <- app_assoc. split; [reflexivity|]. apply Forall_app; auto.
  - inversion H; subst. apply Hc in E. exact E.
Qed.

Section Mailing.
Context `{RT : PyRuntime} (W : world).

Lemma send_email_trace m t :
  exists logs,
    send_email_with_images W m t = (Ok tt, (t ++ EvMail m :: logs)%list) /\
    Forall is_log logs.
Proof.
  unfold send_email_with_images.
  unfold bind at 1. unfold emit at 1. cbv beta iota.
  destruct (forallb _ (mail_images m)).
  - unfold bind at 1. cbv beta iota.
    destruct (smtp W (t ++ [EvMail m])%list m) as [smtp_error|smtp_error|];
      (eexists; split;
       [unfold bind, log, emit; cbn; rewrite <- !app_assoc; reflexivity
       |repeat constructor]).
  - eexists. split;
      [unfold bind, log, emit; cbn; rewrite <- !app_assoc; reflexivity
      |repeat constructor].
Qed.

(** Rendering hands nothing to the mail transport. *)
Lemma writes_render forecast_data city :
  writes mail_free (render W forecast_data city).
Proof.
  unfold render, summary_step, fetch_icon. writes_auto; reflexivity.
Qed.

Lemma writes_send_email (P : mail -> Prop) m :
  P m -> writes (on_mail P) (send_email_with_images W m).
Proof.
  intros Hm t r t' H. destruct (send_email_trace m t) as (logs & E & Hlogs).
  rewrite E in H. inversion H; subst. eexists. split; [reflexivity|].
  constructor; [exact Hm|]. eapply Forall_impl; [exact Hlogs|].
  intros ev Hev. destruct ev; try contradiction. exact I.
Qed.

(** The [if forecast_data:] branch, event by event. *)
Lemma deliver_trace first others user password to city t :
  exists st added logs,
    render W (first :: others) city t = (Ok st, (t ++ added)%list) /\
    deliver W (Some (first :: others)) user password to city t =
      (Ok tt,
       (t ++ added
          ++ EvLog INFO MsgSendingMail
          :: EvMail {| mail_user := user;
                       mail_password := password;
                       mail_to := to;
                       mail_subject := email_subject (S (length others)) city;
                       mail_html := html_content st;
                       mail_images := email_images st |}
          :: logs)%list) /\
    Forall mail_free added /\
    Forall is_log logs.
Proof.
  destruct (render_spec W (first :: others) city t) as (st & added & Hrender & _).
  destruct (writes_render _ _ _ _ _ Hrender) as (added' & Heq & Hfree).
  apply app_inv_head in Heq. subst added'.
  destruct (send_email_trace
              {| mail_user := user; mail_password := password; mail_to := to;
                 mail_subject := email_subject (S (length others)) city;
                 mail_html := html_content st; mail_images := email_images st |}
              ((t ++ added) ++ [EvLog INFO MsgSendingMail])%list)
    as (logs & Hsend & Hlogs).
  exists st, added, logs. split; [exact Hrender|]. split; [|split; assumption].
  unfold deliver. rewrite (bind_ok _ _ _ _ _ Hrender).
  unfold bind at 1. unfold log at 1. unfold emit at 1. cbv beta iota.
  cbn [length]. rewrite Hsend. rewrite <- !app_assoc. reflexivity.
Qed.

Lemma ends_in_mail_send m : ends_in_mail (send_email_with_images W m).
Proof.
  intros t r t' H. destruct (send_email_trace m t) as (logs & E & Hlogs).
  rewrite E in H. inversion H; subst.
  eexists. split; [reflexivity|]. exists []. split; [constructor|].
  right. exists m, logs. auto.
Qed.

Lemma ends_in_mail_deliver forecast_data user password to city :
  ends_in_mail (deliver W forecast_data user password to city).
Proof.
  unfold deliver. destruct forecast_data as [[|first others]|].
  - apply ends_in_mail_writes, writes_log. reflexivity.
  - apply ends_in_mail_after; [apply writes_render|]. intros st.
    apply ends_in_mail_after; [apply writes_log; reflexivity|]. intros _.
    apply ends_in_mail_send.
  - apply ends_in_mail_writes, writes_log. reflexivity.
Qed.

Lemma ends_in_mail_notify api_key user password to lat lon city days :
  ends_in_mail (notify W api_key user password to lat lon city days).
Proof.
  unfold notify.
  apply ends_in_mail_after; [apply writes_log; reflexivity|]. intros _.
  apply ends_in_mail_after.
  { eapply writes_weaken; [|apply writes_location_key].
    intros ev H. apply retrieval_is_mail_free, resolution_is_retrieval, H. }
  intros location_key. destruct (truthy location_key).
  - apply ends_in_mail_after; [apply writes_log; reflexivity|]. intros _.
    apply ends_in_mail_after.
    { eapply writes_weaken; [|apply writes_forecast]. apply retrieval_is_mail_free. }
    intros forecast_data.
    apply ends_in_mail_then_logs; [apply ends_in_mail_deliver|].
    intros _. apply writes_log. exact I.
  - apply ends_in_mail_writes, writes_log. reflexivity.
Qed.

Lemma ends_in_mail_alert : ends_in_mail (WeatherAlert W).
Proof.
  unfold WeatherAlert.
  apply ends_in_mail_after.
  { destruct (timer_past_due W); [apply writes_log|apply writes_ret]. reflexivity. }
  intros _.
  apply ends_in_mail_after; [apply writes_log; reflexivity|]. intros _.
  apply ends_in_mail_after; [apply writes_lift|]. intros forecast_days.
  destruct (List.filter (env_missing W) required_vars).
  - destruct (_ && _).
    + apply ends_in_mail_notify.
    + apply ends_in_mail_writes, writes_log. reflexivity.
  - apply ends_in_mail_writes, writes_log. reflexivity.
Qed.

(** A property of every rendered report holds of every message a run
    hands to the mail transport. *)
Lemma writes_alert_mails (P : mail -> Prop) :
  (forall forecast_data city t st t' user password to subject,
      render W forecast_data city t = (Ok st, t') ->
      P {| mail_user := user; mail_password := password; mail_to := to;
           mail_subject := subject;
           mail_html := html_content st; mail_images := email_images st |}) ->
  writes (on_mail P) (WeatherAlert W).
Proof.
  intros HP.
  apply writes_alert; [intros; exact I|].
  intros api_key user password to lat lon city days. unfold notify.
  apply writes_bind; [apply writes_log; exact I|]. intros _.
  apply writes_bind.
  { eapply writes_weaken; [|apply writes_location_key].
    intros ev H. apply mail_free_on_mail, retrieval_is_mail_free,
                   resolution_is_retrieval, H. }
  intros location_key. destruct (truthy location_key); [|apply writes_log; exact I].
  apply writes_bind; [apply writes_log; exact I|]. intros _.
  apply writes_bind.
  { eapply writes_weaken; [|apply writes_forecast].
    intros ev H. apply mail_free_on_mail, retrieval_is_mail_free, H. }
  intros forecast_data.
  apply writes_bind; [|intros _; apply writes_log; exact I].
  unfold deliver. destruct forecast_data as [[|first others]|];
    try (apply writes_log; exact I).
  apply (writes_bind_post _
           (fun st => exists t t', render W (first :: others) city t = (Ok st, t'))).
  - eapply writes_weaken; [|apply writes_render]. apply mail_free_on_mail.
  - intros t r t' E. destruct r; [eauto|exact I].
  - intros st (t & t' & Hrender).
    apply writes_bind; [apply writes_log; exact I|]. intros _.
    apply writes_send_email. eapply HP. exact Hrender.
Qed.

(** The forecast of a well-formed payload, for any day count. *)
Lemma forecast_run location_key api_key days t kv payload :
  answers_with W (forecast_request location_key api_key (effective_days days)) kv ->
  assoc "DailyForecasts" kv = Some (PList payload) ->
  forallb daily_wf payload = true ->
  exists rs added,
    get_accuweather_forecast W location_key api_key days t =
      (Ok (Some (firstn (Z.to_nat (effective_days days)) (sort_by_date rs))),
       (t ++ added)%list) /\
    Forall mail_free added /\
    length rs = length payload.
Proof.
  intros Hanswers Ha Hwf.
  assert (Hsup : forall d t0, supported_days d = true ->
             answers_with W (forecast_request location_key api_key d) kv ->
             exists rs t',
               get_accuweather_forecast W location_key api_key d t0 =
                 (Ok (Some (firstn (Z.to_nat d) (sort_by_date rs))), t') /\
               length rs = length payload).
  { intros d t0 Hs Hd. destruct (Hd t0) as (resp & Hhttp & Hstatus & Hjson).
    destruct (parse_forecast_wf kv payload d
                (t0 ++ [EvGet (forecast_request location_key api_key d)])%list Ha Hwf)
      as (rs & t' & Hparse & Hkeys).
    exists rs, t'. split.
    - unfold get_accuweather_forecast. rewrite Hs. unfold bind at 1. cbn [ret].
      unfold try_except, bind, requests_get, response_json.
      rewrite Hhttp, Hstatus, Hjson. cbn [lift]. rewrite Hparse. reflexivity.
    - rewrite <- (length_map sort_key rs), Hkeys, length_map. reflexivity. }
  assert (Hrun : exists rs t',
             get_accuweather_forecast W location_key api_key days t =
               (Ok (Some (firstn (Z.to_nat (effective_days days)) (sort_by_date rs))), t') /\
             length rs = length payload).
  { unfold effective_days in *. destruct (supported_days days) eqn:Hs.
    - apply Hsup; assumption.
    - rewrite (forecast_unsupported W _ _ _ _ Hs). apply Hsup; [reflexivity|assumption]. }
  destruct Hrun as (rs & t' & Hrun & Hlen).
  destruct (writes_forecast W _ _ _ _ _ _ Hrun) as (added & -> & Hadded).
  exists rs, added. split; [exact Hrun|]. split; [|exact Hlen].
  eapply Forall_impl; [exact Hadded|]. apply retrieval_is_mail_free.
Qed.

(** With a complete and valid configuration the run is the run of the
    three stages. *)
Lemma alert_valid_config days t :
  parse_int (env_or W "FORECAST_DAYS" "5") = Some days ->
  List.filter (env_missing W) required_vars = [] ->
  values_valid W days = true ->
  WeatherAlert W t =
    notify W (env_or W "ACCUWEATHER_API_KEY" EmptyString)
      (env_or W "GMAIL_USER" EmptyString) (env_or W "GMAIL_PASSWORD" EmptyString)
      (env_or W "TO_EMAIL" EmptyString) (env_or W "LATITUDE" EmptyString)
      (env_or W "LONGITUDE" EmptyString) (env_or W "CITY_NAME" "Unknown Location") days
      (t ++ past_due_log W ++ [EvLog INFO MsgStarted])%list.
Proof.
  intros Hdays Hmissing Hvalid. unfold WeatherAlert, past_due_log.
  unfold values_valid in Hvalid. rewrite Hdays, Hmissing.
  unfold bind at 1.
  destruct (timer_past_due W);
    [unfold log at 1; unfold emit at 1|unfold ret at 1]; cbv beta iota;
    unfold bind at 1; unfold log at 1; unfold emit at 1; cbv beta iota;
    unfold bind at 1; unfold lift at 1; cbv beta iota;
    rewrite Hvalid, <- ?app_assoc; reflexivity.
Qed.

Lemma notify_valid_run api_key user password to lat lon city days t kv1 kv2 key payload :
  answers_with W (location_request lat lon api_key) kv1 ->
  assoc "Key" kv1 = Some key ->
  truthy key = true ->
  answers_with W (forecast_request key api_key (effective_days days)) kv2 ->
  assoc "DailyForecasts" kv2 = Some (PList payload) ->
  forallb daily_wf payload = true ->
  payload <> [] ->
  exists added m,
    notify W api_key user password to lat lon city days t = (Ok tt, (t ++ added)%list) /\
    mails added = [m] /\
    mail_user m = user /\
    mail_to m = to /\
    mail_subject m =
      email_subject (Nat.min (Z.to_nat (effective_days days)) (length payload)) city /\
    last added = Some (EvLog INFO MsgFinished).
Proof.
  intros Hloc Hkey Htruthy Hfc Ha Hwf Hne.
  set (t1 := (t ++ [EvLog INFO (MsgFetchingKey city lat lon)])%list).
  destruct (Hloc t1) as (resp1 & Hhttp1 & Hstatus1 & Hjson1).
  set (t2 := (t1 ++ [EvGet (location_request lat lon api_key);
                     EvLog INFO (MsgFoundKey key lat lon)])%list).
  assert (Hresolve : get_accuweather_location_key W lat lon api_key t1 = (Ok key, t2)).
  { unfold get_accuweather_location_key, try_except, bind, requests_get, response_json.
    rewrite Hhttp1, Hstatus1, Hjson1. cbn [lift]. unfold location_key_of.
    destruct kv1 as [|p kv1]; [discriminate|]. cbn [truthy]. rewrite Hkey.
    unfold log, emit, ret, t2. rewrite <- app_assoc. reflexivity. }
  set (t3 := (t2 ++ [EvLog INFO (MsgFetchingForecast days key)])%list).
  destruct (forecast_run key api_key days t3 kv2 payload Hfc Ha Hwf)
    as (rs & added_f & Hforecast & Hfree_f & Hlen).
  pose proof (effective_days_bound days) as Hbound.
  destruct (firstn (Z.to_nat (effective_days days)) (sort_by_date rs))
    as [|first others] eqn:Ekept.
  { exfalso. apply (f_equal (@length forecast)) in Ekept.
    rewrite List.length_firstn, (Permutation_length (sort_by_date_perm rs)), Hlen in Ekept.
    destruct payload; [congruence|]. cbn [length] in Ekept. lia. }
  assert (Hcount : S (length others)
                   = Nat.min (Z.to_nat (effective_days days)) (length payload)).
  { change (S (length others)) with (length (first :: others)). rewrite <- Ekept.
    rewrite List.length_firstn, (Permutation_length (sort_by_date_perm rs)), Hlen.
    reflexivity. }
  destruct (deliver_trace first others user password to city (t3 ++ added_f)%list)
    as (st & added_r & logs & _ & Hdeliver & Hfree_r & Hlogs).
  eexists _, _. split; [|split; [|split; [|split; [|split]]]].
  - unfold notify.
    unfold bind at 1. unfold log at 1. unfold emit at 1. cbv beta iota.
    fold t1. rewrite (bind_ok _ _ _ _ _ Hresolve), Htruthy.
    unfold bind at 1. unfold log at 1. unfold emit at 1. cbv beta iota.
    fold t3. rewrite (bind_ok _ _ _ _ _ Hforecast).
    unfold bind at 1. rewrite Hdeliver.
    unfold log, emit.
    unfold t3, t2, t1. rewrite <- !app_assoc. reflexivity.
  - rewrite !mails_app. rewrite (mails_free _ Hfree_f), (mails_free _ Hfree_r).
    rewrite !mails_cons, (mails_logs _ Hlogs). reflexivity.
  - reflexivity.
  - reflexivity.
  - cbn [mail_subject]. rewrite Hcount. reflexivity.
  - rewrite !app_assoc. apply last_snoc.
Qed.

End Mailing.

(** X26: for a forecast with at least one record, [deliver] renders
    the report and hands exactly one message to the mail transport: from
    the configured user to the configured recipient, its subject counting
    the records of the forecast (not the days asked for), its body and
    attachments those of the rendered report. *)
Theorem nonempty_forecast_is_mailed `{RT : PyRuntime} (W : world)
    (first : forecast) (others : list forecast)
    (user password to city : string) (t : list event) :
  exists added m st t',
    deliver W (Some (first :: others)) user password to city t
      = (Ok tt, (t ++ added)%list) /\
    mails added = [m] /\
    mail_user m = user /\ mail_password m = password /\ mail_to m = to /\
    mail_subject m = email_subject (S (length others)) city /\
    render W (first :: others) city t = (Ok st, t') /\
    mail_html m = html_content st /\
    mail_images m = email_images st.
Proof.
  destruct (deliver_trace W first others user password to city t)
    as (st & added & logs & Hrender & Hdeliver & Hfree & Hlogs).
  eexists _, _, st, _. split; [exact Hdeliver|]. split.
  - rewrite mails_app, (mails_free _ Hfree). cbn. f_equal.
    fold (mails logs). apply mails_logs, Hlogs.
  - repeat split; try reflexivity. exact Hrender.
Qed.

(** X27: whatever the configuration and the network, a run of
    [WeatherAlert] calls [send_email_with_images] at most once; every
    request of the run comes before that call, and only log records
    come after it. *)
Theorem one_mail_at_the_end `{RT : PyRuntime} (W : world) (t : list event) :
  exists added,
    snd (WeatherAlert W t) = (t ++ added)%list /\
    mail_last added /\
    (length (mails added) <= 1)%nat.
Proof.
  destruct (WeatherAlert W t) as [r t'] eqn:E.
  destruct (ends_in_mail_alert W _ _ _ E) as (added & -> & Hshape).
  exists added. split; [reflexivity|]. split; [exact Hshape|].
  destruct Hshape as (before & Hfree & Hcase).
  destruct Hcase as [->|(m & logs & -> & Hlogs)].
  - rewrite (mails_free _ Hfree). cbn. lia.
  - rewrite mails_app, mails_cons, (mails_free _ Hfree), (mails_logs _ Hlogs).
    cbn. lia.
Qed.

(** X28: in a world where no icon comes back with an empty body, every
    message a run of [WeatherAlert] hands to the mail transport refers,
    in its HTML body, to exactly the content identifiers of its
    attachments. *)
Theorem mailed_report_matches_attachments `{RT : PyRuntime} (W : world)
    (t : list event) :
  (forall t0 code, fetched_value (http W t0 (icon_request code)) <> Some []) ->
  exists added,
    snd (WeatherAlert W t) = (t ++ added)%list /\
    forall m, In m (mails added) -> cids_agree m.
Proof.
  intros Hbody.
  assert (Hw : writes (on_mail cids_agree) (WeatherAlert W)).
  { apply writes_alert_mails.
    intros forecast_data city t0 st t' user password to subject Hrender.
    destruct (cids_agree_when_bodies_nonempty W forecast_data city t0 Hbody)
      as (st' & added & Hrender' & Hagree).
    rewrite Hrender in Hrender'. inversion Hrender'; subst st'. exact Hagree. }
  destruct (WeatherAlert W t) as [r t'] eqn:E.
  destruct (Hw _ _ _ E) as (added & -> & Hall).
  exists added. split; [reflexivity|].
  intros m Hm. unfold mails in Hm. apply in_flat_map in Hm as (ev & Hev & Hm).
  rewrite Forall_forall in Hall. apply list_elem_of_In, Hall in Hev.
  destruct ev; try contradiction. destruct Hm as [<-|[]]. exact Hev.
Qed.

Lemma mailed_report_matches_attachments_witness :
  exists added,
    snd (@WeatherAlert sample_runtime sample_world []) = ([] ++ added)%list /\
    forall m, In m (mails added) -> cids_agree m.
Proof.
  apply (@mailed_report_matches_attachments sample_runtime sample_world []).
  intros t0 code. vm_compute. discriminate.
Defined.

(** X29: with a complete and valid configuration, a geoposition answer
    holding a true key and a forecast answer holding at least one record,
    all of them well formed, the run ends normally after handing exactly
    one message to the mail transport: from [GMAIL_USER] to [TO_EMAIL],
    its subject naming the city ([CITY_NAME], or "Unknown Location") and
    the number of records kept, the smaller of the day count the request
    was made with and the number of records delivered; its last log
    record says that the function finished. *)
Theorem valid_run_mails_forecast `{RT : PyRuntime} (W : world) (t : list event)
    (days : Z) (kv1 kv2 : list (string * pyval)) (key : pyval)
    (payload : list pyval) :
  parse_int (env_or W "FORECAST_DAYS" "5") = Some days ->
  List.filter (env_missing W) required_vars = [] ->
  values_valid W days = true ->
  answers_with W
    (location_request (env_or W "LATITUDE" EmptyString) (env_or W "LONGITUDE" EmptyString)
       (env_or W "ACCUWEATHER_API_KEY" EmptyString)) kv1 ->
  assoc "Key" kv1 = Some key ->
  truthy key = true ->
  answers_with W
    (forecast_request key (env_or W "ACCUWEATHER_API_KEY" EmptyString)
       (effective_days days)) kv2 ->
  assoc "DailyForecasts" kv2 = Some (PList payload) ->
  forallb daily_wf payload = true ->
  payload <> [] ->
  exists added m,
    WeatherAlert W t = (Ok tt, (t ++ added)%list) /\
    mails added = [m] /\
    mail_user m = env_or W "GMAIL_USER" EmptyString /\
    mail_to m = env_or W "TO_EMAIL" EmptyString /\
    mail_subject m =
      email_subject (Nat.min (Z.to_nat (effective_days days)) (length payload))
        (env_or W "CITY_NAME" "Unknown Location") /\
    last added = Some (EvLog INFO MsgFinished).
Proof.
  intros Hdays Hmissing Hvalid Hloc Hkey Htruthy Hfc Ha Hwf Hne.
  rewrite (alert_valid_config W days t Hdays Hmissing Hvalid).
  destruct (notify_valid_run W _ (env_or W "GMAIL_USER" EmptyString)
              (env_or W "GMAIL_PASSWORD" EmptyString) (env_or W "TO_EMAIL" EmptyString)
              _ _ (env_or W "CITY_NAME" "Unknown Location") days
              (t ++ past_due_log W ++ [EvLog INFO MsgStarted])%list
              kv1 kv2 key payload Hloc Hkey Htruthy Hfc Ha Hwf Hne)
    as (added & m & Hrun & Hmails & Huser & Hto & Hsubject & Hlast).
  exists (past_due_log W ++ [EvLog INFO MsgStarted] ++ added)%list, m.
  split; [rewrite Hrun, <- !app_assoc; reflexivity|].
  split; [|split; [exact Huser|split; [exact Hto|split; [exact Hsubject|]]]].
  - rewrite !mails_app, Hmails. unfold past_due_log.
    destruct (timer_past_due W); reflexivity.
  - rewrite !app_assoc. destruct added as [|ev added] using rev_ind; [discriminate|].
    rewrite last_snoc in Hlast. rewrite !app_assoc. rewrite last_snoc. exact Hlast.
Qed.

Lemma valid_run_mails_forecast_witness :
  exists added m,
    @WeatherAlert sample_runtime sample_world [] = (Ok tt, ([] ++ added)%list) /\
    mails added = [m] /\
    mail_user m = env_or sample_world "GMAIL_USER" EmptyString /\
    mail_to m = env_or sample_world "TO_EMAIL" EmptyString /\
    mail_subject m =
      email_subject (Nat.min (Z.to_nat (effective_days 5)) (length sample_payload))
        (env_or sample_world "CITY_NAME" "Unknown Location") /\
    last added = Some (EvLog INFO MsgFinished).
Proof.
  apply (@valid_run_mails_forecast sample_runtime sample_world [] 5
           [("Key", PStr "328328"); ("DailyForecasts", PList sample_payload)]
           [("Key", PStr "328328"); ("DailyForecasts", PList sample_payload)]
           (PStr "328328") sample_payload);
    try reflexivity; try discriminate.
  - intros t. eexists. repeat split.
  - intros t. eexists. repeat split.
Defined.
